(** * deploydevices.py: claiming devices, creating a network, binding a template

    A shallow embedding of [src/deploydevices.py].  The script talks to the
    Meraki Dashboard through the [requests] module; here every HTTP exchange
    is a [Request] value handed to an abstract dashboard, and the script runs
    in a state monad that threads the dashboard, the list of requests issued
    so far and the lines printed so far.  [sys.exit] and uncaught exceptions
    are the two abnormal results of a computation. *)

From Stdlib Require Import String Ascii List ZArith Bool Lia.
Import ListNotations.

Local Open Scope string_scope.
Local Open Scope list_scope.

(** String concatenation, Python's [+] on [str]. *)
Notation "a +++ b" := (String.append a b) (at level 60, right associativity).

(** The double-quote character, used in messages that quote a name. *)
Definition dquote : string := String (ascii_of_nat 34) EmptyString.

(** Python's [s[:2]]. *)
Definition prefix2 (s : string) : string := substring 0 2 s.

(** Python's [s.split(" ")]: every single space separates, so consecutive
    spaces give empty fields and the result is never empty. *)
Fixpoint split (sep : ascii) (s : string) : list string :=
  match s with
  | EmptyString => [EmptyString]
  | String c s' =>
      if Ascii.eqb c sep then EmptyString :: split sep s'
      else match split sep s' with
           | [] => [String c EmptyString]
           | w :: ws => String c w :: ws
           end
  end.

Definition space : ascii := ascii_of_nat 32.

(** ** JSON values and HTTP exchanges *)

(** A JSON object whose members the script reads as strings. *)
Definition Dict := list (string * string).

Fixpoint dict_get (k : string) (d : Dict) : option string :=
  match d with
  | [] => None
  | (k', v) :: d' => if k' =? k then Some v else dict_get k d'
  end.

(** What [r.json()] gives: an array of objects or a single object. *)
Inductive Json :=
| JArray (records : list Dict)
| JObject (members : Dict).

Record Response := { status_code : Z; json : Json }.

(** [requests.codes.ok] *)
Definition requests_codes_ok : Z := 200.

Definition status_ok (r : Response) : bool := (status_code r =? requests_codes_ok)%Z.

(** One constructor per URL and verb the script uses; the arguments are the
    API key of the header, the values substituted into the URL and the members
    of the JSON body, in the order of the source. *)
Inductive Request :=
| GetOrganizations (p_apikey : string)
| GetSnmp (p_apikey p_orgid : string)
| GetNetworks (p_apikey p_shardurl p_orgid : string)
| PostNetworks (p_apikey p_shardurl p_dstorg : string)
               (timeZone tags name organizationId type : string)
| GetConfigTemplates (p_apikey p_shardurl p_orgid : string)
| PostBind (p_apikey p_shardurl p_nwid : string) (configTemplateId autoBind : string)
| PostOrgClaimSerial (p_apikey p_shardurl p_orgid : string) (serial : string)
| PostOrgClaimLicense (p_apikey p_shardurl p_orgid : string) (licenseKey licenseMode : string)
| PostNetworkDevicesClaim (p_apikey p_shardurl p_nwid : string) (serial : string)
| GetNetworkDevice (p_apikey p_shardurl p_nwid p_serial : string)
| PutNetworkDevice (p_apikey p_shardurl p_nwid p_devserial : string)
                   (p_field p_value moveMapMarker : string)
| GetInventory (p_apikey p_shardurl p_orgid : string).

(** ** Local variables of [main] *)

Record Args := {
  arg_apikey : string;
  arg_orgname : string;
  arg_serial : string;
  arg_nwname : string;
  arg_template : string;
  arg_modexisting : string;
  arg_address : string;
  arg_nwtags : string
}.

(** [devicetypes = {'mx': ..., 'ms': ..., 'mr': ...}] *)
Record DeviceTypes := { mx : bool; ms : bool; mr : bool }.

(** [p_nwdata] / [nwparams] *)
Record NwData := {
  nw_name : string;
  nw_timeZone : string;
  nw_tags : string;
  nw_organizationId : string;
  nw_type : string
}.

Record Locals := {
  args : Args;
  stoponerror : bool;
  orgid : string;
  shardurl : string;
  nwid : string;
  templateid : string;
  devicelist_serial : list string;
  devicelist_model : list string;
  devicetypes : DeviceTypes;
  nwtypestring : string;
  validserials : list string
}.

Definition set_stoponerror (v : bool) (L : Locals) : Locals :=
  {| args := args L; stoponerror := v; orgid := orgid L; shardurl := shardurl L;
     nwid := nwid L; templateid := templateid L;
     devicelist_serial := devicelist_serial L; devicelist_model := devicelist_model L;
     devicetypes := devicetypes L; nwtypestring := nwtypestring L;
     validserials := validserials L |}.

Definition set_orgid (v : string) (L : Locals) : Locals :=
  {| args := args L; stoponerror := stoponerror L; orgid := v; shardurl := shardurl L;
     nwid := nwid L; templateid := templateid L;
     devicelist_serial := devicelist_serial L; devicelist_model := devicelist_model L;
     devicetypes := devicetypes L; nwtypestring := nwtypestring L;
     validserials := validserials L |}.

Definition set_shardurl (v : string) (L : Locals) : Locals :=
  {| args := args L; stoponerror := stoponerror L; orgid := orgid L; shardurl := v;
     nwid := nwid L; templateid := templateid L;
     devicelist_serial := devicelist_serial L; devicelist_model := devicelist_model L;
     devicetypes := devicetypes L; nwtypestring := nwtypestring L;
     validserials := validserials L |}.

Definition set_nwid (v : string) (L : Locals) : Locals :=
  {| args := args L; stoponerror := stoponerror L; orgid := orgid L; shardurl := shardurl L;
     nwid := v; templateid := templateid L;
     devicelist_serial := devicelist_serial L; devicelist_model := devicelist_model L;
     devicetypes := devicetypes L; nwtypestring := nwtypestring L;
     validserials := validserials L |}.

Definition set_templateid (v : string) (L : Locals) : Locals :=
  {| args := args L; stoponerror := stoponerror L; orgid := orgid L; shardurl := shardurl L;
     nwid := nwid L; templateid := v;
     devicelist_serial := devicelist_serial L; devicelist_model := devicelist_model L;
     devicetypes := devicetypes L; nwtypestring := nwtypestring L;
     validserials := validserials L |}.

Definition set_devicelist (serial model : list string) (L : Locals) : Locals :=
  {| args := args L; stoponerror := stoponerror L; orgid := orgid L; shardurl := shardurl L;
     nwid := nwid L; templateid := templateid L;
     devicelist_serial := serial; devicelist_model := model;
     devicetypes := devicetypes L; nwtypestring := nwtypestring L;
     validserials := validserials L |}.

Definition set_devicetypes (v : DeviceTypes) (L : Locals) : Locals :=
  {| args := args L; stoponerror := stoponerror L; orgid := orgid L; shardurl := shardurl L;
     nwid := nwid L; templateid := templateid L;
     devicelist_serial := devicelist_serial L; devicelist_model := devicelist_model L;
     devicetypes := v; nwtypestring := nwtypestring L;
     validserials := validserials L |}.

Definition set_nwtypestring (v : string) (L : Locals) : Locals :=
  {| args := args L; stoponerror := stoponerror L; orgid := orgid L; shardurl := shardurl L;
     nwid := nwid L; templateid := templateid L;
     devicelist_serial := devicelist_serial L; devicelist_model := devicelist_model L;
     devicetypes := devicetypes L; nwtypestring := v;
     validserials := validserials L |}.

Definition set_validserials (v : list string) (L : Locals) : Locals :=
  {| args := args L; stoponerror := stoponerror L; orgid := orgid L; shardurl := shardurl L;
     nwid := nwid L; templateid := templateid L;
     devicelist_serial := devicelist_serial L; devicelist_model := devicelist_model L;
     devicetypes := devicetypes L; nwtypestring := nwtypestring L;
     validserials := v |}.

(** ** The command line

    [getopt.getopt(argv, 'hk:o:s:n:c:m:a:t:')] is Python's standard library,
    not code of the script; it is modelled here after the library's
    [getopt], [do_shorts] and [short_has_arg], for the call the script makes:
    short options only, no long option declared. *)

Definition shortopts : string := "hk:o:s:n:c:m:a:t:".

(** [short_has_arg(opt, shortopts)]; [None] is the [GetoptError] for an
    option that is not recognized. *)
Fixpoint short_has_arg (opt : ascii) (letters : string) : option bool :=
  match letters with
  | EmptyString => None
  | String c rest =>
      if Ascii.eqb opt c && negb (Ascii.eqb c ":") then
        Some (match rest with
              | String d _ => Ascii.eqb d ":"
              | EmptyString => false
              end)
      else short_has_arg opt rest
  end.

(** [do_shorts] on the characters after the dash; [next] is the argument
    that follows, if any.  The result is the options read so far and whether
    [next] was taken as the value of an option; [None] is a [GetoptError]
    (unknown option, or a value missing at the end of the command line). *)
Fixpoint do_shorts (opts : list (string * string)) (optstring : string)
    (next : option string) : option (list (string * string) * bool) :=
  match optstring with
  | EmptyString => Some (opts, false)
  | String opt rest =>
      match short_has_arg opt shortopts with
      | None => None
      | Some true =>
          match rest with
          | EmptyString =>
              match next with
              | None => None
              | Some optarg => Some (opts ++ [(String "-" (String opt EmptyString), optarg)], true)
              end
          | String _ _ => Some (opts ++ [(String "-" (String opt EmptyString), rest)], false)
          end
      | Some false =>
          do_shorts (opts ++ [(String "-" (String opt EmptyString), EmptyString)]) rest next
      end
  end.

Inductive GetoptResult :=
| GetoptError
| Parsed (opts : list (string * string)) (args : list string).

(** The loop of [getopt]: it goes on while the first argument starts with a
    dash and is not the dash alone; [--] ends it; any other argument that
    starts with two dashes is a long option, and none is declared. *)
Fixpoint getopt_loop (opts : list (string * string)) (args : list string) : GetoptResult :=
  match args with
  | [] => Parsed opts []
  | a :: rest =>
      match a with
      | EmptyString => Parsed opts args
      | String c optstring =>
          if Ascii.eqb c "-" && negb (a =? "-") then
            if a =? "--" then Parsed opts rest
            else if String.prefix "--" a then GetoptError
            else
              match rest with
              | [] =>
                  match do_shorts opts optstring None with
                  | None => GetoptError
                  | Some (opts', _) => Parsed opts' []
                  end
              | next :: rest' =>
                  match do_shorts opts optstring (Some next) with
                  | None => GetoptError
                  | Some (opts', true) => getopt_loop opts' rest'
                  | Some (opts', false) => getopt_loop opts' rest
                  end
              end
          else Parsed opts args
      end
  end.

Definition getopt (argv : list string) : GetoptResult := getopt_loop [] argv.

Definition newline : ascii := ascii_of_nat 10.

(** ** Pure parts of [main] *)

(** Body of the loop of lines 313-319: one model string updates the flags. *)
Definition devicetypes_update (dt : DeviceTypes) (record : string) : DeviceTypes :=
  if (prefix2 record =? "MX") || (prefix2 record =? "Z1") then
    {| mx := true; ms := ms dt; mr := mr dt |}
  else if prefix2 record =? "MS" then
    {| mx := mx dt; ms := true; mr := mr dt |}
  else if prefix2 record =? "MR" then
    {| mx := mx dt; ms := ms dt; mr := true |}
  else dt.

(** Lines 312-319. *)
Definition compile_devicetypes (models : list string) : DeviceTypes :=
  fold_left devicetypes_update models {| mx := false; ms := false; mr := false |}.

(** Lines 321-332. *)
Definition build_nwtypestring (dt : DeviceTypes) : string :=
  let s := "" in
  let s := if mr dt then s +++ "wireless" else s in
  let s := if (0 <? String.length s)%nat then s +++ " " else s in
  let s := if ms dt then s +++ "switch" else s in
  let s := if (0 <? String.length s)%nat then s +++ " " else s in
  let s := if mx dt then s +++ "appliance" else s in
  s.

(** The test of line 355 on one model string. *)
Definition is_validmodel (model : string) : bool :=
  (model =? "mr") || (model =? "ms") || (model =? "mx").

(** Lines 353-356: an index loop over [range(0, len(devicelist['serial']))]. *)
Definition compile_validserials (serial model : list string) : list string :=
  fold_left
    (fun acc i =>
       if is_validmodel (nth i model "") then acc ++ [nth i serial ""] else acc)
    (seq 0 (List.length serial)) [].

(** ** The script monad *)

Inductive Result (A : Type) :=
| Ok (a : A)
| Exit (code : Z)
| Raise (exc : string).

Arguments Ok {A} a.
Arguments Exit {A} code.
Arguments Raise {A} exc.

(** Computations without effects that may raise. *)
Definition rbind {A B} (e : Result A) (f : A -> Result B) : Result B :=
  match e with
  | Ok a => f a
  | Exit code => Exit code
  | Raise exc => Raise exc
  end.

Notation "x <~ c1 ;; c2" := (rbind c1 (fun x => c2))
  (at level 61, c1 at next level, right associativity).

(** [d[k]] on a dict. *)
Definition getitem (d : Dict) (k : string) : Result string :=
  match dict_get k d with
  | Some v => Ok v
  | None => Raise "KeyError"
  end.

(** [j[k]] on a decoded JSON value; a list has no string subscripts. *)
Definition subscript (j : Json) (k : string) : Result string :=
  match j with
  | JObject d => getitem d k
  | JArray _ => Raise "TypeError"
  end.

(** The values [for record in rjson] binds when each one is then subscripted
    with a string: the elements of an array; iterating an object yields its
    keys, which cannot be subscripted. *)
Definition records_of (rjson : Json) : Result (list Dict) :=
  match rjson with
  | JArray l => Ok l
  | JObject [] => Ok []
  | JObject (_ :: _) => Raise "TypeError"
  end.

(** The scan shared by [getorgid], [getnwid] and [gettemplateid]:
    [for record in rjson: if record['name'] == p_name: return record['id']]
    and ['null'] after the loop. *)
Fixpoint scan_name (records : list Dict) (p_name : string) : Result string :=
  match records with
  | [] => Ok "null"
  | record :: rest =>
      n <~ getitem record "name" ;;
      if n =? p_name then getitem record "id" else scan_name rest p_name
  end.

(** What the three lookups by name return for a response [r]. *)
Definition id_of_name (r : Response) (p_name : string) : Result string :=
  if negb (status_ok r) then Ok "null"
  else
    records <~ records_of (json r) ;;
    scan_name records p_name.

(** The record both device lookups return on failure. *)
Definition null_device : Dict := [("serial", "null"); ("model", "null")].

(** The loop of lines 213-217: the state is [(foundserial, returnvalue)];
    the last matching record wins. *)
Fixpoint inventory_scan (records : list Dict) (p_devserial : string)
    (foundserial : bool) (returnvalue : Dict) : Result (bool * Dict) :=
  match records with
  | [] => Ok (foundserial, returnvalue)
  | record :: rest =>
      s <~ getitem record "serial" ;;
      if s =? p_devserial then
        v_mac <~ getitem record "mac" ;;
        v_serial <~ getitem record "serial" ;;
        v_networkId <~ getitem record "networkId" ;;
        v_model <~ getitem record "model" ;;
        v_claimedAt <~ getitem record "claimedAt" ;;
        v_publicIp <~ getitem record "publicIp" ;;
        inventory_scan rest p_devserial true
          [("mac", v_mac); ("serial", v_serial); ("networkId", v_networkId);
           ("model", v_model); ("claimedAt", v_claimedAt); ("publicIp", v_publicIp)]
      else inventory_scan rest p_devserial foundserial returnvalue
  end.

(** Lines 206-221 of [getorgdeviceinfo], on the response [r] of the listing. *)
Definition orgdevice_of (r : Response) (p_devserial : string) : Result Dict :=
  if negb (status_ok r) then Ok null_device
  else
    records <~ records_of (json r) ;;
    fr <~ inventory_scan records p_devserial false [] ;;
    let (foundserial, returnvalue) := fr in
    if negb foundserial then Ok null_device
    else Ok returnvalue.

(** ** Classifying requests *)

(** The network-creation call. *)
Definition is_creation (req : Request) : bool :=
  match req with
  | PostNetworks _ _ _ _ _ _ _ _ => true
  | _ => false
  end.

(** The calls of the enrollment loop: claim into the network, verification,
    and the writes of hostname and address. *)
Definition is_enrollment (req : Request) : bool :=
  match req with
  | PostNetworkDevicesClaim _ _ _ _ => true
  | GetNetworkDevice _ _ _ _ => true
  | PutNetworkDevice _ _ _ _ _ _ _ => true
  | _ => false
  end.

(** The claim of a device into a network. *)
Definition is_network_claim (req : Request) : bool :=
  match req with
  | PostNetworkDevicesClaim _ _ _ _ => true
  | _ => false
  end.

(** The model family a model string belongs to, in the words of the
    specification: the first two characters, compared exactly. *)
Inductive Family := Appliance | Switch | AccessPoint.

Definition family_spec (model : string) : option Family :=
  if prefix2 model =? "MX" then Some Appliance
  else if prefix2 model =? "Z1" then Some Appliance
  else if prefix2 model =? "MS" then Some Switch
  else if prefix2 model =? "MR" then Some AccessPoint
  else None.

Definition no_devicetypes : DeviceTypes := {| mx := false; ms := false; mr := false |}.

(** Raising the flag of a family in the device mix. *)
Definition mark (dt : DeviceTypes) (f : option Family) : DeviceTypes :=
  match f with
  | Some Appliance => {| mx := true; ms := ms dt; mr := mr dt |}
  | Some Switch => {| mx := mx dt; ms := true; mr := mr dt |}
  | Some AccessPoint => {| mx := mx dt; ms := ms dt; mr := true |}
  | None => dt
  end.

(** The requests one pass of the classification loop issues for a serial that
    the inventory lookup does not resolve. *)
Definition unresolved_calls (L : Locals) (serial : string) : list Request :=
  [PostOrgClaimSerial (arg_apikey (args L)) (shardurl L) (orgid L) serial;
   GetInventory (arg_apikey (args L)) (shardurl L) (orgid L);
   PostOrgClaimLicense (arg_apikey (args L)) (shardurl L) (orgid L) serial "addDevices"].

(** The inventory listing succeeded and no record of it carries the serial. *)
Definition inventory_lacks (r : Response) (p_devserial : string) : bool :=
  status_ok r &&
  match json r with
  | JArray records =>
      forallb (fun record =>
                 match dict_get "serial" record with
                 | Some v => negb (v =? p_devserial)
                 | None => false
                 end) records
  | JObject _ => false
  end.

(** The line printed for a serial the inventory lookup does not resolve. *)
Definition info_line (serial : string) : string :=
  "@ INFO: Serial number " +++ serial +++ " is a license or unsupported device".

(** The valid serials as a filter over the serials paired with their models. *)
Definition validserials_zip (serial model : list string) : list string :=
  map fst (filter (fun p => is_validmodel (snd p)) (combine serial model)).

(** ** Reference functions for the pure parts *)

(** The tests of lines 314, 316 and 318 on one model string. *)
Definition is_mx_model (record : string) : bool :=
  (prefix2 record =? "MX") || (prefix2 record =? "Z1").
Definition is_ms_model (record : string) : bool := prefix2 record =? "MS".
Definition is_mr_model (record : string) : bool := prefix2 record =? "MR".

(** The words of a network type for a device mix, in the order the script
    appends them, and their join with single spaces. *)
Definition type_words (dt : DeviceTypes) : list string :=
  (if mr dt then ["wireless"] else [])
  ++ (if ms dt then ["switch"] else [])
  ++ (if mx dt then ["appliance"] else []).

Definition joined_type (dt : DeviceTypes) : string :=
  String.concat " " (type_words dt).

(** Whether a string contains a character. *)
Fixpoint has_char (c : ascii) (s : string) : bool :=
  match s with
  | EmptyString => false
  | String a s' => Ascii.eqb a c || has_char c s'
  end.

(** The record [getorgdeviceinfo] builds from a matching inventory record
    (line 217). *)
Definition device_fields (mac serial networkId model claimedAt publicIp : string) : Dict :=
  [("mac", mac); ("serial", serial); ("networkId", networkId);
   ("model", model); ("claimedAt", claimedAt); ("publicIp", publicIp)].

(** The requests of each phase of a run. *)
Definition is_lookup (req : Request) : bool :=
  match req with
  | GetOrganizations _ => true
  | GetSnmp _ _ => true
  | GetNetworks _ _ _ => true
  | GetConfigTemplates _ _ _ => true
  | _ => false
  end.

Definition is_org_claim (req : Request) : bool :=
  match req with
  | PostOrgClaimSerial _ _ _ _ => true
  | GetInventory _ _ _ => true
  | PostOrgClaimLicense _ _ _ _ _ => true
  | _ => false
  end.

Definition is_network_phase (req : Request) : bool :=
  match req with
  | GetNetworks _ _ _ => true
  | PostNetworks _ _ _ _ _ _ _ _ => true
  | _ => false
  end.

Definition is_bind (req : Request) : bool :=
  match req with
  | PostBind _ _ _ _ _ => true
  | _ => false
  end.

(** A line meant for the user: it starts with [@] and a space. *)
Definition is_usertext (line : string) : bool :=
  match line with
  | String "@" (String " " _) => true
  | _ => false
  end.

(** The lines of what was printed: [print] ends each text with a newline, so
    a text is one line, and one more for each newline inside it. *)
Definition lines_of (texts : list string) : list string :=
  flat_map (split newline) texts.

(** A text that is a single line meant for the user. *)
Definition is_userline (text : string) : bool :=
  is_usertext text && negb (has_char newline text).

(** The arguments that the script prints back (lines 102, 113, 293 and 307)
    hold no newline. *)
Definition single_line_args (a : Args) : Prop :=
  has_char newline (arg_serial a) = false
  /\ has_char newline (arg_nwname a) = false
  /\ has_char newline (arg_template a) = false.

(** The same, of the options they are read from. *)
Definition single_line_opts (opts : list (string * string)) : Prop :=
  forall opt arg,
    In (opt, arg) opts -> opt = "-s" \/ opt = "-n" \/ opt = "-c" ->
    has_char newline arg = false.

(** A request that carries the API key [k] and, where it has them, the shard
    [sh] in its URL and the organization [o] in its URL or body. *)
Definition addressed (k sh o : string) (req : Request) : Prop :=
  match req with
  | GetOrganizations k' => k' = k
  | GetSnmp k' o' => k' = k /\ o' = o
  | GetNetworks k' sh' o' => k' = k /\ sh' = sh /\ o' = o
  | PostNetworks k' sh' o' _ _ _ org _ => k' = k /\ sh' = sh /\ o' = o /\ org = o
  | GetConfigTemplates k' sh' o' => k' = k /\ sh' = sh /\ o' = o
  | PostBind k' sh' _ _ _ => k' = k /\ sh' = sh
  | PostOrgClaimSerial k' sh' o' _ => k' = k /\ sh' = sh /\ o' = o
  | PostOrgClaimLicense k' sh' o' _ _ => k' = k /\ sh' = sh /\ o' = o
  | PostNetworkDevicesClaim k' sh' _ _ => k' = k /\ sh' = sh
  | GetNetworkDevice k' sh' _ _ => k' = k /\ sh' = sh
  | PutNetworkDevice k' sh' _ _ _ _ _ => k' = k /\ sh' = sh
  | GetInventory k' sh' o' => k' = k /\ sh' = sh /\ o' = o
  end.

(** ** A reference dashboard

    A small dashboard on which the script can be run: one organization, one
    configuration template, a catalogue of devices that exist, the serials
    claimed so far, the networks created so far and the devices in them.
    [inventory_up] and [bind_up] tell whether the inventory listing and the
    bind request succeed. *)

Record Sim := {
  sim_catalogue : list (string * string);
  sim_claimed : list string;
  sim_networks : list (string * string);
  sim_devices : list (string * string)
}.

Definition ok_response (j : Json) : Response := {| status_code := 200; json := j |}.
Definition error_response (code : Z) : Response := {| status_code := code; json := JObject [] |}.

Definition named (n_id : string * string) : Dict :=
  [("id", snd n_id); ("name", fst n_id)].

Definition inventory_record (cat : list (string * string)) (serial : string) : Dict :=
  [("mac", "00:18:0a:00:00:00"); ("serial", serial); ("networkId", "");
   ("model", match dict_get serial cat with Some m => m | None => "" end);
   ("claimedAt", "1499212800"); ("publicIp", "")].

Definition sim_dashboard (inventory_up bind_up : bool) (req : Request) (w : Sim)
  : Sim * Response :=
  match req with
  | GetOrganizations _ =>
      (w, ok_response (JArray [named ("MyCustomer", "549236")]))
  | GetSnmp _ _ =>
      (w, ok_response (JObject [("hostname", "n27.meraki.com")]))
  | GetNetworks _ _ _ =>
      (w, ok_response (JArray (map named (sim_networks w))))
  | PostNetworks _ _ _ _ _ v_name _ _ =>
      ({| sim_catalogue := sim_catalogue w; sim_claimed := sim_claimed w;
          sim_networks := sim_networks w ++ [(v_name, "N_" +++ v_name)];
          sim_devices := sim_devices w |},
       {| status_code := 201; json := JObject (named (v_name, "N_" +++ v_name)) |})
  | GetConfigTemplates _ _ _ =>
      (w, ok_response (JArray [named ("MyCfgTemplate", "L_1234")]))
  | PostBind _ _ _ _ _ =>
      (w, if bind_up then ok_response (JObject []) else error_response 400)
  | PostOrgClaimSerial _ _ _ v_serial =>
      match dict_get v_serial (sim_catalogue w) with
      | Some _ =>
          ({| sim_catalogue := sim_catalogue w; sim_claimed := sim_claimed w ++ [v_serial];
              sim_networks := sim_networks w; sim_devices := sim_devices w |},
           ok_response (JObject []))
      | None => (w, error_response 400)
      end
  | PostOrgClaimLicense _ _ _ _ _ => (w, error_response 400)
  | PostNetworkDevicesClaim _ _ v_nwid v_serial =>
      if existsb (String.eqb v_serial) (sim_claimed w) then
        ({| sim_catalogue := sim_catalogue w; sim_claimed := sim_claimed w;
            sim_networks := sim_networks w;
            sim_devices := sim_devices w ++ [(v_nwid, v_serial)] |},
         ok_response (JObject []))
      else (w, error_response 404)
  | GetNetworkDevice _ _ v_nwid v_serial =>
      if existsb (fun d => (fst d =? v_nwid) && (snd d =? v_serial)) (sim_devices w) then
        (w, ok_response (JObject (inventory_record (sim_catalogue w) v_serial)))
      else (w, error_response 404)
  | PutNetworkDevice _ _ _ _ _ _ _ => (w, ok_response (JObject []))
  | GetInventory _ _ _ =>
      (w, if inventory_up
          then ok_response (JArray (map (inventory_record (sim_catalogue w)) (sim_claimed w)))
          else error_response 500)
  end.

Definition sim_world : Sim :=
  {| sim_catalogue := [("MR34-AAAA", "MR34"); ("MS120-BBBB", "MS120"); ("Q2LW-0000-0001", "mr")];
     sim_claimed := []; sim_networks := []; sim_devices := [] |}.

(** The same dashboard with the network [Branch1] already there. *)
Definition sim_world_branch1 : Sim :=
  {| sim_catalogue := sim_catalogue sim_world; sim_claimed := [];
     sim_networks := [("Branch1", "N_Branch1")]; sim_devices := [] |}.

(** [-k 1234 -o MyCustomer -s <serials> -n Branch1 -c MyCfgTemplate] *)
Definition opts_for (serials : string) : list (string * string) :=
  [("-k", "1234"); ("-o", "MyCustomer"); ("-s", serials); ("-n", "Branch1");
   ("-c", "MyCfgTemplate")].

Definition opts_scenario : list (string * string) := opts_for "MR34-AAAA MS120-BBBB".

(** The local variables of a run on the reference dashboard, with arguments
    [a]: after the organization and shard are resolved, ... *)
Definition sim_locals_org (a : Args) : Locals :=
  {| args := a; stoponerror := negb (arg_modexisting a =? "ignore_error");
     orgid := "549236"; shardurl := "n27.meraki.com"; nwid := ""; templateid := "";
     devicelist_serial := []; devicelist_model := [];
     devicetypes := no_devicetypes; nwtypestring := ""; validserials := [] |}.

(** ... and after enrollment into the network [Branch1], for the models
    [model] the classification collected. *)
Definition sim_locals_enrolled (a : Args) (model : list string) : Locals :=
  {| args := a; stoponerror := negb (arg_modexisting a =? "ignore_error");
     orgid := "549236"; shardurl := "n27.meraki.com"; nwid := "N_Branch1";
     templateid := "L_1234";
     devicelist_serial := split space (arg_serial a); devicelist_model := model;
     devicetypes := compile_devicetypes model;
     nwtypestring := build_nwtypestring (compile_devicetypes model);
     validserials := compile_validserials (split space (arg_serial a)) model |}.

(** The arguments [opts_for serials] gives, with mode [mode]. *)
Definition sim_args (serials mode : string) : Args :=
  {| arg_apikey := "1234"; arg_orgname := "MyCustomer"; arg_serial := serials;
     arg_nwname := "Branch1"; arg_template := "MyCfgTemplate"; arg_modexisting := mode;
     arg_address := "null"; arg_nwtags := "null" |}.

(** The local variables right after the arguments are read. *)
Definition sim_locals_init (a : Args) : Locals :=
  {| args := a; stoponerror := negb (arg_modexisting a =? "ignore_error");
     orgid := ""; shardurl := ""; nwid := ""; templateid := "";
     devicelist_serial := []; devicelist_model := [];
     devicetypes := no_devicetypes; nwtypestring := ""; validserials := [] |}.

(** The local variables once the template is found, when no network of the
    name exists yet, ... *)
Definition sim_locals_template (a : Args) : Locals :=
  {| args := a; stoponerror := negb (arg_modexisting a =? "ignore_error");
     orgid := "549236"; shardurl := "n27.meraki.com"; nwid := "null";
     templateid := "L_1234";
     devicelist_serial := []; devicelist_model := [];
     devicetypes := no_devicetypes; nwtypestring := ""; validserials := [] |}.

(** ... and once the classification has collected the models [model]. *)
Definition sim_locals_classified (a : Args) (model : list string) : Locals :=
  {| args := a; stoponerror := negb (arg_modexisting a =? "ignore_error");
     orgid := "549236"; shardurl := "n27.meraki.com"; nwid := "null";
     templateid := "L_1234";
     devicelist_serial := split space (arg_serial a); devicelist_model := model;
     devicetypes := compile_devicetypes model;
     nwtypestring := build_nwtypestring (compile_devicetypes model);
     validserials := [] |}.


(** The reference dashboard with a network listing that fails the first time
    it is asked; the flag tells whether that has happened. *)
Definition flaky_dashboard (req : Request) (w : bool * Sim) : (bool * Sim) * Response :=
  match req, fst w with
  | GetNetworks _ _ _, false => ((true, snd w), error_response 500)
  | _, _ =>
      ((fst w, fst (sim_dashboard true true req (snd w))),
       snd (sim_dashboard true true req (snd w)))
  end.

(** The reference dashboard when it refuses every claim into a network. *)
Definition refusing_dashboard (req : Request) (w : Sim) : Sim * Response :=
  match req with
  | PostNetworkDevicesClaim _ _ _ _ => (w, error_response 400)
  | _ => sim_dashboard true true req w
  end.

(** The reference dashboard with the network [Branch1] and the device
    [Q2LW-0000-0001] already claimed into the organization. *)
Definition sim_world_claimed : Sim :=
  {| sim_catalogue := sim_catalogue sim_world; sim_claimed := ["Q2LW-0000-0001"];
     sim_networks := [("Branch1", "N_Branch1")]; sim_devices := [] |}.

Section Script.

(** The dashboard is any state [World] with a function answering requests. *)
Variable World : Type.
Variable dashboard : Request -> World -> World * Response.

(** [stdout] holds what was printed, one element for each call of [print]
    in the order of the calls: the text given to [print], which the
    interpreter follows with a newline.  A text without a newline is one line
    of the output. *)
Record State := {
  world : World;
  trace : list Request;
  stdout : list string
}.

Definition M (A : Type) := State -> State * Result A.

(** A computation without effects, run inside the script. *)
Definition lift {A} (e : Result A) : M A := fun st => (st, e).

Definition ret {A} (a : A) : M A := lift (Ok a).

Definition bind {A B} (m : M A) (f : A -> M B) : M B :=
  fun st =>
    match m st with
    | (st', Ok a) => f a st'
    | (st', Exit code) => (st', Exit code)
    | (st', Raise exc) => (st', Raise exc)
    end.

Notation "x <- c1 ;; c2" := (bind c1 (fun x => c2))
  (at level 61, c1 at next level, right associativity).
Notation "c1 ;; c2" := (bind c1 (fun _ => c2))
  (at level 61, right associativity).

(** [sys.exit(code)] *)
Definition sys_exit {A} (code : Z) : M A := lift (Exit code).

(** [print(line)]: one more element of [stdout]. *)
Definition print (line : string) : M unit :=
  fun st => ({| world := world st; trace := trace st; stdout := stdout st ++ [line] |}, Ok tt).

(** One HTTP exchange through [requests.get], [requests.post] or [requests.put]. *)
Definition request (req : Request) : M Response :=
  fun st =>
    let (w, r) := dashboard req (world st) in
    ({| world := w; trace := trace st ++ [req]; stdout := stdout st |}, Ok r).

(** ** Helper functions of the script *)

Definition printusertext (p_message : string) : M unit :=
  print ("@ " +++ p_message).

Definition printhelp : M unit :=
  printusertext "This is a script to claim MR, MS and MX devices into Dashboard, create a new network for them" ;;
  printusertext " and bind the network to a pre-existing template. The script can also claim license capacity." ;;
  printusertext "" ;;
  printusertext "To run the script, enter:" ;;
  printusertext "python deploydevices.py -k <key> -o <org> -s <sn> -n <netw> -c <cfg_tmpl> [-t <tags>] [-a <addr>] [-m ignore_error]" ;;
  printusertext "" ;;
  printusertext "<key>: Your Meraki Dashboard API key" ;;
  printusertext "<org>: Name of the Meraki Dashboard Organization to modify" ;;
  printusertext "<sn>: Serial number of the devices to claim. Use double quotes and spaces to enter" ;;
  printusertext ("       multiple serial numbers. Example: -s " +++ dquote +++ "AAAA-BBBB-CCCC DDDD-EEEE-FFFF" +++ dquote) ;;
  printusertext "       You can also enter a license key as a serial number to claim along with devices" ;;
  printusertext "<netw>: Name the new network will have" ;;
  printusertext "<cfg_template>: Name of the config template the new network will bound to" ;;
  printusertext "-t <tags>: Optional parameter. If defined, network will be tagged with the given tags" ;;
  printusertext "-a <addr>: Optional parameter. If defined, devices will be moved to given street address" ;;
  printusertext "-m ignore_error: Optional parameter. If defined, the script will not stop if network exists" ;;
  printusertext "" ;;
  printusertext "Example:" ;;
  printusertext ("python deploydevices.py -k 1234 -o MyCustomer -s XXXX-YYYY-ZZZZ -n " +++ dquote +++ "SF Branch" +++ dquote +++ " -c MyCfgTemplate") ;;
  printusertext "" ;;
  printusertext ("Use double quotes (" +++ dquote +++ dquote +++ ") in Windows to pass arguments containing spaces. Names are case-sensitive.").

Definition getorgid (p_apikey p_orgname : string) : M string :=
  r <- request (GetOrganizations p_apikey) ;;
  lift (id_of_name r p_orgname).

Definition getshardurl (p_apikey p_orgid : string) : M string :=
  r <- request (GetSnmp p_apikey p_orgid) ;;
  if negb (status_ok r) then ret "null"
  else lift (subscript (json r) "hostname").

Definition getnwid (p_apikey p_shardurl p_orgid p_nwname : string) : M string :=
  r <- request (GetNetworks p_apikey p_shardurl p_orgid) ;;
  lift (id_of_name r p_nwname).

Definition createnw (p_apikey p_shardurl p_dstorg : string) (p_nwdata : NwData) : M string :=
  getnwresult <- getnwid p_apikey p_shardurl p_dstorg (nw_name p_nwdata) ;;
  if negb (getnwresult =? "null") then
    printusertext ("WARNING: Skipping network " +++ dquote +++ nw_name p_nwdata +++ dquote +++ " (Already exists)") ;;
    ret "null"
  else
    let nwtype :=
      if nw_type p_nwdata =? "combined" then "wireless switch appliance"
      else nw_type p_nwdata in
    if negb (nwtype =? "systems manager") then
      request (PostNetworks p_apikey p_shardurl p_dstorg
                 (nw_timeZone p_nwdata) (nw_tags p_nwdata) (nw_name p_nwdata) p_dstorg nwtype) ;;
      ret "ok"
    else
      printusertext ("WARNING: Skipping network " +++ dquote +++ nw_name p_nwdata +++ dquote +++ " (Cannot create SM networks)") ;;
      ret "null".

Definition gettemplateid (p_apikey p_shardurl p_orgid p_tname : string) : M string :=
  r <- request (GetConfigTemplates p_apikey p_shardurl p_orgid) ;;
  lift (id_of_name r p_tname).

Definition bindnw (p_apikey p_shardurl p_nwid p_templateid : string) (p_autobind : bool) : M string :=
  let autobindvalue := if p_autobind then "true" else "false" in
  r <- request (PostBind p_apikey p_shardurl p_nwid p_templateid autobindvalue) ;;
  if negb (status_ok r) then ret "null"
  else ret "ok".

Definition claimdeviceorg (p_apikey p_shardurl p_orgid p_devserial : string) : M Z :=
  request (PostOrgClaimSerial p_apikey p_shardurl p_orgid p_devserial) ;;
  ret 0%Z.

Definition claimlicenseorg (p_apikey p_shardurl p_orgid p_licensekey : string) : M Z :=
  request (PostOrgClaimLicense p_apikey p_shardurl p_orgid p_licensekey "addDevices") ;;
  ret 0%Z.

Definition claimdevice (p_apikey p_shardurl p_nwid p_devserial : string) : M Z :=
  request (PostNetworkDevicesClaim p_apikey p_shardurl p_nwid p_devserial) ;;
  ret 0%Z.

Definition getdeviceinfo (p_apikey p_shardurl p_nwid p_serial : string) : M Json :=
  r <- request (GetNetworkDevice p_apikey p_shardurl p_nwid p_serial) ;;
  if negb (status_ok r) then ret (JObject null_device)
  else ret (json r).

Definition setdevicedata (p_apikey p_shardurl p_nwid p_devserial p_field p_value : string)
    (p_movemarker : bool) : M string :=
  let movevalue := if p_movemarker then "true" else "false" in
  r <- request (PutNetworkDevice p_apikey p_shardurl p_nwid p_devserial p_field p_value movevalue) ;;
  if negb (status_ok r) then ret "null"
  else ret "ok".

Definition getorgdeviceinfo (p_apikey p_shardurl p_orgid p_devserial : string) : M Dict :=
  r <- request (GetInventory p_apikey p_shardurl p_orgid) ;;
  lift (orgdevice_of r p_devserial).

(** ** [main], stage by stage

    [main] is one long procedure; it is cut here into consecutive blocks, each
    a function from the local variables before the block to the local
    variables after it.  Variables not yet assigned hold an empty value. *)

Definition default_args : Args :=
  {| arg_apikey := "null"; arg_orgname := "null"; arg_serial := "null";
     arg_nwname := "null"; arg_template := "null"; arg_modexisting := "null";
     arg_address := "null"; arg_nwtags := "null" |}.

(** Lines 241-260, over the option list [opts] that [getopt.getopt] returned
    at line 236. *)
Fixpoint parse_opts (opts : list (string * string)) (a : Args) : M Args :=
  match opts with
  | [] => ret a
  | (opt, arg) :: rest =>
      if opt =? "-h" then printhelp ;; sys_exit 0
      else if opt =? "-k" then
        parse_opts rest
          {| arg_apikey := arg; arg_orgname := arg_orgname a; arg_serial := arg_serial a;
             arg_nwname := arg_nwname a; arg_template := arg_template a;
             arg_modexisting := arg_modexisting a; arg_address := arg_address a;
             arg_nwtags := arg_nwtags a |}
      else if opt =? "-o" then
        parse_opts rest
          {| arg_apikey := arg_apikey a; arg_orgname := arg; arg_serial := arg_serial a;
             arg_nwname := arg_nwname a; arg_template := arg_template a;
             arg_modexisting := arg_modexisting a; arg_address := arg_address a;
             arg_nwtags := arg_nwtags a |}
      else if opt =? "-s" then
        parse_opts rest
          {| arg_apikey := arg_apikey a; arg_orgname := arg_orgname a; arg_serial := arg;
             arg_nwname := arg_nwname a; arg_template := arg_template a;
             arg_modexisting := arg_modexisting a; arg_address := arg_address a;
             arg_nwtags := arg_nwtags a |}
      else if opt =? "-n" then
        parse_opts rest
          {| arg_apikey := arg_apikey a; arg_orgname := arg_orgname a; arg_serial := arg_serial a;
             arg_nwname := arg; arg_template := arg_template a;
             arg_modexisting := arg_modexisting a; arg_address := arg_address a;
             arg_nwtags := arg_nwtags a |}
      else if opt =? "-c" then
        parse_opts rest
          {| arg_apikey := arg_apikey a; arg_orgname := arg_orgname a; arg_serial := arg_serial a;
             arg_nwname := arg_nwname a; arg_template := arg;
             arg_modexisting := arg_modexisting a; arg_address := arg_address a;
             arg_nwtags := arg_nwtags a |}
      else if opt =? "-m" then
        parse_opts rest
          {| arg_apikey := arg_apikey a; arg_orgname := arg_orgname a; arg_serial := arg_serial a;
             arg_nwname := arg_nwname a; arg_template := arg_template a;
             arg_modexisting := arg; arg_address := arg_address a;
             arg_nwtags := arg_nwtags a |}
      else if opt =? "-a" then
        parse_opts rest
          {| arg_apikey := arg_apikey a; arg_orgname := arg_orgname a; arg_serial := arg_serial a;
             arg_nwname := arg_nwname a; arg_template := arg_template a;
             arg_modexisting := arg_modexisting a; arg_address := arg;
             arg_nwtags := arg_nwtags a |}
      else if opt =? "-t" then
        parse_opts rest
          {| arg_apikey := arg_apikey a; arg_orgname := arg_orgname a; arg_serial := arg_serial a;
             arg_nwname := arg_nwname a; arg_template := arg_template a;
             arg_modexisting := arg_modexisting a; arg_address := arg_address a;
             arg_nwtags := arg |}
      else parse_opts rest a
  end.

(** Lines 224-232 and 241-270, for the options [opts] that [getopt.getopt]
    returned: defaults, the options, the check of the required arguments,
    [stoponerror].  The call of [getopt.getopt] and its [GetoptError] branch
    (lines 235-239) are in [main_argv]. *)
Definition main_init (opts : list (string * string)) : M Locals :=
  a <- parse_opts opts default_args ;;
  if (arg_apikey a =? "null") || (arg_orgname a =? "null") || (arg_serial a =? "null")
     || (arg_nwname a =? "null") || (arg_template a =? "null") then
    printhelp ;; sys_exit 2
  else
    let stoponerror := if arg_modexisting a =? "ignore_error" then false else true in
    ret {| args := a; stoponerror := stoponerror; orgid := ""; shardurl := "";
           nwid := ""; templateid := "";
           devicelist_serial := []; devicelist_model := [];
           devicetypes := {| mx := false; ms := false; mr := false |};
           nwtypestring := ""; validserials := [] |}.

(** Lines 272-282: organization id and shard URL. *)
Definition main_org (L : Locals) : M Locals :=
  v_orgid <- getorgid (arg_apikey (args L)) (arg_orgname (args L)) ;;
  if v_orgid =? "null" then
    printusertext "ERROR: Fetching organization failed" ;; sys_exit 2
  else
    v_shardurl <- getshardurl (arg_apikey (args L)) v_orgid ;;
    if v_shardurl =? "null" then
      printusertext "ERROR: Fetching Meraki cloud shard URL failed" ;; sys_exit 2
    else ret (set_shardurl v_shardurl (set_orgid v_orgid L)).

(** Lines 284-288: the network must not exist, unless errors are ignored. *)
Definition main_nwcheck (L : Locals) : M Locals :=
  v_nwid <- getnwid (arg_apikey (args L)) (shardurl L) (orgid L) (arg_nwname (args L)) ;;
  if negb (v_nwid =? "null") && stoponerror L then
    printusertext "ERROR: Network with that name already exists" ;; sys_exit 2
  else ret (set_nwid v_nwid L).

(** Lines 290-294: the template must exist. *)
Definition main_template (L : Locals) : M Locals :=
  v_templateid <- gettemplateid (arg_apikey (args L)) (shardurl L) (orgid L) (arg_template (args L)) ;;
  if v_templateid =? "null" then
    printusertext ("ERROR: Unable to find template: " +++ arg_template (args L)) ;; sys_exit 2
  else ret (set_templateid v_templateid L).

(** Body of the loop of lines 301-309 for one serial: the model it appends. *)
Definition classify_serial (L : Locals) (serial : string) : M string :=
  claimdeviceorg (arg_apikey (args L)) (shardurl L) (orgid L) serial ;;
  deviceinfo <- getorgdeviceinfo (arg_apikey (args L)) (shardurl L) (orgid L) serial ;;
  v_serial <- lift (getitem deviceinfo "serial") ;;
  (if v_serial =? "null" then
     printusertext ("INFO: Serial number " +++ serial +++ " is a license or unsupported device") ;;
     claimlicenseorg (arg_apikey (args L)) (shardurl L) (orgid L) serial ;;
     ret tt
   else ret tt) ;;
  lift (getitem deviceinfo "model").

(** Lines 301-309: [serials] are the serials still to visit, [model] is
    [devicelist['model']] so far. *)
Fixpoint classify_loop (L : Locals) (serials : list string) (model : list string)
  : M (list string) :=
  match serials with
  | [] => ret model
  | serial :: rest =>
      m <- classify_serial L serial ;;
      classify_loop L rest (model ++ [m])
  end.

(** Lines 296-332: claim into the organization, collect the models, derive
    the device types and the network type string. *)
Definition main_classify (L : Locals) : M Locals :=
  let serial := split space (arg_serial (args L)) in
  model <- classify_loop L serial [] ;;
  let v_devicetypes := compile_devicetypes model in
  ret (set_nwtypestring (build_nwtypestring v_devicetypes)
         (set_devicetypes v_devicetypes (set_devicelist serial model L))).

(** Lines 334-350: create the network when the lookup of line 285 found none. *)
Definition main_network (L : Locals) : M Locals :=
  let nwtags := if negb (arg_nwtags (args L) =? "null") then arg_nwtags (args L) else "" in
  let nwparams :=
    {| nw_name := arg_nwname (args L); nw_timeZone := "Europe/Helsinki"; nw_tags := nwtags;
       nw_organizationId := orgid L; nw_type := nwtypestring L |} in
  if nwid L =? "null" then
    createstatus <- createnw (arg_apikey (args L)) (shardurl L) (orgid L) nwparams ;;
    if createstatus =? "null" then
      printusertext "ERROR: Unable to create network" ;; sys_exit 2
    else
      v_nwid <- getnwid (arg_apikey (args L)) (shardurl L) (orgid L) (arg_nwname (args L)) ;;
      if v_nwid =? "null" then
        printusertext "ERROR: Unable to get ID for new network" ;; sys_exit 2
      else ret (set_nwid v_nwid L)
  else ret L.

(** Lines 358-374: claim, verify and name each valid serial. *)
Fixpoint enroll_loop (L : Locals) (serials : list string) : M unit :=
  match serials with
  | [] => ret tt
  | devserial :: rest =>
      claimdevice (arg_apikey (args L)) (shardurl L) (nwid L) devserial ;;
      deviceinfo <- getdeviceinfo (arg_apikey (args L)) (shardurl L) (nwid L) devserial ;;
      v_serial <- lift (subscript deviceinfo "serial") ;;
      if v_serial =? "null" then
        printusertext "ERROR: Claiming or moving device unsuccessful" ;; sys_exit 2
      else
        v_model <- lift (subscript deviceinfo "model") ;;
        let hostname := v_model +++ "_" +++ devserial in
        setdevicedata (arg_apikey (args L)) (shardurl L) (nwid L) devserial "name" hostname false ;;
        (if negb (arg_address (args L) =? "null") then
           setdevicedata (arg_apikey (args L)) (shardurl L) (nwid L) devserial
             "address" (arg_address (args L)) true ;;
           ret tt
         else ret tt) ;;
        enroll_loop L rest
  end.

(** Lines 352-374. *)
Definition main_enroll (L : Locals) : M Locals :=
  let v_validserials := compile_validserials (devicelist_serial L) (devicelist_model L) in
  enroll_loop L v_validserials ;;
  ret (set_validserials v_validserials L).

(** Lines 376-382. *)
Definition main_bind (L : Locals) : M unit :=
  bindstatus <- bindnw (arg_apikey (args L)) (shardurl L) (nwid L) (templateid L)
                  (ms (devicetypes L)) ;;
  if (bindstatus =? "null") && stoponerror L then
    printusertext "ERROR: Unable to bind network to template" ;; sys_exit 2
  else printusertext "End of script.".

(** The run up to and including each block. *)
Definition upto_org (opts : list (string * string)) : M Locals :=
  bind (main_init opts) main_org.
Definition upto_nwcheck (opts : list (string * string)) : M Locals :=
  bind (upto_org opts) main_nwcheck.
Definition upto_template (opts : list (string * string)) : M Locals :=
  bind (upto_nwcheck opts) main_template.
Definition upto_classify (opts : list (string * string)) : M Locals :=
  bind (upto_template opts) main_classify.
Definition upto_network (opts : list (string * string)) : M Locals :=
  bind (upto_classify opts) main_network.
Definition upto_enroll (opts : list (string * string)) : M Locals :=
  bind (upto_network opts) main_enroll.

(** [main] from line 241 on, for the options [opts] that [getopt.getopt]
    returned. *)
Definition main (opts : list (string * string)) : M unit :=
  bind (upto_enroll opts) main_bind.

(** [main(argv)]: lines 235-239 around the rest.  A command line that
    [getopt.getopt] refuses gets the help and exit code 2. *)
Definition main_argv (argv : list string) : M unit :=
  match getopt argv with
  | GetoptError => printhelp ;; sys_exit 2
  | Parsed opts _ => main opts
  end.

(** The network provisioning step on its own: the existence check of lines
    284-288 followed by the creation block of lines 334-350. *)
Definition provision (L : Locals) : M Locals :=
  bind (main_nwcheck L) main_network.

(** The value of ['autoBind'] in the body of the bind request (lines 137-140). *)
Definition autobindvalue_of (p_autobind : bool) : string :=
  if p_autobind then "true" else "false".

(** The state a run starts from. *)
Definition start (w : World) : State := {| world := w; trace := []; stdout := [] |}.

(** The state after one exchange and the response it brought. *)
Definition after (req : Request) (st : State) : State :=
  {| world := fst (dashboard req (world st)); trace := trace st ++ [req]; stdout := stdout st |}.

Definition answer (req : Request) (st : State) : Response :=
  snd (dashboard req (world st)).

(** The state after printing one line. *)
Definition printed (line : string) (st : State) : State :=
  {| world := world st; trace := trace st; stdout := stdout st ++ [line] |}.

(** What holds of the local variables once the arguments are read: they come
    from the options, and [stoponerror] is off exactly in the [ignore_error] mode. *)
Definition initialised (opts : list (string * string)) (st0 : State) (L : Locals) : Prop :=
  parse_opts opts default_args st0 = (st0, Ok (args L))
  /\ stoponerror L = negb (arg_modexisting (args L) =? "ignore_error").

(** What holds of the local variables once the devices are classified. *)
Definition classified (L : Locals) : Prop :=
  devicelist_serial L = split space (arg_serial (args L))
  /\ List.length (devicelist_model L) = List.length (devicelist_serial L)
  /\ devicetypes L = compile_devicetypes (devicelist_model L)
  /\ nwtypestring L = build_nwtypestring (devicetypes L).

(** The bind request of line 377. *)
Definition bind_request (L : Locals) : Request :=
  PostBind (arg_apikey (args L)) (shardurl L) (nwid L) (templateid L)
    (autobindvalue_of (ms (devicetypes L))).

(** The network lookup of lines 285 and 347. *)
Definition networks_request (L : Locals) : Request :=
  GetNetworks (arg_apikey (args L)) (shardurl L) (orgid L).

(** The parameters of line 339. *)
Definition nwparams_of (L : Locals) : NwData :=
  {| nw_name := arg_nwname (args L); nw_timeZone := "Europe/Helsinki";
     nw_tags := if negb (arg_nwtags (args L) =? "null") then arg_nwtags (args L) else "";
     nw_organizationId := orgid L; nw_type := nwtypestring L |}.

(** The state after printing several lines. *)
Definition printed_all (lines : list string) (st : State) : State :=
  {| world := world st; trace := trace st; stdout := stdout st ++ lines |}.

(** The requests of [st'] extend those of [st]. *)
Definition extends (st st' : State) : Prop :=
  exists l, trace st' = trace st ++ l.

(** A computation only ever adds requests. *)
Definition mono {A} (m : M A) : Prop :=
  forall st st' r, m st = (st', r) -> extends st st'.

(** The requests a computation adds satisfy [P], whatever its result. *)
Definition sends {A} (P : list Request -> Prop) (m : M A) : Prop :=
  forall st st' r, m st = (st', r) -> exists l, trace st' = trace st ++ l /\ P l.

(** The lines a computation prints satisfy [S], whatever its result. *)
Definition prints {A} (S : string -> Prop) (m : M A) : Prop :=
  forall st st' r, m st = (st', r) ->
    exists o, stdout st' = stdout st ++ o /\ Forall S o.

(** The exit codes a computation can end with satisfy [Q]. *)
Definition exits_with {A} (Q : Z -> Prop) (m : M A) : Prop :=
  forall st st' code, m st = (st', Exit code) -> Q code.

(** Two lists of requests one after the other. *)
Definition then_phase (P1 P2 : list Request -> Prop) (l : list Request) : Prop :=
  exists l1 l2, l = l1 ++ l2 /\ P1 l1 /\ P2 l2.

(** The local variables [L'] name the same API key, shard and organization
    as [L]. *)
Definition same_target (L L' : Locals) : Prop :=
  arg_apikey (args L') = arg_apikey (args L)
  /\ arg_nwname (args L') = arg_nwname (args L)
  /\ shardurl L' = shardurl L /\ orgid L' = orgid L.

(** A block sends only requests satisfying [p] and keeps the target of [L]. *)
Definition keeps_target (p : Request -> Prop) (L : Locals) (m : M Locals) : Prop :=
  sends (Forall p) m /\ forall st st' a, m st = (st', Ok a) -> same_target L a.

(** * Properties *)

(** ** Strings *)

Lemma prefix2_idempotent (s : string) : prefix2 (prefix2 s) = prefix2 s.
Proof. destruct s as [|a [|b [|c s]]]; reflexivity. Qed.

Lemma eqb_false_neq (a b : string) : (a =? b) = false -> a <> b.
Proof. apply String.eqb_neq. Qed.

Ltac string_cases :=
  repeat match goal with
         | H : (_ =? _) = true |- _ => apply String.eqb_eq in H
         | H : (_ =? _) = false |- _ => apply String.eqb_neq in H
         end.

(** ** Stepping through the monad *)

Lemma bind_run {A B} (m : M A) (f : A -> M B) st st1 a :
  m st = (st1, Ok a) -> bind m f st = f a st1.
Proof. unfold bind; intros ->; reflexivity. Qed.

Lemma bind_exit {A B} (m : M A) (f : A -> M B) st st1 code :
  m st = (st1, Exit code) -> bind m f st = (st1, Exit code).
Proof. unfold bind; intros ->; reflexivity. Qed.

Lemma bind_raise {A B} (m : M A) (f : A -> M B) st st1 exc :
  m st = (st1, Raise exc) -> bind m f st = (st1, Raise exc).
Proof. unfold bind; intros ->; reflexivity. Qed.

Lemma bind_inv_ok {A B} (m : M A) (f : A -> M B) st st2 b :
  bind m f st = (st2, Ok b) ->
  exists st1 a, m st = (st1, Ok a) /\ f a st1 = (st2, Ok b).
Proof.
  unfold bind. destruct (m st) as [st1 [a | code | exc]]; intros H.
  - exists st1, a; split; [reflexivity | exact H].
  - discriminate H.
  - discriminate H.
Qed.

Lemma request_run (req : Request) st :
  request req st = (after req st, Ok (answer req st)).
Proof.
  unfold request, after, answer. destruct (dashboard req (world st)); reflexivity.
Qed.

Lemma request_then {A} (req : Request) (f : Response -> M A) st :
  bind (request req) f st = f (answer req st) (after req st).
Proof. apply bind_run, request_run. Qed.

Lemma print_then {A} (line : string) (f : unit -> M A) st :
  bind (printusertext line) f st = f tt (printed ("@ " +++ line) st).
Proof. reflexivity. Qed.

Lemma lift_then {A B} (e : Result A) (f : A -> M B) st :
  bind (lift e) f st =
  match e with
  | Ok a => f a st
  | Exit code => (st, Exit code)
  | Raise exc => (st, Raise exc)
  end.
Proof. unfold bind, lift; destruct e; reflexivity. Qed.

(** ** The helper functions, as one exchange each *)

Lemma getorgid_run k n st :
  getorgid k n st =
  (after (GetOrganizations k) st, id_of_name (answer (GetOrganizations k) st) n).
Proof. unfold getorgid. rewrite request_then. reflexivity. Qed.

Lemma getshardurl_run k o st :
  getshardurl k o st =
  (after (GetSnmp k o) st,
   if negb (status_ok (answer (GetSnmp k o) st)) then Ok "null"
   else subscript (json (answer (GetSnmp k o) st)) "hostname").
Proof.
  unfold getshardurl. rewrite request_then.
  destruct (negb (status_ok _)); reflexivity.
Qed.

Lemma getnwid_run k sh o n st :
  getnwid k sh o n st =
  (after (GetNetworks k sh o) st, id_of_name (answer (GetNetworks k sh o) st) n).
Proof. unfold getnwid. rewrite request_then. reflexivity. Qed.

Lemma gettemplateid_run k sh o n st :
  gettemplateid k sh o n st =
  (after (GetConfigTemplates k sh o) st,
   id_of_name (answer (GetConfigTemplates k sh o) st) n).
Proof. unfold gettemplateid. rewrite request_then. reflexivity. Qed.

Lemma bindnw_run k sh nw t ab st :
  bindnw k sh nw t ab st =
  (after (PostBind k sh nw t (autobindvalue_of ab)) st,
   Ok (if negb (status_ok (answer (PostBind k sh nw t (autobindvalue_of ab)) st))
       then "null" else "ok")).
Proof.
  unfold bindnw, autobindvalue_of. rewrite request_then.
  destruct (negb (status_ok _)); reflexivity.
Qed.

Lemma claimdeviceorg_run k sh o s st :
  claimdeviceorg k sh o s st = (after (PostOrgClaimSerial k sh o s) st, Ok 0%Z).
Proof. unfold claimdeviceorg. rewrite request_then. reflexivity. Qed.

Lemma claimlicenseorg_run k sh o s st :
  claimlicenseorg k sh o s st =
  (after (PostOrgClaimLicense k sh o s "addDevices") st, Ok 0%Z).
Proof. unfold claimlicenseorg. rewrite request_then. reflexivity. Qed.

Lemma getorgdeviceinfo_run k sh o s st :
  getorgdeviceinfo k sh o s st =
  (after (GetInventory k sh o) st, orgdevice_of (answer (GetInventory k sh o) st) s).
Proof. unfold getorgdeviceinfo. rewrite request_then. reflexivity. Qed.

Lemma bind_step {A B} (m : M A) (f : A -> M B) st st1 e :
  m st = (st1, e) ->
  bind m f st =
  match e with
  | Ok a => f a st1
  | Exit code => (st1, Exit code)
  | Raise exc => (st1, Raise exc)
  end.
Proof. unfold bind; intros ->; destruct e; reflexivity. Qed.

Lemma bind_assoc {A B C} (m : M A) (f : A -> M B) (g : B -> M C) st :
  bind (bind m f) g st = bind m (fun x => bind (f x) g) st.
Proof. unfold bind. destruct (m st) as [st1 [a | code | exc]]; reflexivity. Qed.

Lemma then_exit_not_ok {A B} (m : M A) code st st' (b : B) :
  bind m (fun _ => sys_exit code) st <> (st', Ok b).
Proof.
  unfold bind, sys_exit, lift. destruct (m st) as [st1 [a | c | x]]; discriminate.
Qed.

(** ** Device types and the network type string *)

Lemma devicetypes_update_ms (dt : DeviceTypes) (record : string) :
  ms (devicetypes_update dt record) = ms dt || (prefix2 record =? "MS").
Proof.
  unfold devicetypes_update.
  destruct (prefix2 record =? "MX") eqn:E1; simpl.
  { string_cases. rewrite E1. simpl. now rewrite orb_false_r. }
  destruct (prefix2 record =? "Z1") eqn:E2; simpl.
  { string_cases. rewrite E2. simpl. now rewrite orb_false_r. }
  destruct (prefix2 record =? "MS") eqn:E3; simpl.
  { now rewrite orb_true_r. }
  destruct (prefix2 record =? "MR"); simpl; now rewrite orb_false_r.
Qed.

Lemma fold_devicetypes_ms (models : list string) (dt : DeviceTypes) :
  ms (fold_left devicetypes_update models dt)
  = ms dt || existsb (fun record => prefix2 record =? "MS") models.
Proof.
  revert dt. induction models as [|record models IH]; intros dt; simpl.
  - now rewrite orb_false_r.
  - rewrite IH, devicetypes_update_ms. now rewrite orb_assoc.
Qed.

Lemma compile_devicetypes_ms (models : list string) :
  ms (compile_devicetypes models) = true
  <-> exists record, In record models /\ prefix2 record = "MS".
Proof.
  unfold compile_devicetypes. rewrite fold_devicetypes_ms. simpl.
  rewrite existsb_exists. split; intros [record [Hin H]]; exists record; split; auto.
  - now apply String.eqb_eq.
  - now apply String.eqb_eq.
Qed.

Lemma devicetypes_update_refines (dt : DeviceTypes) (record : string) :
  devicetypes_update dt record = mark dt (family_spec record).
Proof.
  unfold devicetypes_update, family_spec.
  destruct (prefix2 record =? "MX"); simpl; [reflexivity|].
  destruct (prefix2 record =? "Z1"); simpl; [reflexivity|].
  destruct (prefix2 record =? "MS"); simpl; [reflexivity|].
  destruct (prefix2 record =? "MR"); reflexivity.
Qed.

(** One pass of the loop of lines 313-319 reads exactly the first two
    characters of the model string and compares them exactly: [MX] or [Z1]
    raises the appliance flag, [MS] the switch flag, [MR] the access-point
    flag; any other prefix (a lower-case one included) raises none. *)
Lemma devicetypes_update_by_prefix (dt : DeviceTypes) (record : string) :
  devicetypes_update dt record = mark dt (family_spec record)
  /\ devicetypes_update dt record = devicetypes_update dt (prefix2 record)
  /\ (devicetypes_update no_devicetypes record = {| mx := true; ms := false; mr := false |}
      <-> prefix2 record = "MX" \/ prefix2 record = "Z1")
  /\ (devicetypes_update no_devicetypes record = {| mx := false; ms := true; mr := false |}
      <-> prefix2 record = "MS")
  /\ (devicetypes_update no_devicetypes record = {| mx := false; ms := false; mr := true |}
      <-> prefix2 record = "MR")
  /\ (devicetypes_update dt record = dt /\ family_spec record = None
      <-> prefix2 record <> "MX" /\ prefix2 record <> "Z1"
          /\ prefix2 record <> "MS" /\ prefix2 record <> "MR")
  /\ devicetypes_update dt "mx64" = dt
  /\ devicetypes_update dt "ms120" = dt
  /\ devicetypes_update dt "mr34" = dt
  /\ devicetypes_update dt "z1" = dt.
Proof.
  split; [apply devicetypes_update_refines|].
  split.
  { unfold devicetypes_update. now rewrite prefix2_idempotent. }
  unfold devicetypes_update, family_spec, no_devicetypes.
  destruct (prefix2 record =? "MX") eqn:E1;
    [|destruct (prefix2 record =? "Z1") eqn:E2;
      [|destruct (prefix2 record =? "MS") eqn:E3;
        [|destruct (prefix2 record =? "MR") eqn:E4]]];
    string_cases; simpl;
    repeat match goal with
           | H : prefix2 record = _ |- _ => rewrite H
           end;
    repeat split; intros; try reflexivity; try discriminate; try tauto;
    try congruence;
    repeat match goal with
           | H : _ \/ _ |- _ => destruct H
           | H : _ /\ _ |- _ => destruct H
           end; try congruence; auto.
Qed.

(** The network type string for each of the eight device mixes. *)
Lemma build_nwtypestring_table :
  build_nwtypestring {| mx := false; ms := false; mr := false |} = ""
  /\ build_nwtypestring {| mx := true; ms := false; mr := false |} = "appliance"
  /\ build_nwtypestring {| mx := false; ms := true; mr := false |} = "switch "
  /\ build_nwtypestring {| mx := true; ms := true; mr := false |} = "switch appliance"
  /\ build_nwtypestring {| mx := false; ms := false; mr := true |} = "wireless  "
  /\ build_nwtypestring {| mx := true; ms := false; mr := true |} = "wireless  appliance"
  /\ build_nwtypestring {| mx := false; ms := true; mr := true |} = "wireless switch "
  /\ build_nwtypestring {| mx := true; ms := true; mr := true |} = "wireless switch appliance".
Proof. repeat split. Qed.

(** C2. With only a switch present the separator of line 330 is still
    appended: the derived type is ["switch "], with a trailing space, not
    ["switch"]; the other two concrete cases of the claim hold. *)
Theorem nwtypestring_switch_only_trailing_space :
  build_nwtypestring {| mx := false; ms := true; mr := false |} = "switch "
  /\ build_nwtypestring {| mx := false; ms := true; mr := false |} <> "switch"
  /\ build_nwtypestring {| mx := true; ms := true; mr := true |} = "wireless switch appliance"
  /\ build_nwtypestring {| mx := false; ms := false; mr := false |} = "".
Proof. repeat split. discriminate. Qed.


(** ** The blocks of [main] *)

Lemma parse_opts_ok (opts : list (string * string)) (a a' : Args) st st' :
  parse_opts opts a st = (st', Ok a') -> st' = st.
Proof.
  revert a. induction opts as [|[opt arg] rest IH]; intros a H; simpl in H.
  - unfold ret, lift in H. now inversion H.
  - destruct (opt =? "-h").
    { exfalso. exact (then_exit_not_ok _ _ _ _ _ H). }
    repeat match type of H with
           | (if ?c then _ else _) _ = _ => destruct c
           end; eapply IH; exact H.
Qed.

Lemma main_init_ok opts st st' L :
  main_init opts st = (st', Ok L) ->
  st' = st /\ initialised opts st L
  /\ arg_serial (args L) <> "null" /\ arg_nwname (args L) <> "null".
Proof.
  unfold main_init. intros H.
  apply bind_inv_ok in H. destruct H as (st1 & a & Hp & H).
  pose proof (parse_opts_ok _ _ _ _ _ Hp) as ->.
  match type of H with
  | (if ?c then _ else _) _ = _ => destruct c eqn:E
  end.
  { exfalso. exact (then_exit_not_ok _ _ _ _ _ H). }
  apply orb_false_iff in E. destruct E as [E E5].
  apply orb_false_iff in E. destruct E as [E E4].
  apply orb_false_iff in E. destruct E as [E E3].
  apply orb_false_iff in E. destruct E as [E1 E2].
  unfold ret, lift in H. inversion H; subst; clear H.
  string_cases. unfold initialised; cbn [args stoponerror].
  split; [reflexivity|]. split; [|split; assumption].
  split; [exact Hp|].
  destruct (arg_modexisting a =? "ignore_error"); reflexivity.
Qed.

Lemma main_org_ok L st st' L' :
  main_org L st = (st', Ok L') ->
  exists o sh,
    L' = set_shardurl sh (set_orgid o L)
    /\ st' = after (GetSnmp (arg_apikey (args L)) o)
               (after (GetOrganizations (arg_apikey (args L))) st).
Proof.
  unfold main_org. intros H.
  rewrite (bind_step _ _ _ _ _ (getorgid_run _ _ _)) in H.
  destruct (id_of_name _ _) as [o | |]; try discriminate H.
  destruct (o =? "null").
  { exfalso. exact (then_exit_not_ok _ _ _ _ _ H). }
  rewrite (bind_step _ _ _ _ _ (getshardurl_run _ _ _)) in H.
  destruct (if negb _ then _ else _) as [sh | |]; try discriminate H.
  destruct (sh =? "null").
  { exfalso. exact (then_exit_not_ok _ _ _ _ _ H). }
  unfold ret, lift in H. inversion H; subst. exists o, sh. split; reflexivity.
Qed.

Lemma main_nwcheck_ok L st st' L' :
  main_nwcheck L st = (st', Ok L') ->
  exists v,
    id_of_name (answer (networks_request L) st) (arg_nwname (args L)) = Ok v
    /\ (v = "null" \/ stoponerror L = false)
    /\ L' = set_nwid v L /\ st' = after (networks_request L) st.
Proof.
  unfold main_nwcheck, networks_request. intros H.
  rewrite (bind_step _ _ _ _ _ (getnwid_run _ _ _ _ _)) in H.
  destruct (id_of_name _ _) as [v | |]; try discriminate H.
  destruct (v =? "null") eqn:E; simpl in H.
  - unfold ret, lift in H. inversion H; subst. string_cases.
    exists v; repeat split; auto.
  - destruct (stoponerror L) eqn:S.
    { exfalso. exact (then_exit_not_ok _ _ _ _ _ H). }
    unfold ret, lift in H. inversion H; subst.
    exists v; repeat split; auto.
Qed.

Lemma main_template_ok L st st' L' :
  main_template L st = (st', Ok L') ->
  exists t, L' = set_templateid t L.
Proof.
  unfold main_template. intros H.
  rewrite (bind_step _ _ _ _ _ (gettemplateid_run _ _ _ _ _)) in H.
  destruct (id_of_name _ _) as [t | |]; try discriminate H.
  destruct (t =? "null").
  { exfalso. exact (then_exit_not_ok _ _ _ _ _ H). }
  unfold ret, lift in H. inversion H; subst. now exists t.
Qed.

(** ** Requests are only ever added *)

Lemma extends_refl st : extends st st.
Proof. exists []. now rewrite app_nil_r. Qed.

Lemma extends_trans st1 st2 st3 : extends st1 st2 -> extends st2 st3 -> extends st1 st3.
Proof.
  intros [l1 H1] [l2 H2]. exists (l1 ++ l2). now rewrite H2, H1, app_assoc.
Qed.

Lemma mono_lift {A} (e : Result A) : mono (lift e).
Proof. intros st st' r H. inversion H; subst. apply extends_refl. Qed.

Lemma mono_request req : mono (request req).
Proof.
  intros st st' r H. rewrite request_run in H. inversion H; subst.
  now exists [req].
Qed.

Lemma mono_print line : mono (printusertext line).
Proof. intros st st' r H. inversion H; subst. exists []. simpl. now rewrite app_nil_r. Qed.

Lemma mono_bind {A B} (m : M A) (f : A -> M B) :
  mono m -> (forall a, mono (f a)) -> mono (bind m f).
Proof.
  intros Hm Hf st st' r H. unfold bind in H.
  destruct (m st) as [st1 [a | code | exc]] eqn:E.
  - eapply extends_trans; [eapply Hm; exact E | eapply Hf; exact H].
  - inversion H; subst. eapply Hm; exact E.
  - inversion H; subst. eapply Hm; exact E.
Qed.

Lemma mono_if {A} (c : bool) (m1 m2 : M A) : mono m1 -> mono m2 -> mono (if c then m1 else m2).
Proof. destruct c; auto. Qed.

Create HintDb mono.
#[local] Hint Resolve mono_lift mono_request mono_print mono_bind mono_if : mono.

Ltac mono_tac := repeat (intros; first [ apply mono_bind | apply mono_if | apply mono_lift
                                       | apply mono_request | apply mono_print ]).

Lemma mono_classify_serial L s : mono (classify_serial L s).
Proof.
  unfold classify_serial, claimdeviceorg, getorgdeviceinfo, claimlicenseorg, ret, sys_exit.
  mono_tac.
Qed.

Lemma mono_classify_loop L serials : forall model, mono (classify_loop L serials model).
Proof.
  induction serials as [|s rest IH]; intros model; simpl.
  - apply mono_lift.
  - apply mono_bind; [apply mono_classify_serial | intros; apply IH].
Qed.

(** ** The classification loop *)

Lemma classify_loop_app L l1 l2 : forall model st,
  classify_loop L (l1 ++ l2) model st
  = bind (classify_loop L l1 model) (classify_loop L l2) st.
Proof.
  induction l1 as [|s l1 IH]; intros model st; simpl.
  - reflexivity.
  - unfold bind in *. destruct (classify_serial L s st) as [st1 [m | code | exc]].
    + apply IH.
    + reflexivity.
    + reflexivity.
Qed.

Lemma classify_loop_shape L serials : forall model st st' models,
  classify_loop L serials model st = (st', Ok models) ->
  exists ms, models = model ++ ms /\ List.length ms = List.length serials.
Proof.
  induction serials as [|s rest IH]; intros model st st' models H; simpl in H.
  - inversion H; subst. exists []. now rewrite app_nil_r.
  - apply bind_inv_ok in H. destruct H as (st1 & m & _ & H).
    apply IH in H. destruct H as (ms & -> & Hlen).
    exists (m :: ms). rewrite <- app_assoc. simpl. auto.
Qed.

Lemma inventory_scan_lacks records s : forall found rv,
  forallb (fun record =>
             match dict_get "serial" record with
             | Some v => negb (v =? s)
             | None => false
             end) records = true ->
  inventory_scan records s found rv = Ok (found, rv).
Proof.
  induction records as [|record rest IH]; intros found rv H; simpl in *.
  - reflexivity.
  - apply andb_true_iff in H. destruct H as [H1 H2].
    unfold getitem at 1. destruct (dict_get "serial" record) as [v|]; [|discriminate].
    simpl. apply negb_true_iff in H1. rewrite H1. now apply IH.
Qed.

Lemma orgdevice_of_lacks r s :
  inventory_lacks r s = true -> orgdevice_of r s = Ok null_device.
Proof.
  unfold inventory_lacks, orgdevice_of. intros H.
  apply andb_true_iff in H. destruct H as [H1 H2]. rewrite H1. simpl.
  destruct (json r) as [records | d]; [|discriminate]. simpl.
  rewrite (inventory_scan_lacks _ _ _ _ H2). reflexivity.
Qed.

Lemma orgdevice_of_failed r s :
  status_ok r = false -> orgdevice_of r s = Ok null_device.
Proof. unfold orgdevice_of. now intros ->. Qed.

Lemma classify_serial_unresolved L s st :
  let claim := PostOrgClaimSerial (arg_apikey (args L)) (shardurl L) (orgid L) s in
  let listing := GetInventory (arg_apikey (args L)) (shardurl L) (orgid L) in
  let license := PostOrgClaimLicense (arg_apikey (args L)) (shardurl L) (orgid L) s "addDevices" in
  orgdevice_of (answer listing (after claim st)) s = Ok null_device ->
  classify_serial L s st
  = (after license (printed (info_line s) (after listing (after claim st))), Ok "null").
Proof.
  intros claim listing license H. unfold classify_serial.
  rewrite (bind_step _ _ _ _ _ (claimdeviceorg_run _ _ _ _ _)). cbv beta iota.
  rewrite (bind_step _ _ _ _ _ (getorgdeviceinfo_run _ _ _ _ _)).
  fold claim listing. rewrite H. cbv beta iota.
  rewrite lift_then.
  change (getitem null_device "serial") with (@Ok string "null"). cbv beta iota.
  change ("null" =? "null") with true. cbv beta iota.
  rewrite bind_assoc, print_then, bind_assoc.
  rewrite (bind_step _ _ _ _ _ (claimlicenseorg_run _ _ _ _ _)).
  reflexivity.
Qed.

(** ** The valid serials *)

Lemma fold_left_map_seq {A} (f : A -> nat -> A) (g : nat -> nat) (l : list nat) (a : A) :
  fold_left f (map g l) a = fold_left (fun acc i => f acc (g i)) l a.
Proof. revert a. induction l as [|x l IH]; intros a; simpl; [reflexivity | apply IH]. Qed.

Lemma fold_left_ext_acc {A} (f g : A -> nat -> A) (l : list nat) (a : A) :
  (forall acc i, f acc i = g acc i) -> fold_left f l a = fold_left g l a.
Proof.
  intros H. revert a. induction l as [|x l IH]; intros a; simpl; [reflexivity|].
  rewrite H. apply IH.
Qed.

Lemma validserials_loop_zip (serial : list string) : forall (model acc : list string),
  fold_left
    (fun acc i =>
       if is_validmodel (nth i model "") then acc ++ [nth i serial ""] else acc)
    (seq 0 (List.length serial)) acc
  = acc ++ validserials_zip serial model.
Proof.
  induction serial as [|s serial IH]; intros model acc.
  - simpl. now rewrite app_nil_r.
  - cbn [List.length seq fold_left]. rewrite <- seq_shift, fold_left_map_seq.
    destruct model as [|m model].
    + rewrite (fold_left_ext_acc _ (fun acc i =>
          if is_validmodel (nth i [] "") then acc ++ [nth i serial ""] else acc)).
      * rewrite IH. unfold validserials_zip. simpl.
        destruct serial; reflexivity.
      * intros acc' i. destruct i; reflexivity.
    + rewrite (fold_left_ext_acc _ (fun acc i =>
          if is_validmodel (nth i model "") then acc ++ [nth i serial ""] else acc)).
      * rewrite IH. unfold validserials_zip. cbn [nth combine filter snd].
        destruct (is_validmodel m); cbn [map fst].
        -- now rewrite <- app_assoc.
        -- reflexivity.
      * intros acc' i. reflexivity.
Qed.

Lemma compile_validserials_zip (serial model : list string) :
  compile_validserials serial model = validserials_zip serial model.
Proof. unfold compile_validserials. now rewrite validserials_loop_zip. Qed.

Lemma combine_app_same {A B} (l1 l2 : list A) (m1 m2 : list B) :
  List.length l1 = List.length m1 ->
  combine (l1 ++ l2) (m1 ++ m2) = combine l1 m1 ++ combine l2 m2.
Proof.
  revert m1. induction l1 as [|a l1 IH]; intros [|b m1] H; simpl in *; try discriminate.
  - reflexivity.
  - f_equal. apply IH. now inversion H.
Qed.

Lemma validserials_zip_app (l1 l2 m1 m2 : list string) :
  List.length l1 = List.length m1 ->
  validserials_zip (l1 ++ l2) (m1 ++ m2) = validserials_zip l1 m1 ++ validserials_zip l2 m2.
Proof.
  intros H. unfold validserials_zip.
  now rewrite (combine_app_same _ _ _ _ H), filter_app, map_app.
Qed.

Lemma validserials_skip (pre post mpre mpost : list string) (s m : string) :
  List.length pre = List.length mpre ->
  is_validmodel m = false ->
  compile_validserials (pre ++ s :: post) (mpre ++ m :: mpost)
  = compile_validserials (pre ++ post) (mpre ++ mpost).
Proof.
  intros Hlen Hm. rewrite !compile_validserials_zip, !validserials_zip_app by exact Hlen.
  f_equal. unfold validserials_zip. simpl. now rewrite Hm.
Qed.

Lemma validmodel_no_family (model : string) :
  is_validmodel model = true -> family_spec model = None.
Proof.
  unfold is_validmodel. intros H.
  apply orb_true_iff in H. destruct H as [H | H];
    [apply orb_true_iff in H; destruct H as [H | H]|];
    apply String.eqb_eq in H; subst; reflexivity.
Qed.

(** No serial whose model has a recognised family is a valid serial: the
    test of line 355 compares the whole model string with the lower-case
    words [mr], [ms] and [mx]. *)
Lemma validserials_no_family (serial model : list string) (s : string) :
  In s (compile_validserials serial model) ->
  exists m, In (s, m) (combine serial model) /\ family_spec m = None.
Proof.
  rewrite compile_validserials_zip. unfold validserials_zip. intros H.
  apply in_map_iff in H. destruct H as ([s' m] & Hs & H). simpl in Hs. subst s'.
  apply filter_In in H. destruct H as [Hin Hv]. simpl in Hv.
  exists m. split; [exact Hin | now apply validmodel_no_family].
Qed.

Lemma compile_devicetypes_skip (mpre mpost : list string) (m : string) :
  family_spec m = None ->
  compile_devicetypes (mpre ++ m :: mpost) = compile_devicetypes (mpre ++ mpost).
Proof.
  intros H. unfold compile_devicetypes. rewrite !fold_left_app. simpl.
  rewrite devicetypes_update_refines, H. reflexivity.
Qed.

(** The classification loop on a serial that the inventory does not list
    after the organization-level claim. *)
Lemma classify_loop_unlisted
    (L : Locals) (pre post : list string) (s : string)
    (st sti st' : State) (mpre models : list string) :
  classify_loop L pre [] st = (sti, Ok mpre) ->
  inventory_lacks
    (answer (GetInventory (arg_apikey (args L)) (shardurl L) (orgid L))
       (after (PostOrgClaimSerial (arg_apikey (args L)) (shardurl L) (orgid L) s) sti)) s
  = true ->
  classify_loop L (pre ++ s :: post) [] st = (st', Ok models) ->
  exists l mpost,
    trace st' = trace sti ++ unresolved_calls L s ++ l
    /\ models = mpre ++ "null" :: mpost
    /\ List.length mpre = List.length pre
    /\ List.length mpost = List.length post
    /\ devicetypes_update (compile_devicetypes mpre) "null" = compile_devicetypes mpre
    /\ compile_devicetypes models = compile_devicetypes (mpre ++ mpost)
    /\ compile_validserials (pre ++ s :: post) models
       = compile_validserials (pre ++ post) (mpre ++ mpost).
Proof.
  intros Hpre Hlack Hrun.
  rewrite classify_loop_app, (bind_run _ _ _ _ _ Hpre) in Hrun.
  simpl in Hrun.
  apply orgdevice_of_lacks in Hlack.
  rewrite (bind_run _ _ _ _ _ (classify_serial_unresolved L s sti Hlack)) in Hrun.
  pose proof (mono_classify_loop _ _ _ _ _ _ Hrun) as [l Hl].
  apply classify_loop_shape in Hrun. destruct Hrun as (mpost & -> & Hpost).
  apply classify_loop_shape in Hpre. destruct Hpre as (ms & Hms & Hprelen).
  simpl in Hms. subst ms.
  exists l, mpost. rewrite <- app_assoc. simpl.
  repeat split.
  - rewrite Hl. simpl. unfold unresolved_calls. now rewrite <- !app_assoc.
  - exact Hprelen.
  - exact Hpost.
  - now apply compile_devicetypes_skip.
  - apply validserials_skip; [now symmetry | reflexivity].
Qed.

Lemma classify_loop_all_failed (L : Locals) (serials : list string) :
  (forall w, status_ok (snd (dashboard
                (GetInventory (arg_apikey (args L)) (shardurl L) (orgid L)) w)) = false) ->
  forall model st,
  exists st',
    classify_loop L serials model st
    = (st', Ok (model ++ repeat "null" (List.length serials)))
    /\ trace st' = trace st ++ flat_map (unresolved_calls L) serials
    /\ stdout st' = stdout st ++ map info_line serials.
Proof.
  intros Hfail. induction serials as [|s rest IH]; intros model st.
  - exists st. simpl. rewrite !app_nil_r. repeat split.
  - simpl classify_loop.
    assert (Hs : orgdevice_of
              (answer (GetInventory (arg_apikey (args L)) (shardurl L) (orgid L))
                 (after (PostOrgClaimSerial (arg_apikey (args L)) (shardurl L) (orgid L) s) st))
              s = Ok null_device).
    { apply orgdevice_of_failed. unfold answer. apply Hfail. }
    rewrite (bind_run _ _ _ _ _ (classify_serial_unresolved L s st Hs)).
    destruct (IH (model ++ ["null"])
                (after (PostOrgClaimLicense (arg_apikey (args L)) (shardurl L) (orgid L) s
                          "addDevices")
                   (printed (info_line s)
                      (after (GetInventory (arg_apikey (args L)) (shardurl L) (orgid L))
                         (after (PostOrgClaimSerial (arg_apikey (args L)) (shardurl L)
                                   (orgid L) s) st)))))
      as (st' & Hrun & Htr & Hout).
    exists st'. rewrite Hrun, Htr, Hout. simpl.
    rewrite <- !app_assoc. simpl. repeat split.
Qed.

(** The inventory lookup and the classification loop when the listing
    fails. *)
Lemma failed_listing_in_loop (L : Locals) (serials : list string) (st : State) :
  (forall k sh o s st1,
      status_ok (answer (GetInventory k sh o) st1) = false ->
      getorgdeviceinfo k sh o s st1 = (after (GetInventory k sh o) st1, Ok null_device))
  /\ (forall k sh o s st1,
      inventory_lacks (answer (GetInventory k sh o) st1) s = true ->
      getorgdeviceinfo k sh o s st1 = (after (GetInventory k sh o) st1, Ok null_device))
  /\ dict_get "serial" null_device = Some "null"
  /\ dict_get "model" null_device = Some "null"
  /\ ((forall w, status_ok (snd (dashboard
                   (GetInventory (arg_apikey (args L)) (shardurl L) (orgid L)) w)) = false) ->
      exists st',
        classify_loop L serials [] st = (st', Ok (repeat "null" (List.length serials)))
        /\ trace st' = trace st ++ flat_map (unresolved_calls L) serials
        /\ stdout st' = stdout st ++ map info_line serials
        /\ (forall s, In s serials ->
              In (PostOrgClaimLicense (arg_apikey (args L)) (shardurl L) (orgid L) s
                    "addDevices") (trace st'))).
Proof.
  split; [|split; [|split; [|split]]].
  - intros k sh o s st1 H. rewrite getorgdeviceinfo_run.
    now rewrite (orgdevice_of_failed _ _ H).
  - intros k sh o s st1 H. rewrite getorgdeviceinfo_run.
    now rewrite (orgdevice_of_lacks _ _ H).
  - reflexivity.
  - reflexivity.
  - intros Hfail.
    destruct (classify_loop_all_failed L serials Hfail [] st) as (st' & Hrun & Htr & Hout).
    exists st'. repeat split; auto.
    intros s Hin. rewrite Htr. apply in_or_app. right.
    apply in_flat_map. exists s. split; [exact Hin|].
    unfold unresolved_calls. simpl. auto.
Qed.

(** ** The later blocks of [main] *)

Lemma main_classify_ok L st st' L' :
  main_classify L st = (st', Ok L') ->
  exists model,
    classify_loop L (split space (arg_serial (args L))) [] st = (st', Ok model)
    /\ L' = set_nwtypestring (build_nwtypestring (compile_devicetypes model))
              (set_devicetypes (compile_devicetypes model)
                 (set_devicelist (split space (arg_serial (args L))) model L)).
Proof.
  unfold main_classify. intros H.
  apply bind_inv_ok in H. destruct H as (st1 & model & Hloop & H).
  unfold ret, lift in H. inversion H; subst. exists model. split; [exact Hloop | reflexivity].
Qed.

Lemma createnw_absent k sh o (d : NwData) st :
  id_of_name (answer (GetNetworks k sh o) st) (nw_name d) = Ok "null" ->
  createnw k sh o d st =
  if negb ((if nw_type d =? "combined" then "wireless switch appliance" else nw_type d)
           =? "systems manager")
  then (after (PostNetworks k sh o (nw_timeZone d) (nw_tags d) (nw_name d) o
                 (if nw_type d =? "combined" then "wireless switch appliance" else nw_type d))
          (after (GetNetworks k sh o) st), Ok "ok")
  else (printed ("@ " +++ "WARNING: Skipping network " +++ dquote +++ nw_name d +++ dquote
                      +++ " (Cannot create SM networks)")
          (after (GetNetworks k sh o) st), Ok "null").
Proof.
  intros H. unfold createnw.
  rewrite (bind_step _ _ _ _ _ (getnwid_run _ _ _ _ _)), H. simpl.
  destruct (negb (_ =? "systems manager")).
  - rewrite request_then. reflexivity.
  - rewrite print_then. reflexivity.
Qed.

Lemma createnw_present k sh o (d : NwData) st v :
  id_of_name (answer (GetNetworks k sh o) st) (nw_name d) = Ok v ->
  v <> "null" ->
  createnw k sh o d st =
  (printed ("@ " +++ "WARNING: Skipping network " +++ dquote +++ nw_name d +++ dquote
                 +++ " (Already exists)")
     (after (GetNetworks k sh o) st), Ok "null").
Proof.
  intros H Hv. unfold createnw.
  rewrite (bind_step _ _ _ _ _ (getnwid_run _ _ _ _ _)), H.
  apply String.eqb_neq in Hv. rewrite Hv. simpl.
  rewrite print_then. reflexivity.
Qed.

Lemma main_network_kept L st :
  nwid L <> "null" -> main_network L st = (st, Ok L).
Proof.
  intros H. unfold main_network. apply String.eqb_neq in H. rewrite H. reflexivity.
Qed.

Lemma main_network_unfold L st :
  nwid L = "null" ->
  main_network L st
  = bind (createnw (arg_apikey (args L)) (shardurl L) (orgid L) (nwparams_of L))
      (fun createstatus =>
         if createstatus =? "null" then
           bind (printusertext "ERROR: Unable to create network") (fun _ => sys_exit 2)
         else
           bind (getnwid (arg_apikey (args L)) (shardurl L) (orgid L) (arg_nwname (args L)))
             (fun v_nwid =>
                if v_nwid =? "null" then
                  bind (printusertext "ERROR: Unable to get ID for new network")
                    (fun _ => sys_exit 2)
                else ret (set_nwid v_nwid L))) st.
Proof. intros E. unfold main_network. rewrite E. reflexivity. Qed.

Lemma createnw_lookup_fails k sh o (d : NwData) st :
  (forall v, id_of_name (answer (GetNetworks k sh o) st) (nw_name d) <> Ok v) ->
  forall st' v, createnw k sh o d st <> (st', Ok v).
Proof.
  intros H st' v Hc. unfold createnw in Hc.
  rewrite (bind_step _ _ _ _ _ (getnwid_run _ _ _ _ _)) in Hc.
  destruct (id_of_name _ _) as [v0 | |]; try discriminate Hc.
  now apply (H v0).
Qed.

(** The creation request of line 111 as [main] issues it. *)
Lemma main_network_ok L st st' L' :
  main_network L st = (st', Ok L') ->
  (nwid L <> "null" /\ st' = st /\ L' = L)
  \/ (nwid L = "null"
      /\ exists v t,
           st' = after (networks_request L)
                   (after (PostNetworks (arg_apikey (args L)) (shardurl L) (orgid L)
                             "Europe/Helsinki" (nw_tags (nwparams_of L))
                             (arg_nwname (args L)) (orgid L) t)
                      (after (networks_request L) st))
           /\ id_of_name (answer (networks_request L) st) (arg_nwname (args L)) = Ok "null"
           /\ id_of_name
                (answer (networks_request L)
                   (after (PostNetworks (arg_apikey (args L)) (shardurl L) (orgid L)
                             "Europe/Helsinki" (nw_tags (nwparams_of L))
                             (arg_nwname (args L)) (orgid L) t)
                      (after (networks_request L) st)))
                (arg_nwname (args L)) = Ok v
           /\ v <> "null" /\ L' = set_nwid v L).
Proof.
  intros H. destruct (nwid L =? "null") eqn:E.
  2:{ left. apply String.eqb_neq in E. rewrite (main_network_kept _ _ E) in H.
      inversion H; subst. auto. }
  right. apply String.eqb_eq in E. split; [exact E|].
  rewrite (main_network_unfold _ _ E) in H.
  apply bind_inv_ok in H. destruct H as (st1 & status & Hc & H).
  destruct (id_of_name (answer (networks_request L) st) (arg_nwname (args L)))
    as [v0 | code | exc] eqn:E0.
  2:{ exfalso. eapply (createnw_lookup_fails _ _ _ _ _); [|exact Hc].
      intros v Hv. change (nw_name (nwparams_of L)) with (arg_nwname (args L)) in Hv.
      fold (networks_request L) in Hv. rewrite E0 in Hv. discriminate Hv. }
  2:{ exfalso. eapply (createnw_lookup_fails _ _ _ _ _); [|exact Hc].
      intros v Hv. change (nw_name (nwparams_of L)) with (arg_nwname (args L)) in Hv.
      fold (networks_request L) in Hv. rewrite E0 in Hv. discriminate Hv. }
  destruct (v0 =? "null") eqn:Ev0.
  2:{ apply String.eqb_neq in Ev0.
      rewrite (createnw_present _ _ _ (nwparams_of L) st v0 E0 Ev0) in Hc.
      inversion Hc; subst. exfalso. exact (then_exit_not_ok _ _ _ _ _ H). }
  apply String.eqb_eq in Ev0. subst v0.
  rewrite (createnw_absent _ _ _ (nwparams_of L) st E0) in Hc.
  destruct (negb (_ =? "systems manager")).
  2:{ inversion Hc; subst. exfalso. exact (then_exit_not_ok _ _ _ _ _ H). }
  inversion Hc; subst; clear Hc.
  change ("ok" =? "null") with false in H. cbv beta iota in H.
  rewrite (bind_step _ _ _ _ _ (getnwid_run _ _ _ _ _)) in H.
  fold (networks_request L) in H.
  match type of H with
  | match ?e with _ => _ end = _ => destruct e as [v | code | exc] eqn:E1
  end; try discriminate H.
  destruct (v =? "null") eqn:Ev.
  { exfalso. exact (then_exit_not_ok _ _ _ _ _ H). }
  unfold ret, lift in H. inversion H; subst.
  apply String.eqb_neq in Ev.
  exists v. eexists. split; [reflexivity|]. split; [reflexivity|].
  split; [exact E1|]. split; [exact Ev | reflexivity].
Qed.

Lemma main_enroll_ok L st st' L' :
  main_enroll L st = (st', Ok L') ->
  L' = set_validserials (compile_validserials (devicelist_serial L) (devicelist_model L)) L.
Proof.
  unfold main_enroll. intros H.
  apply bind_inv_ok in H. destruct H as (st1 & u & _ & H).
  unfold ret, lift in H. now inversion H.
Qed.

(** ** What holds at each point of a run *)

Lemma upto_org_inv opts st0 st L :
  upto_org opts st0 = (st, Ok L) ->
  initialised opts st0 L
  /\ arg_serial (args L) <> "null" /\ arg_nwname (args L) <> "null"
  /\ st = after (GetSnmp (arg_apikey (args L)) (orgid L))
            (after (GetOrganizations (arg_apikey (args L))) st0).
Proof.
  unfold upto_org. intros H.
  apply bind_inv_ok in H. destruct H as (st1 & L1 & Hi & H).
  apply main_init_ok in Hi. destruct Hi as (-> & Hinit & Hs & Hn).
  apply main_org_ok in H. destruct H as (o & sh & -> & ->).
  repeat split; auto; apply Hinit.
Qed.

Lemma upto_nwcheck_inv opts st0 st L :
  upto_nwcheck opts st0 = (st, Ok L) ->
  initialised opts st0 L /\ (nwid L = "null" \/ stoponerror L = false).
Proof.
  unfold upto_nwcheck. intros H.
  apply bind_inv_ok in H. destruct H as (st1 & L1 & Hp & H).
  apply upto_org_inv in Hp. destruct Hp as (Hinit & _).
  apply main_nwcheck_ok in H. destruct H as (v & _ & Hv & -> & _).
  split; [split; apply Hinit | exact Hv].
Qed.

Lemma upto_template_inv opts st0 st L :
  upto_template opts st0 = (st, Ok L) ->
  initialised opts st0 L /\ (nwid L = "null" \/ stoponerror L = false).
Proof.
  unfold upto_template. intros H.
  apply bind_inv_ok in H. destruct H as (st1 & L1 & Hp & H).
  apply upto_nwcheck_inv in Hp. destruct Hp as (Hinit & Hv).
  apply main_template_ok in H. destruct H as (t & ->).
  split; [split; apply Hinit | exact Hv].
Qed.

Lemma upto_classify_inv opts st0 st L :
  upto_classify opts st0 = (st, Ok L) ->
  initialised opts st0 L /\ classified L.
Proof.
  unfold upto_classify. intros H.
  apply bind_inv_ok in H. destruct H as (st1 & L1 & Hp & H).
  apply upto_template_inv in Hp. destruct Hp as (Hinit & _).
  apply main_classify_ok in H. destruct H as (model & Hloop & ->).
  apply classify_loop_shape in Hloop. destruct Hloop as (ms & Hms & Hlen).
  simpl in Hms. subst ms.
  split; [split; apply Hinit|].
  unfold classified; simpl. repeat split. exact Hlen.
Qed.

Lemma upto_network_inv opts st0 st L :
  upto_network opts st0 = (st, Ok L) ->
  initialised opts st0 L /\ classified L /\ nwid L <> "null".
Proof.
  unfold upto_network. intros H.
  apply bind_inv_ok in H. destruct H as (st1 & L1 & Hp & H).
  apply upto_classify_inv in Hp. destruct Hp as (Hinit & Hc).
  apply main_network_ok in H.
  destruct H as [(Hn & -> & ->) | (Hn & v & t & _ & _ & _ & Hv & ->)].
  - auto.
  - split; [split; apply Hinit|]. split; [exact Hc | exact Hv].
Qed.

Lemma upto_enroll_inv opts st0 st L :
  upto_enroll opts st0 = (st, Ok L) ->
  initialised opts st0 L /\ classified L /\ nwid L <> "null"
  /\ validserials L = compile_validserials (devicelist_serial L) (devicelist_model L).
Proof.
  unfold upto_enroll. intros H.
  apply bind_inv_ok in H. destruct H as (st1 & L1 & Hp & H).
  apply upto_network_inv in Hp. destruct Hp as (Hinit & Hc & Hn).
  apply main_enroll_ok in H. subst L.
  split; [split; apply Hinit|]. split; [exact Hc|]. split; [exact Hn | reflexivity].
Qed.

Lemma main_bind_run L st :
  main_bind L st =
  if negb (status_ok (answer (bind_request L) st)) && stoponerror L
  then (printed "@ ERROR: Unable to bind network to template" (after (bind_request L) st),
        Exit 2)
  else (printed "@ End of script." (after (bind_request L) st), Ok tt).
Proof.
  unfold main_bind, bind_request.
  rewrite (bind_step _ _ _ _ _ (bindnw_run _ _ _ _ _ _)).
  destruct (negb (status_ok _)); simpl; [destruct (stoponerror L); simpl|];
    rewrite ?print_then; reflexivity.
Qed.

(** C4. In every run that reaches the binding of the template, the one bind
    request carries [autoBind] ['true'] exactly when some model collected by
    the classification starts with [MS], and ['false'] otherwise. *)
Theorem autobind_iff_switch opts st0 st L :
  upto_enroll opts st0 = (st, Ok L) ->
  exists autoBind,
    trace (fst (main opts st0))
    = trace st ++ [PostBind (arg_apikey (args L)) (shardurl L) (nwid L) (templateid L) autoBind]
    /\ (autoBind = "true"
        <-> exists record, In record (devicelist_model L) /\ prefix2 record = "MS")
    /\ (autoBind = "false"
        <-> ~ exists record, In record (devicelist_model L) /\ prefix2 record = "MS").
Proof.
  intros H. pose proof (upto_enroll_inv _ _ _ _ H) as (_ & Hc & _).
  destruct Hc as (_ & _ & Hdt & _).
  exists (autobindvalue_of (ms (devicetypes L))). split.
  - unfold main. rewrite (bind_run _ _ _ _ _ H), main_bind_run.
    destruct (_ && _); reflexivity.
  - rewrite <- compile_devicetypes_ms, <- Hdt.
    destruct (ms (devicetypes L)); simpl; split; split; intros; try discriminate;
      try reflexivity; try congruence.
Qed.

(** C9. In every run that reaches the binding of the template, when the bind
    request answers with a status other than [requests.codes.ok] the run
    ends with the diagnostic and exit code 2 exactly when the mode is not
    [ignore_error]; in that mode the run ends normally. *)
Theorem bind_failure_fatal_unless_ignored opts st0 st L :
  upto_enroll opts st0 = (st, Ok L) ->
  status_ok (answer (bind_request L) st) = false ->
  parse_opts opts default_args st0 = (st0, Ok (args L))
  /\ (main opts st0
      = (printed "@ ERROR: Unable to bind network to template" (after (bind_request L) st),
         Exit 2)
      <-> arg_modexisting (args L) <> "ignore_error")
  /\ (arg_modexisting (args L) = "ignore_error" ->
      main opts st0 = (printed "@ End of script." (after (bind_request L) st), Ok tt)).
Proof.
  intros H Hfail. pose proof (upto_enroll_inv _ _ _ _ H) as ((Hargs & Hstop) & _).
  split; [exact Hargs|].
  unfold main. rewrite (bind_run _ _ _ _ _ H), main_bind_run, Hfail, Hstop. simpl.
  destruct (arg_modexisting (args L) =? "ignore_error") eqn:E; simpl; string_cases.
  - split; [split|]; intros; try discriminate; try contradiction; reflexivity.
  - split; [split|]; intros; try reflexivity; try assumption; contradiction.
Qed.

Lemma main_exits_at_nwcheck opts st0 st1 code :
  upto_nwcheck opts st0 = (st1, Exit code) -> main opts st0 = (st1, Exit code).
Proof.
  intros H. unfold main, upto_enroll, upto_network, upto_classify, upto_template.
  repeat (erewrite bind_exit; [reflexivity|]). exact H.
Qed.

(** C5. When the lookup of line 285 finds a network of the requested name
    and the mode is not [ignore_error], the run prints the already-exists
    error and ends with exit code 2; all it has sent by then are the three
    lookups of organization, shard and networks: no creation request and no
    enrollment request. *)
Theorem existing_network_stops_run opts st0 st L v :
  upto_org opts st0 = (st, Ok L) ->
  id_of_name (answer (networks_request L) st) (arg_nwname (args L)) = Ok v ->
  v <> "null" ->
  arg_modexisting (args L) <> "ignore_error" ->
  main opts st0
  = (printed "@ ERROR: Network with that name already exists"
       (after (networks_request L) st), Exit 2)
  /\ trace (fst (main opts st0))
     = trace st0 ++ [GetOrganizations (arg_apikey (args L));
                     GetSnmp (arg_apikey (args L)) (orgid L);
                     networks_request L]
  /\ stdout (fst (main opts st0))
     = stdout st0 ++ ["@ ERROR: Network with that name already exists"]
  /\ (forall req, In req (trace (fst (main opts st0))) -> ~ In req (trace st0) ->
        is_creation req = false /\ is_enrollment req = false).
Proof.
  intros H Hv Hnn Hmode.
  pose proof (upto_org_inv _ _ _ _ H) as ((_ & Hstop) & _ & _ & Hst).
  assert (Hmain : main opts st0
                  = (printed "@ ERROR: Network with that name already exists"
                       (after (networks_request L) st), Exit 2)).
  { apply main_exits_at_nwcheck. unfold upto_nwcheck.
    rewrite (bind_run _ _ _ _ _ H). unfold main_nwcheck.
    rewrite (bind_step _ _ _ _ _ (getnwid_run _ _ _ _ _)).
    fold (networks_request L). rewrite Hv.
    apply String.eqb_neq in Hnn, Hmode. rewrite Hnn, Hstop, Hmode. simpl.
    rewrite print_then. reflexivity. }
  rewrite Hmain. simpl. split; [reflexivity|].
  assert (Htr : trace st ++ [networks_request L]
                = trace st0 ++ [GetOrganizations (arg_apikey (args L));
                                GetSnmp (arg_apikey (args L)) (orgid L);
                                networks_request L]).
  { rewrite Hst. simpl. now rewrite <- !app_assoc. }
  split; [exact Htr|]. split.
  { rewrite Hst. reflexivity. }
  intros req Hin Hnot. rewrite Htr in Hin. apply in_app_or in Hin.
  destruct Hin as [Hin | Hin]; [contradiction|].
  simpl in Hin. unfold networks_request in Hin.
  destruct Hin as [<- | [<- | [<- | []]]]; split; reflexivity.
Qed.

Lemma provision_existing (L : Locals) (st : State) (v : string) :
  stoponerror L = false ->
  id_of_name (answer (networks_request L) st) (arg_nwname (args L)) = Ok v ->
  v <> "null" ->
  provision L st = (after (networks_request L) st, Ok (set_nwid v L)).
Proof.
  intros Hstop Hv Hnn. unfold provision, main_nwcheck.
  unfold bind at 1.
  rewrite (bind_step _ _ _ _ _ (getnwid_run _ _ _ _ _)).
  fold (networks_request L). rewrite Hv, Hstop, andb_false_r.
  unfold ret, lift. apply main_network_kept. exact Hnn.
Qed.

(** C6. With errors ignored, a network found by the lookup is reused: the
    provisioning step sends that one lookup, no creation request, and takes
    the id found.  On a dashboard whose network listing answers the same when
    asked again at once, running the step a second time after a first run
    that gave an id gives that same id with no creation request, so both runs
    together send at most one. *)
Theorem provision_idempotent (L : Locals) (st : State) :
  stoponerror L = false ->
  (forall v,
      id_of_name (answer (networks_request L) st) (arg_nwname (args L)) = Ok v ->
      v <> "null" ->
      provision L st = (after (networks_request L) st, Ok (set_nwid v L))
      /\ trace (fst (provision L st)) = trace st ++ [networks_request L]
      /\ nwid (set_nwid v L) = v)
  /\ ((forall w, snd (dashboard (networks_request L) (fst (dashboard (networks_request L) w)))
                 = snd (dashboard (networks_request L) w)) ->
      forall st1 L1,
        provision L st = (st1, Ok L1) ->
        provision L st1 = (after (networks_request L) st1, Ok L1)
        /\ nwid L1 <> "null"
        /\ exists l,
             trace (fst (provision L st1)) = trace st ++ l
             /\ (List.length (filter is_creation l) <= 1)%nat).
Proof.
  intros Hstop. split.
  { intros v Hv Hnn. rewrite (provision_existing _ _ _ Hstop Hv Hnn).
    repeat split. }
  intros Hrep st1 L1 Hrun.
  assert (Hagain : forall s, answer (networks_request L) (after (networks_request L) s)
                             = answer (networks_request L) s).
  { intros s. unfold answer, after. simpl. apply Hrep. }
  unfold provision in Hrun. apply bind_inv_ok in Hrun.
  destruct Hrun as (sta & La & Hchk & Hnet).
  apply main_nwcheck_ok in Hchk. destruct Hchk as (v0 & Hv0 & _ & -> & ->).
  apply main_network_ok in Hnet.
  destruct Hnet as [(Hn & -> & ->) | (Hn & v & t & -> & _ & Hv & Hnn & ->)].
  - simpl in Hn.
    assert (Hv1 : id_of_name (answer (networks_request L) (after (networks_request L) st))
                    (arg_nwname (args L)) = Ok v0) by now rewrite Hagain.
    rewrite (provision_existing _ _ _ Hstop Hv1 Hn).
    split; [reflexivity|]. split; [exact Hn|].
    exists [networks_request L; networks_request L]. simpl. split.
    + now rewrite <- app_assoc.
    + unfold networks_request. simpl. lia.
  - simpl in *.
    change (networks_request (set_nwid v0 L)) with (networks_request L) in *.
    match goal with
    | |- context [after (networks_request L) (after ?post ?s)] =>
        set (stc := after post s) in *
    end.
    assert (Hv1 : id_of_name (answer (networks_request L) (after (networks_request L) stc))
                    (arg_nwname (args L)) = Ok v) by now rewrite Hagain.
    rewrite (provision_existing _ _ _ Hstop Hv1 Hnn).
    split; [reflexivity|]. split; [exact Hnn|].
    eexists. split.
    + subst stc. simpl. rewrite <- !app_assoc. simpl. reflexivity.
    + unfold networks_request. simpl. lia.
Qed.

(** * Further properties of the code *)

(** ** Splitting the serials *)

Lemma split_nonempty (sep : ascii) (s : string) : split sep s <> [].
Proof.
  destruct s as [|c s]; simpl; [discriminate|].
  destruct (Ascii.eqb c sep); [discriminate|].
  destruct (split sep s); discriminate.
Qed.

Lemma concat_cons_nonempty (sep x : string) (xs : list string) :
  xs <> [] -> String.concat sep (x :: xs) = x +++ sep +++ String.concat sep xs.
Proof. destruct xs; [congruence | reflexivity]. Qed.

(** X1. [arg_serial.split(" ")] loses nothing: joining the fields with single
    spaces gives the argument back; there is always at least one field and
    no field contains a space. *)
Theorem split_round_trip (s : string) :
  String.concat " " (split space s) = s
  /\ split space s <> []
  /\ Forall (fun field => has_char space field = false) (split space s).
Proof.
  split; [|split; [apply split_nonempty|]].
  - induction s as [|c s IH]; [reflexivity|].
    simpl split. destruct (Ascii.eqb c space) eqn:E.
    + apply Ascii.eqb_eq in E. subst c.
      rewrite concat_cons_nonempty by apply split_nonempty.
      rewrite IH. reflexivity.
    + pose proof (split_nonempty space s) as Hne.
      destruct (split space s) as [|w ws]; [congruence|].
      destruct ws as [|w' ws].
      * simpl in *. now rewrite IH.
      * rewrite concat_cons_nonempty by discriminate.
        rewrite concat_cons_nonempty in IH by discriminate.
        change (String c w +++ " " +++ String.concat " " (w' :: ws))
          with (String c (w +++ " " +++ String.concat " " (w' :: ws))).
        now rewrite IH.
  - induction s as [|c s IH]; [repeat constructor|].
    simpl split. destruct (Ascii.eqb c space) eqn:E.
    + constructor; [reflexivity | exact IH].
    + destruct (split space s) as [|w ws]; [repeat constructor; simpl; now rewrite E|].
      inversion IH; subst. constructor; [|assumption].
      simpl. rewrite E. assumption.
Qed.

(** ** The device mix *)

Lemma devicetypes_update_or (dt : DeviceTypes) (record : string) :
  devicetypes_update dt record
  = {| mx := mx dt || is_mx_model record;
       ms := ms dt || is_ms_model record;
       mr := mr dt || is_mr_model record |}.
Proof.
  unfold devicetypes_update, is_mx_model, is_ms_model, is_mr_model.
  destruct (prefix2 record =? "MX") eqn:E1.
  { string_cases. rewrite E1. simpl. now rewrite !orb_true_r, !orb_false_r. }
  destruct (prefix2 record =? "Z1") eqn:E2.
  { string_cases. rewrite E2. simpl. now rewrite !orb_true_r, !orb_false_r. }
  destruct (prefix2 record =? "MS") eqn:E3.
  { string_cases. rewrite E3. simpl. now rewrite !orb_true_r, !orb_false_r. }
  destruct (prefix2 record =? "MR") eqn:E4; simpl.
  - now rewrite !orb_true_r, !orb_false_r.
  - rewrite !orb_false_r. now destruct dt.
Qed.

Lemma fold_devicetypes_or (models : list string) (dt : DeviceTypes) :
  fold_left devicetypes_update models dt
  = {| mx := mx dt || existsb is_mx_model models;
       ms := ms dt || existsb is_ms_model models;
       mr := mr dt || existsb is_mr_model models |}.
Proof.
  revert dt. induction models as [|record models IH]; intros dt; simpl.
  - rewrite !orb_false_r. now destruct dt.
  - rewrite IH, devicetypes_update_or. simpl. now rewrite !orb_assoc.
Qed.

(** X2. The device mix is the disjunction, over the collected models, of the
    three prefix tests: it does not depend on the order of the models or on
    how often a family occurs. *)
Theorem devicetypes_is_disjunction (models more : list string) :
  compile_devicetypes models
  = {| mx := existsb is_mx_model models;
       ms := existsb is_ms_model models;
       mr := existsb is_mr_model models |}
  /\ compile_devicetypes (models ++ more) = compile_devicetypes (more ++ models)
  /\ compile_devicetypes (models ++ models) = compile_devicetypes models.
Proof.
  unfold compile_devicetypes. rewrite !fold_devicetypes_or. simpl.
  repeat split.
  - rewrite !existsb_app. f_equal; apply orb_comm.
  - rewrite !existsb_app. f_equal; apply orb_diag.
Qed.

(** X3. The type string the script builds is the single-space join of the
    words present exactly when no family is present, or the appliance family
    is present and not preceded by the access-point family alone; in the four
    other mixes a separator is left over. *)
Theorem nwtypestring_joined_iff (dt : DeviceTypes) :
  build_nwtypestring dt = joined_type dt
  <-> (mx dt = false /\ ms dt = false /\ mr dt = false)
      \/ (mx dt = true /\ (ms dt = true \/ mr dt = false)).
Proof.
  destruct dt as [[] [] []]; vm_compute; split; intros H;
    try discriminate H; try reflexivity; try tauto;
    repeat match goal with
           | H : _ \/ _ |- _ => destruct H
           | H : _ /\ _ |- _ => destruct H
           end; discriminate.
Qed.

(** ** The valid serials *)

Lemma in_combine_nth_error {A B} (l : list A) (l' : list B) (a : A) (b : B) :
  In (a, b) (combine l l')
  <-> exists i, nth_error l i = Some a /\ nth_error l' i = Some b.
Proof.
  revert l'. induction l as [|x l IH]; intros l'; simpl.
  - split; [tauto|]. intros [[|i] [H _]]; discriminate H.
  - destruct l' as [|y l']; simpl.
    + split; [tauto|]. intros [[|i] [_ H]]; discriminate H.
    + rewrite IH. split.
      * intros [H | [i Hi]].
        -- inversion H; subst. now exists 0%nat.
        -- now exists (S i).
      * intros [[|i] [H1 H2]]; simpl in *.
        -- left. congruence.
        -- right. now exists i.
Qed.

(** X4. The index loop of lines 353-356 is a filter: it keeps, in input
    order, the serials at the positions whose model string is exactly [mr],
    [ms] or [mx], and nothing else. *)
Theorem validserials_is_filter (serial model : list string) (s : string) :
  compile_validserials serial model
  = map fst (filter (fun p => is_validmodel (snd p)) (combine serial model))
  /\ (In s (compile_validserials serial model)
      <-> exists i m, nth_error serial i = Some s /\ nth_error model i = Some m
                      /\ (m = "mr" \/ m = "ms" \/ m = "mx")).
Proof.
  split; [apply compile_validserials_zip|].
  rewrite compile_validserials_zip. unfold validserials_zip.
  rewrite in_map_iff. split.
  - intros ([s' m] & Hs & H). simpl in Hs. subst s'.
    apply filter_In in H. destruct H as [Hin Hv].
    apply in_combine_nth_error in Hin. destruct Hin as (i & H1 & H2).
    exists i, m. repeat split; auto.
    unfold is_validmodel in Hv. simpl in Hv.
    apply orb_true_iff in Hv. destruct Hv as [Hv | Hv];
      [apply orb_true_iff in Hv; destruct Hv as [Hv | Hv]|];
      apply String.eqb_eq in Hv; auto.
  - intros (i & m & H1 & H2 & Hm). exists (s, m). split; [reflexivity|].
    apply filter_In. split.
    + apply in_combine_nth_error. now exists i.
    + destruct Hm as [-> | [-> | ->]]; reflexivity.
Qed.

(** ** Lookups by name *)

Lemma scan_name_sound (records : list Dict) (n v : string) :
  scan_name records n = Ok v ->
  (exists record, In record records
                  /\ dict_get "name" record = Some n /\ dict_get "id" record = Some v)
  \/ (v = "null"
      /\ Forall (fun r => exists x, dict_get "name" r = Some x /\ x <> n) records).
Proof.
  induction records as [|record rest IH]; simpl; intros H.
  - inversion H. right. split; [reflexivity | constructor].
  - unfold getitem in H at 1.
    destruct (dict_get "name" record) as [x|] eqn:En; [|discriminate H].
    simpl in H. destruct (x =? n) eqn:Ex.
    + apply String.eqb_eq in Ex. subst x. unfold getitem in H.
      destruct (dict_get "id" record) as [i|] eqn:Ei; [|discriminate H].
      inversion H; subst. left. exists record. auto.
    + apply String.eqb_neq in Ex. destruct (IH H) as [(r & Hin & Hr) | [Hv Hall]].
      * left. exists r. split; [now right | exact Hr].
      * right. split; [exact Hv|]. constructor; [now exists x | exact Hall].
Qed.

(** X5. A lookup by name that returns something other than ['null'] had a
    response with status [requests.codes.ok] whose body is an array holding a
    record with the requested name, and returns that record's id. *)
Theorem lookup_by_name_sound (r : Response) (n v : string) :
  id_of_name r n = Ok v ->
  v <> "null" ->
  status_code r = requests_codes_ok
  /\ exists records record,
       json r = JArray records /\ In record records
       /\ dict_get "name" record = Some n /\ dict_get "id" record = Some v.
Proof.
  unfold id_of_name. intros H Hv.
  destruct (status_ok r) eqn:Es; simpl in H; [|inversion H; congruence].
  split; [now apply Z.eqb_eq|].
  destruct (json r) as [records | [|kv d]]; simpl in H.
  - destruct (scan_name_sound _ _ _ H) as [(record & Hin & Hn & Hi) | [Hnull _]].
    + exists records, record. auto.
    + congruence.
  - inversion H; congruence.
  - discriminate H.
Qed.

(** X6. The scan returns the id of the first record carrying the name: the
    records after it are not read, be they malformed or of the same name;
    when that first record has no id the lookup raises [KeyError]; and a scan
    over records that all carry another name gives ['null']. *)
Theorem scan_name_first_match (pre post : list Dict) (record : Dict) (n : string) :
  Forall (fun r => exists x, dict_get "name" r = Some x /\ x <> n) pre ->
  dict_get "name" record = Some n ->
  scan_name (pre ++ record :: post) n
  = match dict_get "id" record with
    | Some v => Ok v
    | None => Raise "KeyError"
    end
  /\ scan_name pre n = Ok "null".
Proof.
  intros Hpre Hn. induction Hpre as [|r pre (x & Hx & Hne) _ IH]; simpl.
  - unfold getitem. rewrite Hn. simpl. rewrite String.eqb_refl. split; reflexivity.
  - unfold getitem at 1 3. rewrite Hx. simpl.
    apply String.eqb_neq in Hne. rewrite Hne. exact IH.
Qed.

(** ** The inventory lookup *)

Lemma inventory_scan_app (l1 l2 : list Dict) (s : string) : forall found rv,
  inventory_scan (l1 ++ l2) s found rv
  = rbind (inventory_scan l1 s found rv)
      (fun fr => inventory_scan l2 s (fst fr) (snd fr)).
Proof.
  induction l1 as [|record l1 IH]; intros found rv; simpl; [reflexivity|].
  destruct (getitem record "serial") as [x | |]; simpl; try reflexivity.
  destruct (x =? s); [|apply IH].
  repeat match goal with
         | |- context [getitem record ?k] =>
             destruct (getitem record k); simpl; try reflexivity
         end.
  apply IH.
Qed.

Lemma inventory_scan_sound (records : list Dict) (s : string) : forall found rv found' rv',
  inventory_scan records s found rv = Ok (found', rv') ->
  (found' = found /\ rv' = rv)
  \/ (found' = true
      /\ exists record, In record records
                        /\ dict_get "serial" record = Some s
                        /\ dict_get "serial" rv' = Some s
                        /\ dict_get "model" rv' = dict_get "model" record).
Proof.
  induction records as [|record rest IH]; intros found rv found' rv' H; simpl in H.
  - inversion H. now left.
  - unfold getitem in H at 1.
    destruct (dict_get "serial" record) as [x|] eqn:Ex; [|discriminate H].
    simpl in H. destruct (x =? s) eqn:Exs.
    + apply String.eqb_eq in Exs. subst x.
      unfold getitem in H. rewrite Ex in H.
      destruct (dict_get "mac" record); [|discriminate H]. simpl in H.
      destruct (dict_get "networkId" record); [|discriminate H]. simpl in H.
      destruct (dict_get "model" record) as [m|] eqn:Em; [|discriminate H]. simpl in H.
      destruct (dict_get "claimedAt" record); [|discriminate H]. simpl in H.
      destruct (dict_get "publicIp" record); [|discriminate H]. simpl in H.
      right. apply IH in H. destruct H as [[-> ->] | (Hf & r & Hin & Hr)].
      * split; [reflexivity|]. exists record. rewrite Em. simpl. auto.
      * split; [exact Hf|]. exists r. split; [now right | exact Hr].
    + apply IH in H. destruct H as [H | (Hf & r & Hin & Hr)]; [now left|].
      right. split; [exact Hf|]. exists r. split; [now right | exact Hr].
Qed.

(** X7. What the inventory lookup returns is either the record with serial
    and model ['null'], or a record that carries the requested serial and the
    model of an inventory record with that serial, out of a listing with
    status [requests.codes.ok]: never the data of another device. *)
Theorem orgdevice_sound (r : Response) (s : string) (d : Dict) :
  orgdevice_of r s = Ok d ->
  d = null_device
  \/ (status_code r = requests_codes_ok
      /\ dict_get "serial" d = Some s
      /\ exists records record,
           json r = JArray records /\ In record records
           /\ dict_get "serial" record = Some s
           /\ dict_get "model" d = dict_get "model" record).
Proof.
  unfold orgdevice_of. intros H.
  destruct (status_ok r) eqn:Es; simpl in H; [|inversion H; now left].
  destruct (json r) as [records | [|kv m]] eqn:Ej; simpl in H.
  - destruct (inventory_scan records s false []) as [[found rv] | |] eqn:Escan;
      simpl in H; try discriminate H.
    destruct found; simpl in H; inversion H; subst; [|now left].
    apply inventory_scan_sound in Escan.
    destruct Escan as [[Hf _] | (_ & record & Hin & Hs & Hd & Hm)]; [discriminate Hf|].
    right. split; [now apply Z.eqb_eq|]. split; [exact Hd|].
    exists records, record. auto.
  - inversion H. now left.
  - discriminate H.
Qed.

(** X8. When several inventory records carry the serial, the last one wins:
    the loop of lines 214-217 does not stop at the first match.  The record
    returned has the six members of line 217, taken from that last match. *)
Theorem inventory_last_match_wins (r : Response) (pre post : list Dict) (record : Dict)
    (s v_mac v_networkId v_model v_claimedAt v_publicIp : string)
    (found0 : bool) (rv0 : Dict) :
  status_code r = requests_codes_ok ->
  json r = JArray (pre ++ record :: post) ->
  inventory_scan pre s false [] = Ok (found0, rv0) ->
  dict_get "serial" record = Some s ->
  dict_get "mac" record = Some v_mac ->
  dict_get "networkId" record = Some v_networkId ->
  dict_get "model" record = Some v_model ->
  dict_get "claimedAt" record = Some v_claimedAt ->
  dict_get "publicIp" record = Some v_publicIp ->
  inventory_lacks {| status_code := requests_codes_ok; json := JArray post |} s = true ->
  orgdevice_of r s
  = Ok (device_fields v_mac s v_networkId v_model v_claimedAt v_publicIp).
Proof.
  intros Hs Hj Hpre H1 H2 H3 H4 H5 H6 Hpost.
  unfold orgdevice_of, status_ok. rewrite Hs, Z.eqb_refl, Hj. simpl.
  rewrite inventory_scan_app, Hpre. simpl.
  unfold getitem. rewrite H1. simpl. rewrite String.eqb_refl.
  rewrite H2, H3, H4, H5, H6. simpl.
  unfold inventory_lacks in Hpost. simpl in Hpost.
  rewrite (inventory_scan_lacks _ _ _ _ Hpost). reflexivity.
Qed.

(** ** Arguments and help *)

Lemma printed_one line st : printed line st = printed_all [line] st.
Proof. reflexivity. Qed.

Lemma printed_more line lines st :
  printed_all lines (printed line st) = printed_all (line :: lines) st.
Proof. unfold printed, printed_all. cbn [world trace stdout]. now rewrite <- app_assoc. Qed.

Lemma printusertext_run line st :
  printusertext line st = (printed ("@ " +++ line) st, Ok tt).
Proof. reflexivity. Qed.

(** [printhelp] prints 21 lines and does nothing else. *)
Lemma printhelp_run :
  exists lines, List.length lines = 21%nat
                /\ forall st, printhelp st = (printed_all lines st, Ok tt).
Proof.
  eexists. split.
  2:{ intros st. unfold printhelp.
      repeat (rewrite print_then; cbv beta).
      rewrite printusertext_run, printed_one.
      repeat rewrite printed_more. reflexivity. }
  reflexivity.
Qed.

Lemma parse_opts_help (opts : list (string * string)) (lines : list string) :
  (forall st, printhelp st = (printed_all lines st, Ok tt)) ->
  In "-h" (map fst opts) ->
  forall a st, parse_opts opts a st = (printed_all lines st, Exit 0).
Proof.
  intros Hh. induction opts as [|[opt arg] rest IH]; simpl; intros Hin a st; [contradiction|].
  destruct (opt =? "-h") eqn:E.
  - now rewrite (bind_run _ _ _ _ _ (Hh st)).
  - apply String.eqb_neq in E.
    destruct Hin as [Hin | Hin]; [congruence|].
    repeat match goal with
           | |- (if ?c then _ else _) _ = _ => destruct c
           end; apply IH; exact Hin.
Qed.

Lemma main_exits_at_init opts st0 st1 code :
  main_init opts st0 = (st1, Exit code) -> main opts st0 = (st1, Exit code).
Proof.
  intros H. apply main_exits_at_nwcheck. unfold upto_nwcheck, upto_org.
  repeat (erewrite bind_exit; [reflexivity|]). exact H.
Qed.

Lemma main_exits_at_org opts st0 st1 code :
  upto_org opts st0 = (st1, Exit code) -> main opts st0 = (st1, Exit code).
Proof.
  intros H. apply main_exits_at_nwcheck. unfold upto_nwcheck.
  erewrite bind_exit; [reflexivity|]. exact H.
Qed.

Lemma main_exits_at_template opts st0 st1 code :
  upto_template opts st0 = (st1, Exit code) -> main opts st0 = (st1, Exit code).
Proof.
  intros H. unfold main, upto_enroll, upto_network, upto_classify.
  repeat (erewrite bind_exit; [reflexivity|]). exact H.
Qed.

Lemma main_exits_at_network opts st0 st1 code :
  upto_network opts st0 = (st1, Exit code) -> main opts st0 = (st1, Exit code).
Proof.
  intros H. unfold main, upto_enroll.
  repeat (erewrite bind_exit; [reflexivity|]). exact H.
Qed.

Lemma main_exits_at_enroll opts st0 st1 code :
  upto_enroll opts st0 = (st1, Exit code) -> main opts st0 = (st1, Exit code).
Proof. intros H. unfold main. erewrite bind_exit; [reflexivity|]. exact H. Qed.

(** X9. When [getopt] accepts the command line and [-h] is among the options
    it returns, the run prints the 21 lines of help and ends with exit code
    0, whatever the other options are and even when required ones are
    missing, and it sends no request.  A command line that [getopt] refuses
    gets the same help and exit code 2 instead, also when it holds [-h], as
    [-h -z] does; and [-h] in the place of the value of an option is that
    value, not the help option. *)
Theorem help_option_exits_zero
    (argv : list string) (opts : list (string * string)) (rest : list string) :
  getopt argv = Parsed opts rest ->
  In "-h" (map fst opts) ->
  exists lines,
    List.length lines = 21%nat
    /\ (forall st, printhelp st = (printed_all lines st, Ok tt)
                   /\ main_argv argv st = (printed_all lines st, Exit 0)
                   /\ trace (fst (main_argv argv st)) = trace st)
    /\ (forall argv' st,
          getopt argv' = GetoptError ->
          main_argv argv' st = (printed_all lines st, Exit 2))
    /\ getopt ["-h"; "-z"] = GetoptError
    /\ getopt ["-k"; "-h"] = Parsed [("-k", "-h")] [].
Proof.
  intros Hget Hin. destruct printhelp_run as (lines & Hlen & Hh).
  exists lines. split; [exact Hlen|]. split; [|split; [|split; reflexivity]].
  - intros st. split; [apply Hh|].
    assert (H : main_argv argv st = (printed_all lines st, Exit 0)).
    { unfold main_argv. rewrite Hget.
      apply main_exits_at_init. unfold main_init.
      erewrite bind_exit; [reflexivity|]. now apply parse_opts_help. }
    rewrite H. split; reflexivity.
  - intros argv' st Herr. unfold main_argv. rewrite Herr.
    rewrite (bind_run _ _ _ _ _ (Hh st)). reflexivity.
Qed.

(** X10. When, after the options are read, one of the five required
    arguments still is ['null'] (never given, or given as the string [null]),
    the run prints the help and ends with exit code 2 without sending any
    request. *)
Theorem missing_argument_exits (opts : list (string * string)) (a : Args) (st : State) :
  parse_opts opts default_args st = (st, Ok a) ->
  arg_apikey a = "null" \/ arg_orgname a = "null" \/ arg_serial a = "null"
  \/ arg_nwname a = "null" \/ arg_template a = "null" ->
  exists lines,
    List.length lines = 21%nat
    /\ printhelp st = (printed_all lines st, Ok tt)
    /\ main opts st = (printed_all lines st, Exit 2)
    /\ trace (fst (main opts st)) = trace st.
Proof.
  intros Hp Hnull. destruct printhelp_run as (lines & Hlen & Hh).
  exists lines. split; [exact Hlen|]. split; [apply Hh|].
  assert (H : main opts st = (printed_all lines st, Exit 2)).
  { apply main_exits_at_init. unfold main_init.
    rewrite (bind_run _ _ _ _ _ Hp).
    assert (Hc : (arg_apikey a =? "null") || (arg_orgname a =? "null")
                 || (arg_serial a =? "null") || (arg_nwname a =? "null")
                 || (arg_template a =? "null") = true).
    { destruct Hnull as [H | [H | [H | [H | H]]]]; rewrite H; simpl;
        rewrite ?orb_true_r; reflexivity. }
    rewrite Hc. now rewrite (bind_run _ _ _ _ _ (Hh st)). }
  rewrite H. split; reflexivity.
Qed.

(** ** The lookups of [main] *)

(** X11. When the organization lookup gives ['null'] (the listing failed or
    no organization has the name), the run ends with exit code 2 after that
    one request and the error line; likewise, one request later, when the
    shard lookup gives ['null']. *)
Theorem organization_or_shard_failure_stops_run
    (opts : list (string * string)) (st0 : State) (L : Locals) :
  main_init opts st0 = (st0, Ok L) ->
  (id_of_name (answer (GetOrganizations (arg_apikey (args L))) st0) (arg_orgname (args L))
   = Ok "null" ->
   main opts st0
   = (printed "@ ERROR: Fetching organization failed"
        (after (GetOrganizations (arg_apikey (args L))) st0), Exit 2))
  /\ (forall o,
        id_of_name (answer (GetOrganizations (arg_apikey (args L))) st0)
          (arg_orgname (args L)) = Ok o ->
        o <> "null" ->
        status_ok (answer (GetSnmp (arg_apikey (args L)) o)
                     (after (GetOrganizations (arg_apikey (args L))) st0)) = false ->
        main opts st0
        = (printed "@ ERROR: Fetching Meraki cloud shard URL failed"
             (after (GetSnmp (arg_apikey (args L)) o)
                (after (GetOrganizations (arg_apikey (args L))) st0)), Exit 2)).
Proof.
  intros Hi. split.
  - intros Hnull. apply main_exits_at_org. unfold upto_org.
    rewrite (bind_run _ _ _ _ _ Hi). unfold main_org.
    rewrite (bind_step _ _ _ _ _ (getorgid_run _ _ _)), Hnull.
    change ("null" =? "null") with true. cbv beta iota.
    rewrite print_then. reflexivity.
  - intros o Ho Hne Hfail. apply main_exits_at_org. unfold upto_org.
    rewrite (bind_run _ _ _ _ _ Hi). unfold main_org.
    rewrite (bind_step _ _ _ _ _ (getorgid_run _ _ _)), Ho.
    apply String.eqb_neq in Hne. rewrite Hne.
    rewrite (bind_step _ _ _ _ _ (getshardurl_run _ _ _)), Hfail.
    cbn [negb]. cbv beta iota.
    change ("null" =? "null") with true. cbv beta iota.
    rewrite print_then. reflexivity.
Qed.

(** X12. When the template lookup gives ['null'], the run ends with exit code
    2 and names the template; this happens before any serial is claimed: the
    template request is the last one sent. *)
Theorem missing_template_stops_run
    (opts : list (string * string)) (st0 st : State) (L : Locals) :
  upto_nwcheck opts st0 = (st, Ok L) ->
  id_of_name
    (answer (GetConfigTemplates (arg_apikey (args L)) (shardurl L) (orgid L)) st)
    (arg_template (args L)) = Ok "null" ->
  main opts st0
  = (printed ("@ ERROR: Unable to find template: " +++ arg_template (args L))
       (after (GetConfigTemplates (arg_apikey (args L)) (shardurl L) (orgid L)) st), Exit 2)
  /\ trace (fst (main opts st0))
     = trace st ++ [GetConfigTemplates (arg_apikey (args L)) (shardurl L) (orgid L)].
Proof.
  intros H Hnull.
  assert (Hm : main opts st0
               = (printed ("@ ERROR: Unable to find template: " +++ arg_template (args L))
                    (after (GetConfigTemplates (arg_apikey (args L)) (shardurl L) (orgid L))
                       st), Exit 2)).
  { apply main_exits_at_template. unfold upto_template.
    rewrite (bind_run _ _ _ _ _ H). unfold main_template.
    rewrite (bind_step _ _ _ _ _ (gettemplateid_run _ _ _ _ _)), Hnull.
    change ("null" =? "null") with true. cbv beta iota.
    rewrite print_then. reflexivity. }
  rewrite Hm. split; reflexivity.
Qed.

(** ** Creating the network *)

(** X13. [createnw] sends a creation request exactly when its own lookup
    gives ['null'] and the type is not ['systems manager']: one request, with
    the organization of the call as [organizationId] and the type
    ['wireless switch appliance'] in place of ['combined'], and it returns
    ['ok'] without reading the response.  When the lookup finds the name it
    prints the already-exists warning and returns ['null']. *)
Theorem createnw_outcomes k sh o (d : NwData) (st : State) (v : string) :
  id_of_name (answer (GetNetworks k sh o) st) (nw_name d) = Ok v ->
  createnw k sh o d st
  = if v =? "null" then
      if (if nw_type d =? "combined" then "wireless switch appliance" else nw_type d)
         =? "systems manager"
      then (printed ("@ WARNING: Skipping network " +++ dquote +++ nw_name d +++ dquote
                       +++ " (Cannot create SM networks)")
              (after (GetNetworks k sh o) st), Ok "null")
      else (after (PostNetworks k sh o (nw_timeZone d) (nw_tags d) (nw_name d) o
                     (if nw_type d =? "combined" then "wireless switch appliance"
                      else nw_type d))
              (after (GetNetworks k sh o) st), Ok "ok")
    else (printed ("@ WARNING: Skipping network " +++ dquote +++ nw_name d +++ dquote
                     +++ " (Already exists)")
            (after (GetNetworks k sh o) st), Ok "null").
Proof.
  intros H. destruct (v =? "null") eqn:E.
  - apply String.eqb_eq in E. subst v. rewrite (createnw_absent _ _ _ _ _ H).
    destruct (_ =? "systems manager"); reflexivity.
  - apply String.eqb_neq in E. apply (createnw_present _ _ _ _ _ _ H E).
Qed.

(** X14. Whether the creation worked is decided by looking the name up
    again, not by the status of the creation response: after the creation
    request [main] takes the id the second lookup gives, and ends the run
    with exit code 2 when that lookup gives ['null']. *)
Theorem creation_verified_by_lookup (L : Locals) (st : State) :
  nwid L = "null" ->
  id_of_name (answer (networks_request L) st) (arg_nwname (args L)) = Ok "null" ->
  nwtypestring L = build_nwtypestring (devicetypes L) ->
  let created :=
    after (PostNetworks (arg_apikey (args L)) (shardurl L) (orgid L) "Europe/Helsinki"
             (nw_tags (nwparams_of L)) (arg_nwname (args L)) (orgid L) (nwtypestring L))
      (after (networks_request L) st) in
  main_network L st
  = match id_of_name (answer (networks_request L) created) (arg_nwname (args L)) with
    | Ok v =>
        if v =? "null"
        then (printed "@ ERROR: Unable to get ID for new network"
                (after (networks_request L) created), Exit 2)
        else (after (networks_request L) created, Ok (set_nwid v L))
    | Exit code => (after (networks_request L) created, Exit code)
    | Raise exc => (after (networks_request L) created, Raise exc)
    end.
Proof.
  intros Hn Habs Ht created.
  rewrite (main_network_unfold _ _ Hn).
  assert (Hc : createnw (arg_apikey (args L)) (shardurl L) (orgid L) (nwparams_of L) st
               = (created, Ok "ok")).
  { rewrite (createnw_absent _ _ _ (nwparams_of L) st Habs).
    cbn [nw_type nwparams_of nw_timeZone nw_name]. subst created.
    rewrite Ht. destruct (devicetypes L) as [[] [] []]; reflexivity. }
  rewrite (bind_run _ _ _ _ _ Hc).
  change ("ok" =? "null") with false. cbv beta iota.
  rewrite (bind_step _ _ _ _ _ (getnwid_run _ _ _ _ _)).
  fold (networks_request L).
  destruct (id_of_name (answer (networks_request L) created) (arg_nwname (args L)))
    as [v | code | exc]; try reflexivity.
  destruct (v =? "null"); [rewrite print_then|]; reflexivity.
Qed.

(** X15. When the lookup of line 285 gave ['null'] but the lookup inside
    [createnw] finds the name (the first listing had failed, or the network
    appeared in between), the run ends with exit code 2 after the
    already-exists warning and the unable-to-create error, in the
    [ignore_error] mode too, and sends no creation request. *)
Theorem late_found_network_stops_run
    (opts : list (string * string)) (st0 st : State) (L : Locals) (v : string) :
  upto_classify opts st0 = (st, Ok L) ->
  nwid L = "null" ->
  id_of_name (answer (networks_request L) st) (arg_nwname (args L)) = Ok v ->
  v <> "null" ->
  main opts st0
  = (printed "@ ERROR: Unable to create network"
       (printed ("@ WARNING: Skipping network " +++ dquote +++ arg_nwname (args L) +++ dquote
                   +++ " (Already exists)")
          (after (networks_request L) st)), Exit 2)
  /\ trace (fst (main opts st0)) = trace st ++ [networks_request L].
Proof.
  intros H Hn Hv Hne.
  assert (Hm : main opts st0
               = (printed "@ ERROR: Unable to create network"
                    (printed ("@ WARNING: Skipping network " +++ dquote
                                +++ arg_nwname (args L) +++ dquote +++ " (Already exists)")
                       (after (networks_request L) st)), Exit 2)).
  { apply main_exits_at_network. unfold upto_network.
    rewrite (bind_run _ _ _ _ _ H), (main_network_unfold _ _ Hn).
    rewrite (bind_run _ _ _ _ _ (createnw_present _ _ _ (nwparams_of L) st v Hv Hne)).
    change ("null" =? "null") with true. cbv beta iota.
    rewrite print_then. reflexivity. }
  rewrite Hm. split; reflexivity.
Qed.

(** ** Classifying one serial *)

(** X16. For a serial the inventory lists (and that is not the string
    [null]) the classification sends the organization claim and the
    inventory listing and nothing else, prints nothing, and records the model
    of the inventory: no license claim is made. *)
Theorem listed_serial_not_claimed_as_license (L : Locals) (s : string) (st : State)
    (d : Dict) (m : string) :
  let claim := PostOrgClaimSerial (arg_apikey (args L)) (shardurl L) (orgid L) s in
  let listing := GetInventory (arg_apikey (args L)) (shardurl L) (orgid L) in
  orgdevice_of (answer listing (after claim st)) s = Ok d ->
  dict_get "serial" d = Some s ->
  s <> "null" ->
  dict_get "model" d = Some m ->
  classify_serial L s st = (after listing (after claim st), Ok m).
Proof.
  intros claim listing Hd Hs Hne Hm. unfold classify_serial.
  rewrite (bind_step _ _ _ _ _ (claimdeviceorg_run _ _ _ _ _)). cbv beta iota.
  rewrite (bind_step _ _ _ _ _ (getorgdeviceinfo_run _ _ _ _ _)).
  fold claim listing. rewrite Hd. cbv beta iota.
  rewrite lift_then. unfold getitem at 1. rewrite Hs.
  apply String.eqb_neq in Hne. rewrite Hne.
  unfold bind at 1. unfold ret at 1. unfold lift at 1.
  unfold lift, getitem. rewrite Hm. reflexivity.
Qed.

(** ** Enrolling one device *)

Lemma claimdevice_run k sh nw s st :
  claimdevice k sh nw s st = (after (PostNetworkDevicesClaim k sh nw s) st, Ok 0%Z).
Proof. unfold claimdevice. rewrite request_then. reflexivity. Qed.

Lemma getdeviceinfo_run k sh nw s st :
  getdeviceinfo k sh nw s st
  = (after (GetNetworkDevice k sh nw s) st,
     Ok (if negb (status_ok (answer (GetNetworkDevice k sh nw s) st))
         then JObject null_device
         else json (answer (GetNetworkDevice k sh nw s) st))).
Proof.
  unfold getdeviceinfo. rewrite request_then.
  destruct (negb (status_ok _)); reflexivity.
Qed.

Lemma setdevicedata_run k sh nw s f v mm st :
  setdevicedata k sh nw s f v mm st
  = (after (PutNetworkDevice k sh nw s f v (if mm then "true" else "false")) st,
     Ok (if negb (status_ok
                    (answer (PutNetworkDevice k sh nw s f v (if mm then "true" else "false"))
                       st))
         then "null" else "ok")).
Proof.
  unfold setdevicedata. rewrite request_then.
  destruct (negb (status_ok _)); reflexivity.
Qed.

(** X17. One pass of the enrollment loop for a device that the network then
    shows (status [requests.codes.ok], a serial other than ['null']): claim,
    verification, then the hostname [model_serial] written without moving the
    map marker, then, only when an address was given, the address written
    with the map marker moved; the loop goes on with the next serial,
    whatever the two writes answered. *)
Theorem enroll_one_device (L : Locals) (s : string) (rest : list string) (st : State)
    (d : Dict) (sv m : string) :
  let claim := PostNetworkDevicesClaim (arg_apikey (args L)) (shardurl L) (nwid L) s in
  let verify := GetNetworkDevice (arg_apikey (args L)) (shardurl L) (nwid L) s in
  let name := PutNetworkDevice (arg_apikey (args L)) (shardurl L) (nwid L) s
                "name" (m +++ "_" +++ s) "false" in
  let address := PutNetworkDevice (arg_apikey (args L)) (shardurl L) (nwid L) s
                   "address" (arg_address (args L)) "true" in
  status_ok (answer verify (after claim st)) = true ->
  json (answer verify (after claim st)) = JObject d ->
  dict_get "serial" d = Some sv ->
  sv <> "null" ->
  dict_get "model" d = Some m ->
  enroll_loop L (s :: rest) st
  = enroll_loop L rest
      (if arg_address (args L) =? "null"
       then after name (after verify (after claim st))
       else after address (after name (after verify (after claim st)))).
Proof.
  intros claim verify name address Hok Hj Hs Hne Hm.
  cbn [enroll_loop].
  rewrite (bind_step _ _ _ _ _ (claimdevice_run _ _ _ _ _)). cbv beta iota.
  rewrite (bind_step _ _ _ _ _ (getdeviceinfo_run _ _ _ _ _)).
  fold claim verify. rewrite Hok, Hj. cbn [negb]. cbv beta iota.
  rewrite lift_then. cbn [subscript]. unfold getitem at 1. rewrite Hs.
  apply String.eqb_neq in Hne. rewrite Hne.
  rewrite lift_then. unfold getitem at 1. rewrite Hm.
  rewrite (bind_step _ _ _ _ _ (setdevicedata_run _ _ _ _ _ _ _ _)). cbv beta iota.
  fold name.
  destruct (arg_address (args L) =? "null"); cbn [negb].
  - reflexivity.
  - rewrite bind_assoc.
    rewrite (bind_step _ _ _ _ _ (setdevicedata_run _ _ _ _ _ _ _ _)).
    reflexivity.
Qed.

(** X18. When the verification of a claimed device fails (the request does
    not answer [requests.codes.ok]), the whole run ends with exit code 2
    right there: the remaining serials are not touched and no bind request is
    sent. *)
Theorem enrollment_failure_stops_run
    (opts : list (string * string)) (st0 st : State) (L : Locals)
    (s : string) (rest : list string) :
  let claim := PostNetworkDevicesClaim (arg_apikey (args L)) (shardurl L) (nwid L) s in
  let verify := GetNetworkDevice (arg_apikey (args L)) (shardurl L) (nwid L) s in
  upto_network opts st0 = (st, Ok L) ->
  compile_validserials (devicelist_serial L) (devicelist_model L) = s :: rest ->
  status_ok (answer verify (after claim st)) = false ->
  main opts st0
  = (printed "@ ERROR: Claiming or moving device unsuccessful"
       (after verify (after claim st)), Exit 2)
  /\ trace (fst (main opts st0)) = trace st ++ [claim; verify].
Proof.
  intros claim verify H Hv Hfail.
  assert (Hm : main opts st0
               = (printed "@ ERROR: Claiming or moving device unsuccessful"
                    (after verify (after claim st)), Exit 2)).
  { apply main_exits_at_enroll. unfold upto_enroll.
    rewrite (bind_run _ _ _ _ _ H). unfold main_enroll. rewrite Hv.
    erewrite bind_exit; [reflexivity|].
    cbn [enroll_loop].
    rewrite (bind_step _ _ _ _ _ (claimdevice_run _ _ _ _ _)). cbv beta iota.
    rewrite (bind_step _ _ _ _ _ (getdeviceinfo_run _ _ _ _ _)).
    fold claim verify. rewrite Hfail. cbn [negb]. cbv beta iota.
    rewrite lift_then.
    change (subscript (JObject null_device) "serial") with (@Ok string "null").
    cbv beta iota. change ("null" =? "null") with true. cbv beta iota.
    rewrite print_then. reflexivity. }
  rewrite Hm. split; [reflexivity|].
  cbn [fst trace printed after]. now rewrite <- app_assoc.
Qed.

(** ** Exit codes *)

Lemma bind_cases {A B} (m : M A) (f : A -> M B) st st' r :
  bind m f st = (st', r) ->
  (exists st1 a, m st = (st1, Ok a) /\ f a st1 = (st', r))
  \/ (exists code, m st = (st', Exit code) /\ r = Exit code)
  \/ (exists exc, m st = (st', Raise exc) /\ r = Raise exc).
Proof.
  unfold bind. destruct (m st) as [st1 [a | code | exc]]; intros H.
  - left. now exists st1, a.
  - right. left. inversion H; subst. now exists code.
  - right. right. inversion H; subst. now exists exc.
Qed.

Lemma exits_bind {A B} (Q : Z -> Prop) (m : M A) (f : A -> M B) :
  exits_with Q m -> (forall a, exits_with Q (f a)) -> exits_with Q (bind m f).
Proof.
  intros Hm Hf st st' code H. apply bind_cases in H.
  destruct H as [(st1 & a & _ & H) | [(c & H & Hc) | (x & _ & Hc)]].
  - eapply Hf; exact H.
  - inversion Hc; subst. eapply Hm; exact H.
  - discriminate Hc.
Qed.

Lemma exits_lift_ok {A} (Q : Z -> Prop) (e : Result A) :
  (forall code, e = Exit code -> Q code) -> exits_with Q (lift e).
Proof. intros He st st' code H. inversion H; subst. now apply He. Qed.

Lemma exits_pure {A} (Q : Z -> Prop) (e : Result A) :
  (forall code, e <> Exit code) -> exits_with Q (lift e).
Proof. intros He. apply exits_lift_ok. intros code H. now destruct (He code). Qed.

Lemma exits_ret {A} (Q : Z -> Prop) (a : A) : exits_with Q (ret a).
Proof. intros st st' code H. discriminate H. Qed.

Lemma exits_sys_exit {A} (Q : Z -> Prop) code : Q code -> exits_with Q (@sys_exit A code).
Proof. intros Hq st st' c H. inversion H; subst. exact Hq. Qed.

Lemma exits_request (Q : Z -> Prop) req : exits_with Q (request req).
Proof. intros st st' code H. rewrite request_run in H. discriminate H. Qed.

Lemma exits_print (Q : Z -> Prop) line : exits_with Q (printusertext line).
Proof. intros st st' code H. discriminate H. Qed.

Lemma exits_if {A} (Q : Z -> Prop) (c : bool) (m1 m2 : M A) :
  exits_with Q m1 -> exits_with Q m2 -> exits_with Q (if c then m1 else m2).
Proof. destruct c; auto. Qed.

Lemma exits_weaken {A} (Q Q' : Z -> Prop) (m : M A) :
  (forall code, Q code -> Q' code) -> exits_with Q m -> exits_with Q' m.
Proof. intros Hq Hm st st' code H. apply Hq. eapply Hm; exact H. Qed.

Lemma id_of_name_no_exit r n code : id_of_name r n <> Exit code.
Proof.
  unfold id_of_name. destruct (negb (status_ok r)); [discriminate|].
  destruct (json r) as [records | [|kv d]]; simpl; try discriminate.
  induction records as [|record rest IH]; simpl; [discriminate|].
  unfold getitem at 1. destruct (dict_get "name" record) as [x|]; simpl; [|discriminate].
  destruct (x =? n); [|exact IH].
  unfold getitem. destruct (dict_get "id" record); discriminate.
Qed.

Lemma getitem_no_exit d k code : getitem d k <> Exit code.
Proof. unfold getitem. destruct (dict_get k d); discriminate. Qed.

Lemma subscript_no_exit j k code : subscript j k <> Exit code.
Proof. destruct j; simpl; [discriminate | apply getitem_no_exit]. Qed.

Lemma inventory_scan_no_exit records s : forall found rv code,
  inventory_scan records s found rv <> Exit code.
Proof.
  induction records as [|record rest IH]; intros found rv code; simpl; [discriminate|].
  unfold getitem.
  destruct (dict_get "serial" record) as [x|]; simpl; [|discriminate].
  destruct (x =? s); [|apply IH].
  destruct (dict_get "mac" record); simpl; [|discriminate].
  destruct (dict_get "networkId" record); simpl; [|discriminate].
  destruct (dict_get "model" record); simpl; [|discriminate].
  destruct (dict_get "claimedAt" record); simpl; [|discriminate].
  destruct (dict_get "publicIp" record); simpl; [|discriminate].
  apply IH.
Qed.

Lemma orgdevice_of_no_exit r s code : orgdevice_of r s <> Exit code.
Proof.
  unfold orgdevice_of. destruct (negb (status_ok r)); [discriminate|].
  destruct (json r) as [records | [|kv d]]; simpl; try discriminate.
  destruct (inventory_scan records s false []) as [[found rv] | c | x] eqn:E; simpl.
  - destruct (negb found); discriminate.
  - now destruct (inventory_scan_no_exit _ _ _ _ _ E).
  - discriminate.
Qed.

Ltac exits_tac :=
  repeat (intros;
          first [ apply exits_bind | apply exits_if | apply exits_ret
                | apply exits_request | apply exits_print
                | apply exits_sys_exit
                | apply exits_pure;
                  first [ apply id_of_name_no_exit | apply getitem_no_exit
                        | apply subscript_no_exit | apply orgdevice_of_no_exit ] ]).

Lemma exits_printhelp (Q : Z -> Prop) : exits_with Q printhelp.
Proof.
  destruct printhelp_run as (lines & _ & H).
  intros st st' code E. rewrite H in E. discriminate E.
Qed.

Lemma exits_parse_opts (opts : list (string * string)) : forall a,
  exits_with (fun code => code = 0%Z /\ In "-h" (map fst opts)) (parse_opts opts a).
Proof.
  induction opts as [|[opt arg] rest IH]; intros a; simpl.
  - apply exits_ret.
  - destruct (opt =? "-h") eqn:E.
    + apply String.eqb_eq in E. subst opt.
      apply exits_bind; [apply exits_printhelp | intros _; apply exits_sys_exit; auto].
    + repeat match goal with
             | |- exits_with _ (if ?c then _ else _) => destruct c
             end;
        (eapply exits_weaken; [|apply IH]); intros code [H1 H2]; auto.
Qed.

Lemma exits_classify_loop Q L serials : forall model,
  exits_with Q (classify_loop L serials model).
Proof.
  induction serials as [|s rest IH]; intros model; simpl.
  - apply exits_ret.
  - apply exits_bind; [|intros; apply IH].
    unfold classify_serial, claimdeviceorg, getorgdeviceinfo, claimlicenseorg.
    exits_tac.
Qed.

Lemma exits_enroll_loop L serials : exits_with (fun code => code = 2%Z) (enroll_loop L serials).
Proof.
  induction serials as [|s rest IH]; simpl.
  - apply exits_ret.
  - unfold claimdevice, getdeviceinfo, setdevicedata. exits_tac; try reflexivity.
    intros; exact IH.
Qed.

(** X19. A run ends through [sys.exit] only with code 2, or with code 0 when
    [-h] is among the options: no other exit code occurs. *)
Theorem exit_codes (opts : list (string * string)) (st st' : State) (code : Z) :
  main opts st = (st', Exit code) ->
  code = 2%Z \/ (code = 0%Z /\ In "-h" (map fst opts)).
Proof.
  revert st st' code.
  change (exits_with (fun code => code = 2%Z \/ (code = 0%Z /\ In "-h" (map fst opts)))
            (main opts)).
  assert (H1 : exits_with (fun code => code = 2%Z \/ (code = 0%Z /\ In "-h" (map fst opts)))
                 (main_init opts)).
  { unfold main_init. apply exits_bind.
    + eapply exits_weaken; [|apply exits_parse_opts]. intros code H. now right.
    + intros a. apply exits_if.
      * apply exits_bind; [apply exits_printhelp | intros _; apply exits_sys_exit; auto].
      * apply exits_ret. }
  assert (H2 : forall L,
             exits_with (fun code => code = 2%Z \/ (code = 0%Z /\ In "-h" (map fst opts)))
               (main_org L)).
  { intros L. unfold main_org, getorgid, getshardurl. exits_tac; auto. }
  assert (H3 : forall L,
             exits_with (fun code => code = 2%Z \/ (code = 0%Z /\ In "-h" (map fst opts)))
               (main_nwcheck L)).
  { intros L. unfold main_nwcheck, getnwid. exits_tac; auto. }
  assert (H4 : forall L,
             exits_with (fun code => code = 2%Z \/ (code = 0%Z /\ In "-h" (map fst opts)))
               (main_template L)).
  { intros L. unfold main_template, gettemplateid. exits_tac; auto. }
  assert (H5 : forall L,
             exits_with (fun code => code = 2%Z \/ (code = 0%Z /\ In "-h" (map fst opts)))
               (main_classify L)).
  { intros L. unfold main_classify. apply exits_bind; [apply exits_classify_loop|].
    intros; apply exits_ret. }
  assert (H6 : forall L,
             exits_with (fun code => code = 2%Z \/ (code = 0%Z /\ In "-h" (map fst opts)))
               (main_network L)).
  { intros L. unfold main_network, createnw, getnwid. cbv zeta. exits_tac; auto. }
  assert (H7 : forall L,
             exits_with (fun code => code = 2%Z \/ (code = 0%Z /\ In "-h" (map fst opts)))
               (main_enroll L)).
  { intros L. unfold main_enroll. apply exits_bind; [|intros; apply exits_ret].
    eapply exits_weaken; [|apply exits_enroll_loop]. intros code H. now left. }
  assert (H8 : forall L,
             exits_with (fun code => code = 2%Z \/ (code = 0%Z /\ In "-h" (map fst opts)))
               (main_bind L)).
  { intros L. unfold main_bind, bindnw. exits_tac; auto. }
  unfold main, upto_enroll, upto_network, upto_classify, upto_template, upto_nwcheck,
    upto_org.
  repeat (apply exits_bind; [|assumption]). exact H1.
Qed.

(** ** What a run prints *)

Lemma prints_bind {A B} (S : string -> Prop) (m : M A) (f : A -> M B) :
  prints S m -> (forall a, prints S (f a)) -> prints S (bind m f).
Proof.
  intros Hm Hf st st' r H. apply bind_cases in H.
  destruct H as [(st1 & a & H1 & H2) | [(c & H & _) | (x & H & _)]].
  - destruct (Hm _ _ _ H1) as (o1 & E1 & F1). destruct (Hf _ _ _ _ H2) as (o2 & E2 & F2).
    exists (o1 ++ o2). split; [now rewrite E2, E1, app_assoc | now apply Forall_app].
  - eapply Hm; exact H.
  - eapply Hm; exact H.
Qed.

Lemma prints_lift {A} (S : string -> Prop) (e : Result A) : prints S (lift e).
Proof.
  intros st st' r H. inversion H; subst. exists []. split; [now rewrite app_nil_r | constructor].
Qed.

Lemma prints_request (S : string -> Prop) req : prints S (request req).
Proof.
  intros st st' r H. rewrite request_run in H. inversion H; subst.
  exists []. split; [simpl; now rewrite app_nil_r | constructor].
Qed.

Lemma prints_usertext (S : string -> Prop) line :
  S ("@ " +++ line) -> prints S (printusertext line).
Proof.
  intros Hs st st' r H. inversion H; subst. exists ["@ " +++ line].
  split; [reflexivity | now constructor].
Qed.

Lemma prints_if {A} (S : string -> Prop) (c : bool) (m1 m2 : M A) :
  prints S m1 -> prints S m2 -> prints S (if c then m1 else m2).
Proof. destruct c; auto. Qed.

Ltac prints_tac :=
  repeat (intros;
          first [ apply prints_bind | apply prints_if | apply prints_lift
                | apply prints_request
                | apply prints_usertext; reflexivity ]).

Lemma prints_parse_opts (opts : list (string * string)) : forall a,
  prints (fun line => is_usertext line = true) (parse_opts opts a).
Proof.
  induction opts as [|[opt arg] rest IH]; intros a; simpl.
  - apply prints_lift.
  - destruct (opt =? "-h").
    + unfold printhelp, sys_exit. prints_tac.
    + repeat match goal with
             | |- prints _ (if ?c then _ else _) => destruct c
             end; apply IH.
Qed.

Lemma prints_classify_loop L serials : forall model,
  prints (fun line => is_usertext line = true) (classify_loop L serials model).
Proof.
  induction serials as [|s rest IH]; intros model; simpl.
  - apply prints_lift.
  - apply prints_bind; [|intros; apply IH].
    unfold classify_serial, claimdeviceorg, getorgdeviceinfo, claimlicenseorg, ret.
    prints_tac.
Qed.

Lemma prints_enroll_loop L serials :
  prints (fun line => is_usertext line = true) (enroll_loop L serials).
Proof.
  induction serials as [|s rest IH]; simpl.
  - apply prints_lift.
  - unfold claimdevice, getdeviceinfo, setdevicedata, ret, sys_exit. prints_tac.
    intros; exact IH.
Qed.

Lemma main_prints_usertext (opts : list (string * string)) :
  prints (fun line => is_usertext line = true) (main opts).
Proof.
  assert (H1 : prints (fun line => is_usertext line = true) (main_init opts)).
  { unfold main_init. apply prints_bind; [apply prints_parse_opts|].
    intros a. unfold printhelp, sys_exit, ret. prints_tac. }
  assert (H2 : forall L, prints (fun line => is_usertext line = true) (main_org L)).
  { intros L. unfold main_org, getorgid, getshardurl, ret, sys_exit. prints_tac. }
  assert (H3 : forall L, prints (fun line => is_usertext line = true) (main_nwcheck L)).
  { intros L. unfold main_nwcheck, getnwid, ret, sys_exit. prints_tac. }
  assert (H4 : forall L, prints (fun line => is_usertext line = true) (main_template L)).
  { intros L. unfold main_template, gettemplateid, ret, sys_exit. prints_tac. }
  assert (H5 : forall L, prints (fun line => is_usertext line = true) (main_classify L)).
  { intros L. unfold main_classify. apply prints_bind; [apply prints_classify_loop|].
    intros; apply prints_lift. }
  assert (H6 : forall L, prints (fun line => is_usertext line = true) (main_network L)).
  { intros L. unfold main_network, createnw, getnwid, ret, sys_exit. cbv zeta. prints_tac. }
  assert (H7 : forall L, prints (fun line => is_usertext line = true) (main_enroll L)).
  { intros L. unfold main_enroll. apply prints_bind; [apply prints_enroll_loop|].
    intros; apply prints_lift. }
  assert (H8 : forall L, prints (fun line => is_usertext line = true) (main_bind L)).
  { intros L. unfold main_bind, bindnw, ret, sys_exit. prints_tac. }
  unfold main, upto_enroll, upto_network, upto_classify, upto_template, upto_nwcheck,
    upto_org.
  repeat (apply prints_bind; [|assumption]). exact H1.
Qed.

(** *** Texts and lines *)

Lemma has_char_append (c : ascii) (s t : string) :
  has_char c (s +++ t) = has_char c s || has_char c t.
Proof. induction s as [|a s IH]; simpl; [reflexivity|]. now rewrite IH, orb_assoc. Qed.

Lemma split_keeps_absent (c sep : ascii) (s : string) :
  has_char c s = false -> Forall (fun field => has_char c field = false) (split sep s).
Proof.
  induction s as [|a s IH]; simpl; intros H; [repeat constructor|].
  apply orb_false_iff in H. destruct H as [Ha Hs]. specialize (IH Hs).
  destruct (Ascii.eqb a sep).
  - constructor; [reflexivity | exact IH].
  - destruct (split sep s) as [|w ws].
    + repeat constructor. simpl. now rewrite Ha.
    + inversion IH; subst. constructor; [simpl; now rewrite Ha | assumption].
Qed.

Lemma split_absent (c : ascii) (s : string) : has_char c s = false -> split c s = [s].
Proof.
  induction s as [|a s IH]; simpl; intros H; [reflexivity|].
  apply orb_false_iff in H. destruct H as [Ha Hs]. now rewrite Ha, (IH Hs).
Qed.

Lemma lines_of_single_lines (texts : list string) :
  Forall (fun text => has_char newline text = false) texts -> lines_of texts = texts.
Proof.
  unfold lines_of. induction 1 as [|text texts H _ IH]; simpl; [reflexivity|].
  now rewrite (split_absent _ _ H), IH.
Qed.

Lemma userline_usertext (line : string) :
  has_char newline line = false -> is_userline ("@ " +++ line) = true.
Proof. intros H. unfold is_userline. simpl. now rewrite H. Qed.

Lemma prints_bind_with {A B} (S : string -> Prop) (P : A -> Prop) (m : M A) (f : A -> M B) :
  prints S m ->
  (forall st st' a, m st = (st', Ok a) -> P a) ->
  (forall a, P a -> prints S (f a)) ->
  prints S (bind m f).
Proof.
  intros Hm Hp Hf st st' r H. apply bind_cases in H.
  destruct H as [(st1 & a & H1 & H2) | [(c & H & _) | (x & H & _)]].
  - destruct (Hm _ _ _ H1) as (o1 & E1 & F1).
    destruct (Hf a (Hp _ _ _ H1) _ _ _ H2) as (o2 & E2 & F2).
    exists (o1 ++ o2). split; [now rewrite E2, E1, app_assoc | now apply Forall_app].
  - eapply Hm; exact H.
  - eapply Hm; exact H.
Qed.

Ltac userline_tac :=
  apply userline_usertext; repeat rewrite has_char_append;
  repeat match goal with
         | H : has_char newline _ = false |- _ => rewrite H
         end;
  reflexivity.

Ltac userlines_tac :=
  repeat (intros;
          first [ apply prints_bind | apply prints_if | apply prints_lift
                | apply prints_request
                | apply prints_usertext; first [ reflexivity | userline_tac ] ]).

Lemma parse_opts_single_line (opts : list (string * string)) : forall a st st' a',
  single_line_opts opts -> single_line_args a ->
  parse_opts opts a st = (st', Ok a') -> single_line_args a'.
Proof.
  induction opts as [|[opt arg] rest IH]; intros a st st' a' Ho Ha H; simpl in H.
  - unfold ret, lift in H. inversion H; subst. exact Ha.
  - assert (Hr : single_line_opts rest).
    { intros o v Hin. apply Ho. now right. }
    pose proof (Ho opt arg (or_introl eq_refl)) as Harg.
    destruct Ha as (A1 & A2 & A3).
    destruct (opt =? "-h").
    { exfalso. exact (then_exit_not_ok _ _ _ _ _ H). }
    repeat match type of H with
           | (if ?c then _ else _) _ = _ => destruct c eqn:?
           end;
      string_cases;
      (eapply IH; [exact Hr | | exact H]);
      unfold single_line_args; cbn [arg_serial arg_nwname arg_template];
      repeat split; auto.
Qed.

Lemma initialised_single_line opts st L :
  single_line_opts opts -> initialised opts st L -> single_line_args (args L).
Proof.
  intros Ho (Hp & _).
  apply (parse_opts_single_line opts default_args st st (args L) Ho); [|exact Hp].
  repeat split.
Qed.

Lemma userlines_parse_opts (opts : list (string * string)) : forall a,
  prints (fun text => is_userline text = true) (parse_opts opts a).
Proof.
  induction opts as [|[opt arg] rest IH]; intros a; simpl.
  - apply prints_lift.
  - destruct (opt =? "-h").
    + unfold printhelp, sys_exit. userlines_tac.
    + repeat match goal with
             | |- prints _ (if ?c then _ else _) => destruct c
             end; apply IH.
Qed.

Lemma userlines_classify_loop L serials : forall model,
  Forall (fun serial => has_char newline serial = false) serials ->
  prints (fun text => is_userline text = true) (classify_loop L serials model).
Proof.
  induction serials as [|s rest IH]; intros model Hs; simpl.
  - apply prints_lift.
  - inversion Hs; subst.
    apply prints_bind; [|intros; now apply IH].
    unfold classify_serial, claimdeviceorg, getorgdeviceinfo, claimlicenseorg, ret.
    userlines_tac.
Qed.

Lemma userlines_enroll_loop L serials :
  prints (fun text => is_userline text = true) (enroll_loop L serials).
Proof.
  induction serials as [|s rest IH]; simpl.
  - apply prints_lift.
  - unfold claimdevice, getdeviceinfo, setdevicedata, ret, sys_exit. userlines_tac.
    intros; exact IH.
Qed.

Lemma main_prints_userlines (opts : list (string * string)) :
  single_line_opts opts ->
  prints (fun text => is_userline text = true) (main opts).
Proof.
  intros Ho.
  assert (H1 : prints (fun text => is_userline text = true) (main_init opts)).
  { unfold main_init. apply prints_bind; [apply userlines_parse_opts|].
    intros a. unfold printhelp, sys_exit, ret. userlines_tac. }
  assert (H2 : forall L, prints (fun text => is_userline text = true) (main_org L)).
  { intros L. unfold main_org, getorgid, getshardurl, ret, sys_exit. userlines_tac. }
  assert (H3 : forall L, prints (fun text => is_userline text = true) (main_nwcheck L)).
  { intros L. unfold main_nwcheck, getnwid, ret, sys_exit. userlines_tac. }
  assert (H4 : forall L, single_line_args (args L) ->
                         prints (fun text => is_userline text = true) (main_template L)).
  { intros L (A1 & A2 & A3).
    unfold main_template, gettemplateid, ret, sys_exit. userlines_tac. }
  assert (H5 : forall L, single_line_args (args L) ->
                         prints (fun text => is_userline text = true) (main_classify L)).
  { intros L (A1 & A2 & A3). unfold main_classify.
    apply prints_bind; [|intros; apply prints_lift].
    apply userlines_classify_loop. now apply split_keeps_absent. }
  assert (H6 : forall L, single_line_args (args L) ->
                         prints (fun text => is_userline text = true) (main_network L)).
  { intros L (A1 & A2 & A3).
    unfold main_network, createnw, getnwid, ret, sys_exit. cbv zeta.
    cbn [nw_name]. userlines_tac. }
  assert (H7 : forall L, prints (fun text => is_userline text = true) (main_enroll L)).
  { intros L. unfold main_enroll. apply prints_bind; [apply userlines_enroll_loop|].
    intros; apply prints_lift. }
  assert (H8 : forall L, prints (fun text => is_userline text = true) (main_bind L)).
  { intros L. unfold main_bind, bindnw, ret, sys_exit. userlines_tac. }
  assert (I1 : forall st st' L, upto_nwcheck opts st = (st', Ok L) ->
                                single_line_args (args L)).
  { intros st st' L H. apply upto_nwcheck_inv in H.
    exact (initialised_single_line _ _ _ Ho (proj1 H)). }
  assert (I2 : forall st st' L, upto_template opts st = (st', Ok L) ->
                                single_line_args (args L)).
  { intros st st' L H. apply upto_template_inv in H.
    exact (initialised_single_line _ _ _ Ho (proj1 H)). }
  assert (I3 : forall st st' L, upto_classify opts st = (st', Ok L) ->
                                single_line_args (args L)).
  { intros st st' L H. apply upto_classify_inv in H.
    exact (initialised_single_line _ _ _ Ho (proj1 H)). }
  unfold main. apply prints_bind; [|exact H8].
  unfold upto_enroll. apply prints_bind; [|exact H7].
  unfold upto_network. apply (prints_bind_with _ (fun L => single_line_args (args L)));
    [|exact I3|exact H6].
  unfold upto_classify. apply (prints_bind_with _ (fun L => single_line_args (args L)));
    [|exact I2|exact H5].
  unfold upto_template. apply (prints_bind_with _ (fun L => single_line_args (args L)));
    [|exact I1|exact H4].
  unfold upto_nwcheck. apply prints_bind; [|exact H3].
  unfold upto_org. apply prints_bind; [exact H1 | exact H2].
Qed.

(** X20. [stdout] has one text for each call of [print].  Every text a run
    prints, whatever its outcome, starts with [@] and a space.  The texts
    are the lines of the output, each starting with [@] and a space as the
    header of the script promises for chaining scripts, when the values of
    [-s], [-n] and [-c], which the script prints back, hold no newline. *)
Theorem printed_lines_are_usertext
    (opts : list (string * string)) (st st' : State) (r : Result unit) :
  main opts st = (st', r) ->
  exists texts,
    stdout st' = stdout st ++ texts
    /\ Forall (fun text => is_usertext text = true) texts
    /\ (single_line_opts opts ->
        Forall (fun text => has_char newline text = false) texts
        /\ lines_of texts = texts
        /\ Forall (fun line => is_usertext line = true) (lines_of texts)).
Proof.
  intros H. destruct (main_prints_usertext opts _ _ _ H) as (texts & E & F).
  exists texts. split; [exact E|]. split; [exact F|].
  intros Ho. destruct (main_prints_userlines opts Ho _ _ _ H) as (texts' & E' & F').
  rewrite E in E'. apply app_inv_head in E'. subst texts'.
  assert (N : Forall (fun text => has_char newline text = false) texts).
  { eapply Forall_impl; [|exact F']. intros text Hu. unfold is_userline in Hu.
    apply andb_true_iff in Hu. destruct Hu as (_ & Hn).
    now apply negb_true_iff in Hn. }
  split; [exact N|]. rewrite (lines_of_single_lines _ N). split; [reflexivity | exact F].
Qed.

(** ** What a run sends *)

Lemma app_nil_end_r {A} (l : list A) : l = l ++ [].
Proof. now rewrite app_nil_r. Qed.

Lemma sends_bind_inv {A B} (p : Request -> Prop) (I : A -> Prop) (m : M A) (f : A -> M B) :
  sends (Forall p) m ->
  (forall st st' a, m st = (st', Ok a) -> I a) ->
  (forall a, I a -> sends (Forall p) (f a)) ->
  sends (Forall p) (bind m f).
Proof.
  intros Hm Hi Hf st st' r H. apply bind_cases in H.
  destruct H as [(st1 & a & H1 & H2) | [(c & H & _) | (x & H & _)]].
  - destruct (Hm _ _ _ H1) as (l1 & E1 & F1).
    destruct (Hf a (Hi _ _ _ H1) _ _ _ H2) as (l2 & E2 & F2).
    exists (l1 ++ l2). split; [now rewrite E2, E1, app_assoc | now apply Forall_app].
  - eapply Hm; exact H.
  - eapply Hm; exact H.
Qed.

Lemma sends_bind {A B} (p : Request -> Prop) (m : M A) (f : A -> M B) :
  sends (Forall p) m -> (forall a, sends (Forall p) (f a)) -> sends (Forall p) (bind m f).
Proof.
  intros Hm Hf. apply (sends_bind_inv p (fun _ => True)); auto.
Qed.

Lemma sends_then {A B} (P1 P2 : list Request -> Prop) (m : M A) (f : A -> M B) :
  sends P1 m -> (forall a, sends P2 (f a)) -> P2 [] ->
  sends (then_phase P1 P2) (bind m f).
Proof.
  intros Hm Hf Hnil st st' r H. apply bind_cases in H.
  destruct H as [(st1 & a & H1 & H2) | [(c & H & _) | (x & H & _)]].
  - destruct (Hm _ _ _ H1) as (l1 & E1 & F1). destruct (Hf _ _ _ _ H2) as (l2 & E2 & F2).
    exists (l1 ++ l2). split; [now rewrite E2, E1, app_assoc|]. now exists l1, l2.
  - destruct (Hm _ _ _ H) as (l1 & E1 & F1). exists l1. split; [exact E1|].
    exists l1, []. now rewrite app_nil_r.
  - destruct (Hm _ _ _ H) as (l1 & E1 & F1). exists l1. split; [exact E1|].
    exists l1, []. now rewrite app_nil_r.
Qed.

Lemma sends_weaken {A} (P P' : list Request -> Prop) (m : M A) :
  (forall l, P l -> P' l) -> sends P m -> sends P' m.
Proof.
  intros Hp Hm st st' r H. destruct (Hm _ _ _ H) as (l & E & Hl). exists l. auto.
Qed.

Lemma sends_lift {A} (P : list Request -> Prop) (e : Result A) : P [] -> sends P (lift e).
Proof.
  intros Hp st st' r H. inversion H; subst. exists []. split; [now rewrite app_nil_r | exact Hp].
Qed.

Lemma sends_request (P : list Request -> Prop) req : P [req] -> sends P (request req).
Proof.
  intros Hp st st' r H. rewrite request_run in H. inversion H; subst. now exists [req].
Qed.

Lemma sends_usertext (P : list Request -> Prop) line : P [] -> sends P (printusertext line).
Proof.
  intros Hp st st' r H. inversion H; subst. exists [].
  split; [simpl; now rewrite app_nil_r | exact Hp].
Qed.

Lemma sends_if {A} (P : list Request -> Prop) (c : bool) (m1 m2 : M A) :
  sends P m1 -> sends P m2 -> sends P (if c then m1 else m2).
Proof. destruct c; auto. Qed.

(** Structural steps for a [Forall] predicate; what is left are the
    requests themselves. *)
Ltac sends_tac :=
  repeat (intros;
          first [ apply sends_bind | apply sends_if
                | apply sends_lift; constructor
                | apply sends_usertext; constructor
                | apply sends_request; constructor; [|constructor] ]).

Lemma sends_printhelp (P : list Request -> Prop) : P [] -> sends P printhelp.
Proof.
  intros Hp. destruct printhelp_run as (lines & _ & H).
  intros st st' r E. rewrite H in E. inversion E; subst.
  exists []. split; [simpl; now rewrite app_nil_r | exact Hp].
Qed.

Lemma sends_parse_opts (P : list Request -> Prop) (opts : list (string * string)) :
  P [] -> forall a, sends P (parse_opts opts a).
Proof.
  intros Hp. induction opts as [|[opt arg] rest IH]; intros a; simpl.
  - now apply sends_lift.
  - destruct (opt =? "-h").
    + intros st st' r H. apply bind_cases in H.
      destruct H as [(st1 & u & H1 & H2) | [(c & H & _) | (x & H & _)]].
      * destruct (sends_printhelp P Hp _ _ _ H1) as (l & E & Hl). clear H1.
        inversion H2; subst. exists l. split; assumption.
      * exact (sends_printhelp P Hp _ _ _ H).
      * exact (sends_printhelp P Hp _ _ _ H).
    + repeat match goal with
             | |- sends _ (if ?c then _ else _) => destruct c
             end; apply IH.
Qed.

Lemma sends_main_init (P : list Request -> Prop) opts : P [] -> sends P (main_init opts).
Proof.
  intros Hp st st' r H. unfold main_init in H. apply bind_cases in H.
  destruct H as [(st1 & a & H1 & H2) | [(c & H & _) | (x & H & _)]].
  - destruct (sends_parse_opts P opts Hp _ _ _ _ H1) as (l & E & Hl).
    pose proof (parse_opts_ok _ _ _ _ _ H1) as ->.
    clear H1. destruct (_ || _) in H2.
    + apply bind_cases in H2.
      destruct H2 as [(st2 & u & H3 & H4) | [(c & H & _) | (x & H & _)]].
      * inversion H4; subst. exact (sends_printhelp P Hp _ _ _ H3).
      * exact (sends_printhelp P Hp _ _ _ H).
      * exact (sends_printhelp P Hp _ _ _ H).
    + inversion H2; subst. exists []. split; [apply app_nil_end_r | exact Hp].
  - exact (sends_parse_opts P opts Hp _ _ _ _ H).
  - exact (sends_parse_opts P opts Hp _ _ _ _ H).
Qed.

Lemma sends_classify_loop (p : Request -> Prop) L serials :
  (forall s, p (PostOrgClaimSerial (arg_apikey (args L)) (shardurl L) (orgid L) s)) ->
  p (GetInventory (arg_apikey (args L)) (shardurl L) (orgid L)) ->
  (forall s, p (PostOrgClaimLicense (arg_apikey (args L)) (shardurl L) (orgid L) s
                  "addDevices")) ->
  forall model, sends (Forall p) (classify_loop L serials model).
Proof.
  intros H1 H2 H3. induction serials as [|s rest IH]; intros model; simpl.
  - apply sends_lift. constructor.
  - apply sends_bind; [|intros; apply IH].
    unfold classify_serial, claimdeviceorg, getorgdeviceinfo, claimlicenseorg, ret.
    sends_tac; auto.
Qed.

Lemma sends_enroll_loop (p : Request -> Prop) L serials :
  (forall s, p (PostNetworkDevicesClaim (arg_apikey (args L)) (shardurl L) (nwid L) s)) ->
  (forall s, p (GetNetworkDevice (arg_apikey (args L)) (shardurl L) (nwid L) s)) ->
  (forall s f v mm, p (PutNetworkDevice (arg_apikey (args L)) (shardurl L) (nwid L) s
                         f v mm)) ->
  sends (Forall p) (enroll_loop L serials).
Proof.
  intros H1 H2 H3. induction serials as [|s rest IH]; simpl.
  - apply sends_lift. constructor.
  - unfold claimdevice, getdeviceinfo, setdevicedata, ret, sys_exit.
    sends_tac; auto.
Qed.

Lemma sends_main_network (p : Request -> Prop) L :
  p (networks_request L) ->
  (forall tz tags t, p (PostNetworks (arg_apikey (args L)) (shardurl L) (orgid L)
                          tz tags (arg_nwname (args L)) (orgid L) t)) ->
  sends (Forall p) (main_network L).
Proof.
  intros H1 H2. unfold main_network, createnw, getnwid, ret, sys_exit. cbv zeta.
  cbn [nw_name nw_timeZone nw_tags nw_type].
  sends_tac; auto.
Qed.

(** The creation block sends network lookups and at most one creation. *)
Lemma main_network_one_creation L :
  sends (fun l => Forall (fun req => is_network_phase req = true) l
                  /\ (List.length (filter is_creation l) <= 1)%nat)
    (main_network L).
Proof.
  intros st st' r H.
  destruct (nwid L =? "null") eqn:En.
  2:{ apply String.eqb_neq in En. rewrite (main_network_kept _ _ En) in H.
      inversion H; subst. exists []. rewrite app_nil_r. repeat split; auto. }
  apply String.eqb_eq in En. rewrite (main_network_unfold _ _ En) in H.
  apply bind_cases in H.
  assert (Hc : sends (fun l => exists post,
                        l = networks_request L :: post
                        /\ (post = [] \/ exists req, post = [req] /\ is_creation req = true))
                 (createnw (arg_apikey (args L)) (shardurl L) (orgid L) (nwparams_of L))).
  { intros s1 s2 r' Hr. unfold createnw in Hr.
    rewrite (bind_step _ _ _ _ _ (getnwid_run _ _ _ _ _)) in Hr.
    fold (networks_request L) in Hr.
    destruct (id_of_name _ _) as [v | c | x].
    - destruct (negb (v =? "null")).
      + rewrite print_then in Hr. inversion Hr; subst.
        exists [networks_request L]. split; [reflexivity|]. exists []. auto.
      + destruct (negb (_ =? "systems manager")).
        * rewrite request_then in Hr. inversion Hr; subst.
          eexists. split; [cbn [trace after]; rewrite <- app_assoc; reflexivity|].
          eexists. split; [reflexivity|]. right. eexists. split; reflexivity.
        * rewrite print_then in Hr. inversion Hr; subst.
          exists [networks_request L]. split; [reflexivity|]. exists []. auto.
    - inversion Hr; subst. exists [networks_request L]. split; [reflexivity|].
      exists []. auto.
    - inversion Hr; subst. exists [networks_request L]. split; [reflexivity|].
      exists []. auto. }
  assert (Hshape : forall l, (exists post,
                        l = networks_request L :: post
                        /\ (post = [] \/ exists req, post = [req] /\ is_creation req = true)) ->
                     Forall (fun req => is_network_phase req = true) l
                     /\ (List.length (filter is_creation l) <= 1)%nat
                     /\ Forall (fun req => is_network_phase req = true)
                          (l ++ [networks_request L])
                     /\ (List.length (filter is_creation (l ++ [networks_request L])) <= 1)%nat).
  { intros l (post & -> & [-> | (req & -> & Hreq)]).
    - simpl. repeat split; repeat constructor.
    - destruct req; try discriminate Hreq. simpl. repeat split; repeat constructor. }
  destruct H as [(st1 & status & H1 & H2) | [(c & H & _) | (x & H & _)]].
  - destruct (Hc _ _ _ H1) as (l1 & E1 & Hl1).
    destruct (Hshape _ Hl1) as (F1 & C1 & F2 & C2).
    destruct (status =? "null").
    + rewrite print_then in H2. inversion H2; subst.
      exists l1. cbn [trace printed]. auto.
    + rewrite (bind_step _ _ _ _ _ (getnwid_run _ _ _ _ _)) in H2.
      fold (networks_request L) in H2.
      assert (Ht : trace (after (networks_request L) st1)
                   = trace st ++ l1 ++ [networks_request L]).
      { cbn [trace after]. now rewrite E1, <- app_assoc. }
      destruct (id_of_name _ _) as [v | c | x].
      * destruct (v =? "null").
        -- rewrite print_then in H2. inversion H2; subst.
           exists (l1 ++ [networks_request L]). cbn [trace printed]. auto.
        -- inversion H2; subst. exists (l1 ++ [networks_request L]). auto.
      * inversion H2; subst. exists (l1 ++ [networks_request L]). auto.
      * inversion H2; subst. exists (l1 ++ [networks_request L]). auto.
  - destruct (Hc _ _ _ H) as (l1 & E1 & Hl1).
    destruct (Hshape _ Hl1) as (F1 & C1 & _). exists l1. auto.
  - destruct (Hc _ _ _ H) as (l1 & E1 & Hl1).
    destruct (Hshape _ Hl1) as (F1 & C1 & _). exists l1. auto.
Qed.

Lemma keeps_target_bind p L (m : M Locals) (f : Locals -> M Locals) :
  keeps_target p L m ->
  (forall a, same_target L a -> keeps_target p L (f a)) ->
  keeps_target p L (bind m f).
Proof.
  intros [Hs Hi] Hf. split.
  - apply (sends_bind_inv p (same_target L)); [exact Hs | exact Hi|].
    intros a Ha. apply (Hf a Ha).
  - intros st st' a H. apply bind_inv_ok in H. destruct H as (st1 & a1 & H1 & H2).
    destruct (Hf a1 (Hi _ _ _ H1)) as [_ Hi2]. eapply Hi2; exact H2.
Qed.

Lemma main_after_org opts st0 st L :
  upto_org opts st0 = (st, Ok L) ->
  main opts st0
  = bind (bind (bind (bind (bind (main_nwcheck L) main_template) main_classify)
                  main_network) main_enroll) main_bind st.
Proof.
  intros H. unfold main, upto_enroll, upto_network, upto_classify, upto_template,
    upto_nwcheck.
  unfold bind. rewrite H. reflexivity.
Qed.

(** X21. Once the organization and its shard are resolved, every request of
    the run carries the API key of the arguments and goes to that shard, and
    every request that names an organization names the resolved one. *)
Theorem requests_use_resolved_shard
    (opts : list (string * string)) (st0 st st' : State) (L : Locals) (r : Result unit) :
  upto_org opts st0 = (st, Ok L) ->
  main opts st0 = (st', r) ->
  exists l, trace st' = trace st ++ l
            /\ Forall (addressed (arg_apikey (args L)) (shardurl L) (orgid L)) l.
Proof.
  intros Horg Hmain. rewrite (main_after_org _ _ _ _ Horg) in Hmain.
  clear Horg. revert st st' r Hmain.
  set (p := addressed (arg_apikey (args L)) (shardurl L) (orgid L)).
  change (sends (Forall p)
            (bind (bind (bind (bind (bind (main_nwcheck L) main_template) main_classify)
                           main_network) main_enroll) main_bind)).
  assert (Hrefl : same_target L L) by (repeat split).
  assert (K1 : forall L', same_target L L' -> keeps_target p L (main_nwcheck L')).
  { intros L' (Ha & Hn & Hs & Ho). split.
    - unfold main_nwcheck, getnwid, ret, sys_exit. sends_tac.
      subst p. simpl. auto.
    - intros s1 s2 a H. apply main_nwcheck_ok in H. destruct H as (v & _ & _ & -> & _).
      repeat split; assumption. }
  assert (K2 : forall L', same_target L L' -> keeps_target p L (main_template L')).
  { intros L' (Ha & Hn & Hs & Ho). split.
    - unfold main_template, gettemplateid, ret, sys_exit. sends_tac.
      subst p. simpl. auto.
    - intros s1 s2 a H. apply main_template_ok in H. destruct H as (t & ->).
      repeat split; assumption. }
  assert (K3 : forall L', same_target L L' -> keeps_target p L (main_classify L')).
  { intros L' (Ha & Hn & Hs & Ho). split.
    - unfold main_classify. apply sends_bind; [|intros; apply sends_lift; constructor].
      apply sends_classify_loop; intros; subst p; simpl; auto.
    - intros s1 s2 a H. apply main_classify_ok in H. destruct H as (model & _ & ->).
      repeat split; assumption. }
  assert (K4 : forall L', same_target L L' -> keeps_target p L (main_network L')).
  { intros L' (Ha & Hn & Hs & Ho). split.
    - apply sends_main_network; intros; subst p; unfold networks_request; simpl; auto.
    - intros s1 s2 a H. apply main_network_ok in H.
      destruct H as [(_ & _ & ->) | (_ & v & t & _ & _ & _ & _ & ->)];
        repeat split; assumption. }
  assert (K5 : forall L', same_target L L' -> keeps_target p L (main_enroll L')).
  { intros L' (Ha & Hn & Hs & Ho). split.
    - unfold main_enroll. apply sends_bind; [|intros; apply sends_lift; constructor].
      apply sends_enroll_loop; intros; subst p; simpl; auto.
    - intros s1 s2 a H. apply main_enroll_ok in H. subst a.
      repeat split; assumption. }
  assert (K : keeps_target p L
                (bind (bind (bind (bind (main_nwcheck L) main_template) main_classify)
                         main_network) main_enroll)).
  { repeat (apply keeps_target_bind; [|assumption]). now apply K1. }
  destruct K as [Ks Ki].
  apply (sends_bind_inv p (same_target L)); [exact Ks | exact Ki|].
  intros L' (Ha & Hn & Hs & Ho).
  unfold main_bind, bindnw, ret, sys_exit. sends_tac. subst p. simpl. auto.
Qed.

(** X22. The requests of any run, whatever its outcome, come in five phases
    in this order: lookups of organization, shard, network and template;
    organization-level claims with their inventory listings; network lookups
    with at most one creation request; enrollment requests; at most one bind
    request.  So a run never creates two networks and never sends anything
    after the bind. *)
Theorem requests_in_phases
    (opts : list (string * string)) (st st' : State) (r : Result unit) :
  main opts st = (st', r) ->
  exists l1 l2 l3 l4 l5,
    trace st' = trace st ++ l1 ++ l2 ++ l3 ++ l4 ++ l5
    /\ Forall (fun req => is_lookup req = true) l1
    /\ Forall (fun req => is_org_claim req = true) l2
    /\ Forall (fun req => is_network_phase req = true) l3
    /\ (List.length (filter is_creation l3) <= 1)%nat
    /\ Forall (fun req => is_enrollment req = true) l4
    /\ Forall (fun req => is_bind req = true) l5
    /\ (List.length l5 <= 1)%nat.
Proof.
  intros Hmain.
  assert (P1 : sends (Forall (fun req => is_lookup req = true)) (upto_template opts)).
  { assert (S1 : forall L, sends (Forall (fun req => is_lookup req = true)) (main_org L)).
    { intros L. unfold main_org, getorgid, getshardurl, ret, sys_exit.
      sends_tac; reflexivity. }
    assert (S2 : forall L, sends (Forall (fun req => is_lookup req = true)) (main_nwcheck L)).
    { intros L. unfold main_nwcheck, getnwid, ret, sys_exit. sends_tac; reflexivity. }
    assert (S3 : forall L, sends (Forall (fun req => is_lookup req = true))
                             (main_template L)).
    { intros L. unfold main_template, gettemplateid, ret, sys_exit.
      sends_tac; reflexivity. }
    unfold upto_template, upto_nwcheck, upto_org.
    repeat (apply sends_bind; [|assumption]).
    apply sends_main_init. constructor. }
  assert (P2 : forall L, sends (Forall (fun req => is_org_claim req = true))
                           (main_classify L)).
  { intros L. unfold main_classify. apply sends_bind; [|intros; apply sends_lift; constructor].
    apply sends_classify_loop; intros; reflexivity. }
  assert (P4 : forall L, sends (Forall (fun req => is_enrollment req = true))
                           (main_enroll L)).
  { intros L. unfold main_enroll. apply sends_bind; [|intros; apply sends_lift; constructor].
    apply sends_enroll_loop; intros; reflexivity. }
  assert (P5 : forall L, sends (fun l => Forall (fun req => is_bind req = true) l
                                         /\ (List.length l <= 1)%nat) (main_bind L)).
  { intros L s1 s2 r' H. rewrite main_bind_run in H.
    exists [bind_request L]. destruct (_ && _); inversion H; subst;
      (split; [reflexivity | split; [repeat constructor | simpl; lia]]). }
  pose proof (sends_then _ _ _ _
                (sends_then _ _ _ _
                   (sends_then _ _ _ _
                      (sends_then _ _ _ _ P1 P2 (Forall_nil _))
                      main_network_one_creation
                      (conj (Forall_nil _) (Nat.le_0_l 1)))
                   P4 (Forall_nil _))
                P5 (conj (Forall_nil _) (Nat.le_0_l 1))) as Hall.
  destruct (Hall _ _ _ Hmain) as (l & E & (l1234 & l5 & -> & H1234 & F5 & C5)).
  destruct H1234 as (l123 & l4 & -> & H123 & F4).
  destruct H123 as (l12 & l3 & -> & H12 & F3 & C3).
  destruct H12 as (l1 & l2 & -> & F1 & F2).
  exists l1, l2, l3, l4, l5. rewrite E, <- !app_assoc. repeat split; assumption.
Qed.

(** * The devices of a run *)

Lemma compile_devicetypes_refines (models : list string) :
  compile_devicetypes models
  = fold_left (fun dt record => mark dt (family_spec record)) models no_devicetypes.
Proof.
  unfold compile_devicetypes, no_devicetypes.
  generalize {| mx := false; ms := false; mr := false |}.
  induction models as [|record models IH]; intros dt; simpl; [reflexivity|].
  now rewrite IH, devicetypes_update_refines.
Qed.

Lemma family_spec_by_prefix (record : string) :
  family_spec record = family_spec (prefix2 record)
  /\ (family_spec record = Some Appliance
      <-> prefix2 record = "MX" \/ prefix2 record = "Z1")
  /\ (family_spec record = Some Switch <-> prefix2 record = "MS")
  /\ (family_spec record = Some AccessPoint <-> prefix2 record = "MR")
  /\ (family_spec record = None
      <-> prefix2 record <> "MX" /\ prefix2 record <> "Z1"
          /\ prefix2 record <> "MS" /\ prefix2 record <> "MR").
Proof.
  split.
  { unfold family_spec. now rewrite prefix2_idempotent. }
  unfold family_spec.
  destruct (prefix2 record =? "MX") eqn:E1;
    [|destruct (prefix2 record =? "Z1") eqn:E2;
      [|destruct (prefix2 record =? "MS") eqn:E3;
        [|destruct (prefix2 record =? "MR") eqn:E4]]];
    string_cases;
    repeat match goal with
           | H : prefix2 record = _ |- _ => rewrite H
           end;
    repeat split; intros; try reflexivity; try discriminate; try tauto;
    try congruence;
    repeat match goal with
           | H : _ \/ _ |- _ => destruct H
           | H : _ /\ _ |- _ => destruct H
           end; try congruence; auto.
Qed.

Lemma compile_devicetypes_flags (models : list string) :
  (mx (compile_devicetypes models) = true
   <-> exists record, In record models
                      /\ (prefix2 record = "MX" \/ prefix2 record = "Z1"))
  /\ (ms (compile_devicetypes models) = true
      <-> exists record, In record models /\ prefix2 record = "MS")
  /\ (mr (compile_devicetypes models) = true
      <-> exists record, In record models /\ prefix2 record = "MR").
Proof.
  unfold compile_devicetypes. rewrite fold_devicetypes_or. cbn [mx ms mr orb].
  rewrite !existsb_exists. unfold is_mx_model, is_ms_model, is_mr_model.
  repeat split; intros (record & Hin & H); exists record; (split; [exact Hin|]).
  - apply orb_true_iff in H. destruct H as [H | H]; apply String.eqb_eq in H; auto.
  - apply orb_true_iff. destruct H as [H | H]; apply String.eqb_eq in H; auto.
  - now apply String.eqb_eq.
  - now apply String.eqb_eq.
  - now apply String.eqb_eq.
  - now apply String.eqb_eq.
Qed.

(** C7. In every run that completes the classification, one model is
    collected for each serial of the input list, and the device types
    are obtained by classifying each collected model by its first two
    characters, compared exactly: [MX] or [Z1] is the appliance family, [MS]
    the switch family, [MR] the access-point family, one family per model,
    and any other prefix (a lower-case one included) is no family; a flag is
    raised exactly when some model of the batch is of its family. *)
Theorem classification_by_prefix
    (opts : list (string * string)) (st0 st : State) (L : Locals) :
  upto_classify opts st0 = (st, Ok L) ->
  devicelist_serial L = split space (arg_serial (args L))
  /\ List.length (devicelist_model L) = List.length (devicelist_serial L)
  /\ devicetypes L
     = fold_left (fun dt record => mark dt (family_spec record)) (devicelist_model L)
         no_devicetypes
  /\ (forall record,
        family_spec record = family_spec (prefix2 record)
        /\ (family_spec record = Some Appliance
            <-> prefix2 record = "MX" \/ prefix2 record = "Z1")
        /\ (family_spec record = Some Switch <-> prefix2 record = "MS")
        /\ (family_spec record = Some AccessPoint <-> prefix2 record = "MR")
        /\ (family_spec record = None
            <-> prefix2 record <> "MX" /\ prefix2 record <> "Z1"
                /\ prefix2 record <> "MS" /\ prefix2 record <> "MR"))
  /\ (forall dt record, devicetypes_update dt record = mark dt (family_spec record))
  /\ (mx (devicetypes L) = true
      <-> exists record, In record (devicelist_model L)
                         /\ (prefix2 record = "MX" \/ prefix2 record = "Z1"))
  /\ (ms (devicetypes L) = true
      <-> exists record, In record (devicelist_model L) /\ prefix2 record = "MS")
  /\ (mr (devicetypes L) = true
      <-> exists record, In record (devicelist_model L) /\ prefix2 record = "MR")
  /\ family_spec "mx64" = None /\ family_spec "ms120" = None
  /\ family_spec "mr34" = None /\ family_spec "z1" = None.
Proof.
  intros H. apply upto_classify_inv in H. destruct H as (_ & Hs & Hlen & Hdt & _).
  split; [exact Hs|]. split; [exact Hlen|].
  rewrite Hdt.
  split; [apply compile_devicetypes_refines|].
  split; [apply family_spec_by_prefix|].
  split; [apply devicetypes_update_refines|].
  destruct (compile_devicetypes_flags (devicelist_model L)) as (F1 & F2 & F3).
  repeat split; try apply F1; try apply F2; try apply F3.
Qed.

(** The run after the classification. *)
Lemma main_after_classify opts st0 st L :
  upto_classify opts st0 = (st, Ok L) ->
  main opts st0 = bind (bind (main_network L) main_enroll) main_bind st.
Proof.
  intros H. unfold main, upto_enroll, upto_network. unfold bind. rewrite H. reflexivity.
Qed.

Lemma main_extends_classified opts st0 st L st' r :
  upto_classify opts st0 = (st, Ok L) ->
  main opts st0 = (st', r) ->
  extends st st'.
Proof.
  intros H Hm. rewrite (main_after_classify _ _ _ _ H) in Hm.
  assert (S : sends (Forall (fun _ => True))
                (bind (bind (main_network L) main_enroll) main_bind)).
  { repeat apply sends_bind.
    - apply sends_main_network; auto.
    - intros L'. unfold main_enroll.
      apply sends_bind; [|intros; apply sends_lift; constructor].
      apply sends_enroll_loop; auto.
    - intros L'. unfold main_bind, bindnw, ret, sys_exit. sends_tac; auto. }
  destruct (S _ _ _ Hm) as (l & E & _). now exists l.
Qed.

Lemma classified_then_enrolled opts st0 st L st' L' :
  upto_classify opts st0 = (st, Ok L) ->
  upto_enroll opts st0 = (st', Ok L') ->
  devicelist_serial L' = devicelist_serial L
  /\ devicelist_model L' = devicelist_model L
  /\ devicetypes L' = devicetypes L
  /\ validserials L' = compile_validserials (devicelist_serial L) (devicelist_model L).
Proof.
  intros Hc He. unfold upto_enroll, upto_network in He.
  apply bind_inv_ok in He. destruct He as (s2 & L2 & Hn & He).
  apply bind_inv_ok in Hn. destruct Hn as (s1 & L1 & Hc' & Hn).
  rewrite Hc in Hc'. inversion Hc'; subst s1 L1. clear Hc'.
  apply main_enroll_ok in He. subst L'.
  apply main_network_ok in Hn.
  destruct Hn as [(_ & _ & ->) | (_ & v & t & _ & _ & _ & _ & ->)]; repeat split.
Qed.

(** C8. In a run that completes the classification, a serial of the input
    list that the organization inventory does not list after its
    organization-level claim gets a license-claim call of its own, for that
    same serial, which is among the requests of the finished run; the model
    recorded at its position is ['null'], so the device types, the network
    type string and, if the run reaches it, the list of serials to enroll are
    those of the batch without that position. *)
Theorem unlisted_serial_claimed_as_license
    (opts : list (string * string)) (st0 st1 sti st : State) (L1 L : Locals)
    (pre post mpre : list string) (s : string) :
  upto_template opts st0 = (st1, Ok L1) ->
  split space (arg_serial (args L1)) = pre ++ s :: post ->
  classify_loop L1 pre [] st1 = (sti, Ok mpre) ->
  inventory_lacks
    (answer (GetInventory (arg_apikey (args L1)) (shardurl L1) (orgid L1))
       (after (PostOrgClaimSerial (arg_apikey (args L1)) (shardurl L1) (orgid L1) s) sti)) s
  = true ->
  upto_classify opts st0 = (st, Ok L) ->
  exists l mpost,
    trace st = trace sti ++ unresolved_calls L1 s ++ l
    /\ (forall st' r,
          main opts st0 = (st', r) ->
          In (PostOrgClaimLicense (arg_apikey (args L1)) (shardurl L1) (orgid L1) s
                "addDevices") (trace st'))
    /\ devicelist_serial L = pre ++ s :: post
    /\ devicelist_model L = mpre ++ "null" :: mpost
    /\ List.length mpre = List.length pre
    /\ List.length mpost = List.length post
    /\ devicetypes L = compile_devicetypes (mpre ++ mpost)
    /\ nwtypestring L = build_nwtypestring (compile_devicetypes (mpre ++ mpost))
    /\ (forall st' L',
          upto_enroll opts st0 = (st', Ok L') ->
          devicetypes L' = compile_devicetypes (mpre ++ mpost)
          /\ validserials L' = compile_validserials (pre ++ post) (mpre ++ mpost)).
Proof.
  intros Ht Hsplit Hpre Hlack Hc.
  pose proof Hc as Hc0.
  unfold upto_classify in Hc. rewrite (bind_run _ _ _ _ _ Ht) in Hc.
  apply main_classify_ok in Hc. destruct Hc as (model & Hloop & HL).
  rewrite Hsplit in Hloop, HL.
  destruct (classify_loop_unlisted L1 pre post s st1 sti st mpre model Hpre Hlack Hloop)
    as (l & mpost & Htr & Hm & Hl1 & Hl2 & _ & Hdt & Hvs).
  exists l, mpost. subst model L. cbn [devicelist_serial devicelist_model devicetypes
    nwtypestring set_nwtypestring set_devicetypes set_devicelist].
  split; [exact Htr|]. split.
  { intros st' r Hmain. destruct (main_extends_classified _ _ _ _ _ _ Hc0 Hmain) as (l2 & E).
    rewrite E, Htr. apply in_or_app. left. apply in_or_app. right.
    apply in_or_app. left. unfold unresolved_calls. simpl. auto. }
  split; [reflexivity|]. split; [reflexivity|].
  split; [exact Hl1|]. split; [exact Hl2|].
  split; [exact Hdt|]. split; [now rewrite Hdt|].
  intros st' L' He.
  destruct (classified_then_enrolled _ _ _ _ _ _ Hc0 He) as (_ & _ & E3 & E4).
  cbn [devicelist_serial devicelist_model devicetypes
    set_nwtypestring set_devicetypes set_devicelist] in E3, E4.
  rewrite E3, E4. split; [exact Hdt | exact Hvs].
Qed.

Lemma compile_devicetypes_nulls (n : nat) :
  compile_devicetypes (repeat "null" n) = no_devicetypes.
Proof.
  unfold compile_devicetypes, no_devicetypes.
  induction n as [|n IH]; simpl; [reflexivity | exact IH].
Qed.

(** C10. When the inventory listing answers with a status other than
    [requests.codes.ok], the lookup returns the record with serial and model
    ['null'], the very record it returns for a serial that a successful
    listing does not contain.  Consequently, in a run on a dashboard whose
    listing always fails, the classification completes with every serial of
    the batch treated as a license or unsupported device: one license-claim
    call for each, in order, all of them among the requests of the finished
    run, every model ['null'] and no device type found. *)
Theorem failed_listing_same_as_absent
    (opts : list (string * string)) (st0 st1 : State) (L1 : Locals) :
  upto_template opts st0 = (st1, Ok L1) ->
  (forall w, status_ok (snd (dashboard
               (GetInventory (arg_apikey (args L1)) (shardurl L1) (orgid L1)) w)) = false) ->
  (forall k sh o s stx,
      getorgdeviceinfo k sh o s stx
      = (after (GetInventory k sh o) stx, orgdevice_of (answer (GetInventory k sh o) stx) s))
  /\ (forall r s, status_ok r = false -> orgdevice_of r s = Ok null_device)
  /\ (forall r s, inventory_lacks r s = true -> orgdevice_of r s = Ok null_device)
  /\ dict_get "serial" null_device = Some "null"
  /\ dict_get "model" null_device = Some "null"
  /\ exists st L,
       upto_classify opts st0 = (st, Ok L)
       /\ devicelist_serial L = split space (arg_serial (args L1))
       /\ devicelist_model L
          = repeat "null" (List.length (split space (arg_serial (args L1))))
       /\ trace st
          = trace st1 ++ flat_map (unresolved_calls L1) (split space (arg_serial (args L1)))
       /\ stdout st = stdout st1 ++ map info_line (split space (arg_serial (args L1)))
       /\ devicetypes L = no_devicetypes
       /\ nwtypestring L = ""
       /\ (forall st' r s,
             main opts st0 = (st', r) ->
             In s (split space (arg_serial (args L1))) ->
             In (PostOrgClaimLicense (arg_apikey (args L1)) (shardurl L1) (orgid L1) s
                   "addDevices") (trace st')).
Proof.
  intros Ht Hfail.
  split; [intros; apply getorgdeviceinfo_run|].
  split; [apply orgdevice_of_failed|].
  split; [apply orgdevice_of_lacks|].
  split; [reflexivity|]. split; [reflexivity|].
  destruct (classify_loop_all_failed L1 (split space (arg_serial (args L1))) Hfail [] st1)
    as (st & Hloop & Htr & Hout).
  cbn [app] in Hloop.
  assert (Hc : upto_classify opts st0
               = (st, Ok (set_nwtypestring
                            (build_nwtypestring
                               (compile_devicetypes
                                  (repeat "null"
                                     (List.length (split space (arg_serial (args L1)))))))
                            (set_devicetypes
                               (compile_devicetypes
                                  (repeat "null"
                                     (List.length (split space (arg_serial (args L1))))))
                               (set_devicelist (split space (arg_serial (args L1)))
                                  (repeat "null"
                                     (List.length (split space (arg_serial (args L1)))))
                                  L1))))).
  { unfold upto_classify. rewrite (bind_run _ _ _ _ _ Ht). unfold main_classify.
    rewrite (bind_run _ _ _ _ _ Hloop). reflexivity. }
  eexists. eexists. split; [exact Hc|].
  cbn [devicelist_serial devicelist_model devicetypes nwtypestring
         set_nwtypestring set_devicetypes set_devicelist].
  rewrite compile_devicetypes_nulls.
  repeat split; try assumption.
  intros st' r s Hmain Hin.
  destruct (main_extends_classified _ _ _ _ _ _ Hc Hmain) as (l2 & E).
  rewrite E, Htr. apply in_or_app. left. apply in_or_app. right.
  apply in_flat_map. exists s. split; [exact Hin|].
  unfold unresolved_calls. simpl. auto.
Qed.

(** * The skip of a management-only network *)




End Script.

Arguments world {World} s.
Arguments trace {World} s.
Arguments stdout {World} s.
Arguments start {World} w.
Arguments after {World} dashboard req st.
Arguments answer {World} dashboard req st.
Arguments printed {World} line st.
Arguments printed_all {World} lines st.
Arguments printhelp {World} _.
Arguments main {World} dashboard opts _.
Arguments main_argv {World} dashboard argv _.
Arguments upto_template {World} dashboard opts _.
Arguments upto_org {World} dashboard opts _.
Arguments upto_nwcheck {World} dashboard opts _.
Arguments upto_classify {World} dashboard opts _.
Arguments upto_network {World} dashboard opts _.
Arguments classify_serial {World} dashboard L serial _.
Arguments enroll_loop {World} dashboard L serials _.
Arguments upto_enroll {World} dashboard opts _.
Arguments classify_loop {World} dashboard L serials model _.
Arguments main_network {World} dashboard L _.
Arguments createnw {World} dashboard p_apikey p_shardurl p_dstorg p_nwdata _.
Arguments provision {World} dashboard L _.
Arguments getorgdeviceinfo {World} dashboard p_apikey p_shardurl p_orgid p_devserial _.

(** * The script on the reference dashboard *)

(** C1. On the serials [MR34-AAAA MS120-BBBB], whose models [MR34] and
    [MS120] are both of a recognised family, with no network [Branch1] yet,
    the run completes, derives the type ["wireless switch "] and binds with
    auto-bind, but sends no enrollment request at all: the test of line 355
    keeps a serial only when its whole model string is [mr], [ms] or [mx], so
    the list of valid serials is empty and no device is claimed into the
    network. *)
Theorem scenario_enrolls_no_device :
  upto_enroll (sim_dashboard true true) opts_scenario (start sim_world)
  = (fst (upto_enroll (sim_dashboard true true) opts_scenario (start sim_world)),
     Ok (sim_locals_enrolled (sim_args "MR34-AAAA MS120-BBBB" "null") ["MR34"; "MS120"]))
  /\ family_spec "MR34" = Some AccessPoint
  /\ family_spec "MS120" = Some Switch
  /\ validserials (sim_locals_enrolled (sim_args "MR34-AAAA MS120-BBBB" "null")
                     ["MR34"; "MS120"]) = []
  /\ snd (main (sim_dashboard true true) opts_scenario (start sim_world)) = Ok tt
  /\ trace (fst (main (sim_dashboard true true) opts_scenario (start sim_world)))
     = [GetOrganizations "1234"; GetSnmp "1234" "549236";
        GetNetworks "1234" "n27.meraki.com" "549236";
        GetConfigTemplates "1234" "n27.meraki.com" "549236";
        PostOrgClaimSerial "1234" "n27.meraki.com" "549236" "MR34-AAAA";
        GetInventory "1234" "n27.meraki.com" "549236";
        PostOrgClaimSerial "1234" "n27.meraki.com" "549236" "MS120-BBBB";
        GetInventory "1234" "n27.meraki.com" "549236";
        GetNetworks "1234" "n27.meraki.com" "549236";
        PostNetworks "1234" "n27.meraki.com" "549236" "Europe/Helsinki" ""
          "Branch1" "549236" "wireless switch ";
        GetNetworks "1234" "n27.meraki.com" "549236";
        PostBind "1234" "n27.meraki.com" "N_Branch1" "L_1234" "true"]
  /\ filter is_enrollment
       (trace (fst (main (sim_dashboard true true) opts_scenario (start sim_world)))) = []
  /\ sim_devices (world (fst (main (sim_dashboard true true) opts_scenario (start sim_world))))
     = [].
Proof. vm_compute. repeat split. Qed.

(** A device whose model string is the lower-case [mr], of no recognised
    family, is the kind of device the enrollment loop does take. *)
Lemma lowercase_model_is_enrolled :
  family_spec "mr" = None
  /\ filter is_network_claim
       (trace (fst (main (sim_dashboard true true) (opts_for "Q2LW-0000-0001 MS120-BBBB")
                      (start sim_world))))
     = [PostNetworkDevicesClaim "1234" "n27.meraki.com" "N_Branch1" "Q2LW-0000-0001"].
Proof. vm_compute. repeat split. Qed.

Lemma autobind_iff_switch_witness :
  upto_enroll (sim_dashboard true true) opts_scenario (start sim_world)
  = (fst (upto_enroll (sim_dashboard true true) opts_scenario (start sim_world)),
     Ok (sim_locals_enrolled (sim_args "MR34-AAAA MS120-BBBB" "null") ["MR34"; "MS120"]))
  /\ exists autoBind,
       trace (fst (main (sim_dashboard true true) opts_scenario (start sim_world)))
       = trace (fst (upto_enroll (sim_dashboard true true) opts_scenario (start sim_world)))
         ++ [PostBind "1234" "n27.meraki.com" "N_Branch1" "L_1234" autoBind]
       /\ (autoBind = "true"
           <-> exists record, In record ["MR34"; "MS120"] /\ prefix2 record = "MS")
       /\ (autoBind = "false"
           <-> ~ exists record, In record ["MR34"; "MS120"] /\ prefix2 record = "MS").
Proof.
  split; [vm_compute; reflexivity|].
  apply (autobind_iff_switch Sim (sim_dashboard true true) opts_scenario (start sim_world)
           (fst (upto_enroll (sim_dashboard true true) opts_scenario (start sim_world)))
           (sim_locals_enrolled (sim_args "MR34-AAAA MS120-BBBB" "null") ["MR34"; "MS120"])).
  vm_compute; reflexivity.
Defined.

Lemma bind_failure_fatal_unless_ignored_witness :
  status_ok
    (answer (sim_dashboard true false)
       (bind_request
          (sim_locals_enrolled (sim_args "MR34-AAAA MS120-BBBB" "null") ["MR34"; "MS120"]))
       (fst (upto_enroll (sim_dashboard true false) opts_scenario (start sim_world))))
  = false
  /\ main (sim_dashboard true false) opts_scenario (start sim_world)
     = (printed "@ ERROR: Unable to bind network to template"
          (after (sim_dashboard true false)
             (bind_request
                (sim_locals_enrolled (sim_args "MR34-AAAA MS120-BBBB" "null")
                   ["MR34"; "MS120"]))
             (fst (upto_enroll (sim_dashboard true false) opts_scenario (start sim_world)))),
        Exit 2).
Proof.
  split; [vm_compute; reflexivity|].
  apply (bind_failure_fatal_unless_ignored Sim (sim_dashboard true false) opts_scenario
           (start sim_world)
           (fst (upto_enroll (sim_dashboard true false) opts_scenario (start sim_world)))
           (sim_locals_enrolled (sim_args "MR34-AAAA MS120-BBBB" "null") ["MR34"; "MS120"])).
  - vm_compute; reflexivity.
  - vm_compute; reflexivity.
  - simpl. discriminate.
Defined.

Lemma existing_network_stops_run_witness :
  upto_org (sim_dashboard true true) opts_scenario (start sim_world_branch1)
  = (fst (upto_org (sim_dashboard true true) opts_scenario (start sim_world_branch1)),
     Ok (sim_locals_org (sim_args "MR34-AAAA MS120-BBBB" "null")))
  /\ main (sim_dashboard true true) opts_scenario (start sim_world_branch1)
     = (printed "@ ERROR: Network with that name already exists"
          (after (sim_dashboard true true)
             (networks_request (sim_locals_org (sim_args "MR34-AAAA MS120-BBBB" "null")))
             (fst (upto_org (sim_dashboard true true) opts_scenario
                     (start sim_world_branch1)))), Exit 2)
  /\ trace (fst (main (sim_dashboard true true) opts_scenario (start sim_world_branch1)))
     = [GetOrganizations "1234"; GetSnmp "1234" "549236";
        GetNetworks "1234" "n27.meraki.com" "549236"].
Proof.
  split; [vm_compute; reflexivity|].
  destruct (existing_network_stops_run Sim (sim_dashboard true true) opts_scenario
              (start sim_world_branch1)
              (fst (upto_org (sim_dashboard true true) opts_scenario
                      (start sim_world_branch1)))
              (sim_locals_org (sim_args "MR34-AAAA MS120-BBBB" "null")) "N_Branch1")
    as (H1 & H2 & _).
  - vm_compute; reflexivity.
  - vm_compute; reflexivity.
  - discriminate.
  - simpl. discriminate.
  - split; [exact H1 | exact H2].
Defined.

Lemma provision_idempotent_witness :
  provision (sim_dashboard true true)
    (sim_locals_org (sim_args "MR34-AAAA MS120-BBBB" "ignore_error"))
    (start sim_world_branch1)
  = (after (sim_dashboard true true)
       (networks_request (sim_locals_org (sim_args "MR34-AAAA MS120-BBBB" "ignore_error")))
       (start sim_world_branch1),
     Ok (set_nwid "N_Branch1"
           (sim_locals_org (sim_args "MR34-AAAA MS120-BBBB" "ignore_error"))))
  /\ provision (sim_dashboard true true)
       (sim_locals_org (sim_args "MR34-AAAA MS120-BBBB" "ignore_error"))
       (fst (provision (sim_dashboard true true)
               (sim_locals_org (sim_args "MR34-AAAA MS120-BBBB" "ignore_error"))
               (start sim_world)))
     = (after (sim_dashboard true true)
          (networks_request (sim_locals_org (sim_args "MR34-AAAA MS120-BBBB" "ignore_error")))
          (fst (provision (sim_dashboard true true)
                  (sim_locals_org (sim_args "MR34-AAAA MS120-BBBB" "ignore_error"))
                  (start sim_world))),
        Ok (set_nwid "N_Branch1"
              (sim_locals_org (sim_args "MR34-AAAA MS120-BBBB" "ignore_error")))).
Proof.
  split.
  - destruct (provision_idempotent Sim (sim_dashboard true true)
                (sim_locals_org (sim_args "MR34-AAAA MS120-BBBB" "ignore_error"))
                (start sim_world_branch1) eq_refl) as [H _].
    apply (H "N_Branch1").
    + vm_compute; reflexivity.
    + discriminate.
  - destruct (provision_idempotent Sim (sim_dashboard true true)
                (sim_locals_org (sim_args "MR34-AAAA MS120-BBBB" "ignore_error"))
                (start sim_world) eq_refl) as [_ H].
    apply H.
    + intros w. reflexivity.
    + vm_compute; reflexivity.
Defined.


Lemma classification_by_prefix_witness :
  upto_classify (sim_dashboard true true) opts_scenario (start sim_world)
  = (fst (upto_classify (sim_dashboard true true) opts_scenario (start sim_world)),
     Ok (sim_locals_classified (sim_args "MR34-AAAA MS120-BBBB" "null") ["MR34"; "MS120"]))
  /\ {| mx := false; ms := true; mr := true |}
     = fold_left (fun dt record => mark dt (family_spec record)) ["MR34"; "MS120"]
         no_devicetypes
  /\ (true = true <-> exists record, In record ["MR34"; "MS120"] /\ prefix2 record = "MS").
Proof.
  assert (H : upto_classify (sim_dashboard true true) opts_scenario (start sim_world)
              = (fst (upto_classify (sim_dashboard true true) opts_scenario
                        (start sim_world)),
                 Ok (sim_locals_classified (sim_args "MR34-AAAA MS120-BBBB" "null")
                       ["MR34"; "MS120"]))).
  { vm_compute; reflexivity. }
  split; [exact H|].
  destruct (classification_by_prefix Sim (sim_dashboard true true) opts_scenario
              (start sim_world) _ _ H) as (_ & _ & H1 & _ & _ & _ & H2 & _).
  split; [exact H1 | exact H2].
Defined.

Lemma unlisted_serial_claimed_as_license_witness :
  exists mpost,
    ["MR34"; "null"; "MS120"] = ["MR34"] ++ "null" :: mpost
    /\ In (PostOrgClaimLicense "1234" "n27.meraki.com" "549236" "KEY1" "addDevices")
         (trace (fst (main (sim_dashboard true true) (opts_for "MR34-AAAA KEY1 MS120-BBBB")
                        (start sim_world))))
    /\ compile_devicetypes ["MR34"; "null"; "MS120"] = compile_devicetypes (["MR34"] ++ mpost).
Proof.
  destruct (unlisted_serial_claimed_as_license Sim (sim_dashboard true true)
              (opts_for "MR34-AAAA KEY1 MS120-BBBB") (start sim_world)
              (fst (upto_template (sim_dashboard true true)
                      (opts_for "MR34-AAAA KEY1 MS120-BBBB") (start sim_world)))
              (fst (classify_loop (sim_dashboard true true)
                      (sim_locals_template (sim_args "MR34-AAAA KEY1 MS120-BBBB" "null"))
                      ["MR34-AAAA"] []
                      (fst (upto_template (sim_dashboard true true)
                              (opts_for "MR34-AAAA KEY1 MS120-BBBB") (start sim_world)))))
              (fst (upto_classify (sim_dashboard true true)
                      (opts_for "MR34-AAAA KEY1 MS120-BBBB") (start sim_world)))
              (sim_locals_template (sim_args "MR34-AAAA KEY1 MS120-BBBB" "null"))
              (sim_locals_classified (sim_args "MR34-AAAA KEY1 MS120-BBBB" "null")
                 ["MR34"; "null"; "MS120"])
              ["MR34-AAAA"] ["MS120-BBBB"] ["MR34"] "KEY1")
    as (l & mpost & _ & Hin & _ & Hm & _ & _ & Hdt & _).
  - vm_compute; reflexivity.
  - vm_compute; reflexivity.
  - vm_compute; reflexivity.
  - vm_compute; reflexivity.
  - vm_compute; reflexivity.
  - exists mpost. split; [exact Hm|]. split; [|exact Hdt].
    apply (Hin _ (snd (main (sim_dashboard true true) (opts_for "MR34-AAAA KEY1 MS120-BBBB")
                         (start sim_world)))).
    apply surjective_pairing.
Defined.

Lemma failed_listing_same_as_absent_witness :
  exists st L,
    upto_classify (sim_dashboard false true) opts_scenario (start sim_world) = (st, Ok L)
    /\ devicelist_model L = ["null"; "null"]
    /\ devicetypes L = no_devicetypes
    /\ In (PostOrgClaimLicense "1234" "n27.meraki.com" "549236" "MR34-AAAA" "addDevices")
         (trace (fst (main (sim_dashboard false true) opts_scenario (start sim_world))))
    /\ In (PostOrgClaimLicense "1234" "n27.meraki.com" "549236" "MS120-BBBB" "addDevices")
         (trace (fst (main (sim_dashboard false true) opts_scenario (start sim_world)))).
Proof.
  destruct (failed_listing_same_as_absent Sim (sim_dashboard false true) opts_scenario
              (start sim_world)
              (fst (upto_template (sim_dashboard false true) opts_scenario
                      (start sim_world)))
              (sim_locals_template (sim_args "MR34-AAAA MS120-BBBB" "null")))
    as (_ & _ & _ & _ & _ & st & L & Hrun & _ & Hm & _ & _ & Hdt & _ & Hin).
  - vm_compute; reflexivity.
  - intros w. reflexivity.
  - exists st, L. split; [exact Hrun|]. split; [exact Hm|]. split; [exact Hdt|].
    split;
      apply (Hin _ (snd (main (sim_dashboard false true) opts_scenario (start sim_world))));
      try apply surjective_pairing; simpl; auto.
Defined.

(** * Further properties on the reference dashboard *)

Lemma lookup_by_name_sound_witness :
  status_code (ok_response (JArray [named ("Other", "N_1"); named ("Branch1", "N_2")]))
  = requests_codes_ok
  /\ exists records record,
       json (ok_response (JArray [named ("Other", "N_1"); named ("Branch1", "N_2")]))
       = JArray records
       /\ In record records
       /\ dict_get "name" record = Some "Branch1" /\ dict_get "id" record = Some "N_2".
Proof.
  apply (lookup_by_name_sound
           (ok_response (JArray [named ("Other", "N_1"); named ("Branch1", "N_2")]))
           "Branch1" "N_2").
  - reflexivity.
  - discriminate.
Defined.

Lemma scan_name_first_match_witness :
  scan_name ([named ("Other", "N_1")] ++ named ("Branch1", "N_2")
               :: [named ("Branch1", "N_3"); []]) "Branch1"
  = Ok "N_2"
  /\ scan_name [named ("Other", "N_1")] "Branch1" = Ok "null".
Proof.
  apply (scan_name_first_match [named ("Other", "N_1")] [named ("Branch1", "N_3"); []]
           (named ("Branch1", "N_2")) "Branch1").
  - constructor; [|constructor]. exists "Other". split; [reflexivity | discriminate].
  - reflexivity.
Defined.

Lemma orgdevice_sound_witness :
  device_fields "00:18:0a:00:00:00" "MR34-AAAA" "" "MR34" "1499212800" "" = null_device
  \/ (status_code
        (ok_response (JArray [inventory_record (sim_catalogue sim_world) "MR34-AAAA"]))
      = requests_codes_ok
      /\ dict_get "serial"
           (device_fields "00:18:0a:00:00:00" "MR34-AAAA" "" "MR34" "1499212800" "")
         = Some "MR34-AAAA"
      /\ exists records record,
           json (ok_response (JArray [inventory_record (sim_catalogue sim_world) "MR34-AAAA"]))
           = JArray records
           /\ In record records
           /\ dict_get "serial" record = Some "MR34-AAAA"
           /\ dict_get "model"
                (device_fields "00:18:0a:00:00:00" "MR34-AAAA" "" "MR34" "1499212800" "")
              = dict_get "model" record).
Proof.
  apply (orgdevice_sound
           (ok_response (JArray [inventory_record (sim_catalogue sim_world) "MR34-AAAA"]))
           "MR34-AAAA").
  reflexivity.
Defined.

Lemma inventory_last_match_wins_witness :
  orgdevice_of
    (ok_response
       (JArray ([device_fields "m1" "S-1" "" "MR34" "1" ""]
                ++ device_fields "m2" "S-1" "N_9" "MR42" "2" "10.0.0.1"
                :: [device_fields "m3" "S-2" "" "MS120" "3" ""])))
    "S-1"
  = Ok (device_fields "m2" "S-1" "N_9" "MR42" "2" "10.0.0.1").
Proof.
  apply (inventory_last_match_wins
           (ok_response
              (JArray ([device_fields "m1" "S-1" "" "MR34" "1" ""]
                       ++ device_fields "m2" "S-1" "N_9" "MR42" "2" "10.0.0.1"
                       :: [device_fields "m3" "S-2" "" "MS120" "3" ""])))
           [device_fields "m1" "S-1" "" "MR34" "1" ""]
           [device_fields "m3" "S-2" "" "MS120" "3" ""]
           (device_fields "m2" "S-1" "N_9" "MR42" "2" "10.0.0.1")
           "S-1" "m2" "N_9" "MR42" "2" "10.0.0.1"
           true (device_fields "m1" "S-1" "" "MR34" "1" ""));
    reflexivity.
Defined.

Lemma help_option_exits_zero_witness :
  exists lines,
    List.length lines = 21%nat
    /\ (forall st : State Sim,
          printhelp st = (printed_all lines st, Ok tt)
          /\ main_argv (sim_dashboard true true) ["-k"; "1234"; "-h"] st
             = (printed_all lines st, Exit 0)
          /\ trace (fst (main_argv (sim_dashboard true true) ["-k"; "1234"; "-h"] st))
             = trace st)
    /\ (forall argv' (st : State Sim),
          getopt argv' = GetoptError ->
          main_argv (sim_dashboard true true) argv' st = (printed_all lines st, Exit 2))
    /\ getopt ["-h"; "-z"] = GetoptError
    /\ getopt ["-k"; "-h"] = Parsed [("-k", "-h")] [].
Proof.
  apply (help_option_exits_zero Sim (sim_dashboard true true) ["-k"; "1234"; "-h"]
           [("-k", "1234"); ("-h", "")] []).
  - reflexivity.
  - simpl. auto.
Defined.

Lemma missing_argument_exits_witness :
  exists lines,
    List.length lines = 21%nat
    /\ printhelp (start sim_world) = (printed_all lines (start sim_world), Ok tt)
    /\ main (sim_dashboard true true)
         [("-k", "1234"); ("-o", "MyCustomer"); ("-s", "MR34-AAAA"); ("-n", "null");
          ("-c", "MyCfgTemplate")] (start sim_world)
       = (printed_all lines (start sim_world), Exit 2)
    /\ trace (fst (main (sim_dashboard true true)
                     [("-k", "1234"); ("-o", "MyCustomer"); ("-s", "MR34-AAAA");
                      ("-n", "null"); ("-c", "MyCfgTemplate")] (start sim_world)))
       = trace (start sim_world).
Proof.
  apply (missing_argument_exits Sim (sim_dashboard true true)
           [("-k", "1234"); ("-o", "MyCustomer"); ("-s", "MR34-AAAA"); ("-n", "null");
            ("-c", "MyCfgTemplate")]
           {| arg_apikey := "1234"; arg_orgname := "MyCustomer"; arg_serial := "MR34-AAAA";
              arg_nwname := "null"; arg_template := "MyCfgTemplate";
              arg_modexisting := "null"; arg_address := "null"; arg_nwtags := "null" |}
           (start sim_world)).
  - reflexivity.
  - simpl. auto.
Defined.

Lemma organization_or_shard_failure_stops_run_witness :
  main (sim_dashboard true true)
    [("-k", "1234"); ("-o", "Nobody"); ("-s", "MR34-AAAA"); ("-n", "Branch1");
     ("-c", "MyCfgTemplate")] (start sim_world)
  = (printed "@ ERROR: Fetching organization failed"
       (after (sim_dashboard true true) (GetOrganizations "1234") (start sim_world)),
     Exit 2).
Proof.
  destruct (organization_or_shard_failure_stops_run Sim (sim_dashboard true true)
              [("-k", "1234"); ("-o", "Nobody"); ("-s", "MR34-AAAA"); ("-n", "Branch1");
               ("-c", "MyCfgTemplate")] (start sim_world)
              (sim_locals_init
                 {| arg_apikey := "1234"; arg_orgname := "Nobody";
                    arg_serial := "MR34-AAAA"; arg_nwname := "Branch1";
                    arg_template := "MyCfgTemplate"; arg_modexisting := "null";
                    arg_address := "null"; arg_nwtags := "null" |}))
    as [H _].
  - vm_compute; reflexivity.
  - apply H. vm_compute; reflexivity.
Defined.

Lemma missing_template_stops_run_witness :
  upto_nwcheck (sim_dashboard true true)
    [("-k", "1234"); ("-o", "MyCustomer"); ("-s", "MR34-AAAA"); ("-n", "Branch1");
     ("-c", "NoSuchTemplate")] (start sim_world)
  = (fst (upto_nwcheck (sim_dashboard true true)
            [("-k", "1234"); ("-o", "MyCustomer"); ("-s", "MR34-AAAA"); ("-n", "Branch1");
             ("-c", "NoSuchTemplate")] (start sim_world)),
     Ok (set_nwid "null"
           (sim_locals_org
              {| arg_apikey := "1234"; arg_orgname := "MyCustomer";
                 arg_serial := "MR34-AAAA"; arg_nwname := "Branch1";
                 arg_template := "NoSuchTemplate"; arg_modexisting := "null";
                 arg_address := "null"; arg_nwtags := "null" |})))
  /\ snd (main (sim_dashboard true true)
            [("-k", "1234"); ("-o", "MyCustomer"); ("-s", "MR34-AAAA"); ("-n", "Branch1");
             ("-c", "NoSuchTemplate")] (start sim_world))
     = Exit 2
  /\ trace (fst (main (sim_dashboard true true)
                   [("-k", "1234"); ("-o", "MyCustomer"); ("-s", "MR34-AAAA");
                    ("-n", "Branch1"); ("-c", "NoSuchTemplate")] (start sim_world)))
     = [GetOrganizations "1234"; GetSnmp "1234" "549236";
        GetNetworks "1234" "n27.meraki.com" "549236";
        GetConfigTemplates "1234" "n27.meraki.com" "549236"].
Proof.
  split; [vm_compute; reflexivity|].
  destruct (missing_template_stops_run Sim (sim_dashboard true true)
              [("-k", "1234"); ("-o", "MyCustomer"); ("-s", "MR34-AAAA"); ("-n", "Branch1");
               ("-c", "NoSuchTemplate")] (start sim_world)
              (fst (upto_nwcheck (sim_dashboard true true)
                      [("-k", "1234"); ("-o", "MyCustomer"); ("-s", "MR34-AAAA");
                       ("-n", "Branch1"); ("-c", "NoSuchTemplate")] (start sim_world)))
              (set_nwid "null"
                 (sim_locals_org
                    {| arg_apikey := "1234"; arg_orgname := "MyCustomer";
                       arg_serial := "MR34-AAAA"; arg_nwname := "Branch1";
                       arg_template := "NoSuchTemplate"; arg_modexisting := "null";
                       arg_address := "null"; arg_nwtags := "null" |})))
    as [H1 H2].
  - vm_compute; reflexivity.
  - vm_compute; reflexivity.
  - split; [rewrite H1; reflexivity | rewrite H2; vm_compute; reflexivity].
Defined.

Lemma createnw_outcomes_witness :
  createnw (sim_dashboard true true) "1234" "n27.meraki.com" "549236"
    {| nw_name := "Branch1"; nw_timeZone := "Europe/Helsinki"; nw_tags := "";
       nw_organizationId := "000000"; nw_type := "combined" |} (start sim_world)
  = (after (sim_dashboard true true)
       (PostNetworks "1234" "n27.meraki.com" "549236" "Europe/Helsinki" "" "Branch1"
          "549236" "wireless switch appliance")
       (after (sim_dashboard true true) (GetNetworks "1234" "n27.meraki.com" "549236")
          (start sim_world)), Ok "ok").
Proof.
  apply (createnw_outcomes Sim (sim_dashboard true true) "1234" "n27.meraki.com" "549236"
           {| nw_name := "Branch1"; nw_timeZone := "Europe/Helsinki"; nw_tags := "";
              nw_organizationId := "000000"; nw_type := "combined" |}
           (start sim_world) "null").
  vm_compute; reflexivity.
Defined.

Lemma creation_verified_by_lookup_witness :
  main_network (sim_dashboard true true)
    (set_nwid "null"
       (sim_locals_enrolled (sim_args "MR34-AAAA MS120-BBBB" "null") ["MR34"; "MS120"]))
    (start sim_world)
  = (fst (main_network (sim_dashboard true true)
            (set_nwid "null"
               (sim_locals_enrolled (sim_args "MR34-AAAA MS120-BBBB" "null")
                  ["MR34"; "MS120"]))
            (start sim_world)),
     Ok (sim_locals_enrolled (sim_args "MR34-AAAA MS120-BBBB" "null") ["MR34"; "MS120"])).
Proof.
  rewrite (creation_verified_by_lookup Sim (sim_dashboard true true)
             (set_nwid "null"
                (sim_locals_enrolled (sim_args "MR34-AAAA MS120-BBBB" "null")
                   ["MR34"; "MS120"]))
             (start sim_world)).
  - vm_compute; reflexivity.
  - reflexivity.
  - vm_compute; reflexivity.
  - reflexivity.
Defined.

Lemma late_found_network_stops_run_witness :
  snd (main flaky_dashboard (opts_for "MR34-AAAA" ++ [("-m", "ignore_error")])
         (start (false, sim_world_branch1)))
  = Exit 2
  /\ filter is_creation
       (trace (fst (main flaky_dashboard (opts_for "MR34-AAAA" ++ [("-m", "ignore_error")])
                      (start (false, sim_world_branch1)))))
     = [].
Proof.
  destruct (late_found_network_stops_run (bool * Sim) flaky_dashboard
              (opts_for "MR34-AAAA" ++ [("-m", "ignore_error")])
              (start (false, sim_world_branch1))
              (fst (upto_classify flaky_dashboard
                      (opts_for "MR34-AAAA" ++ [("-m", "ignore_error")])
                      (start (false, sim_world_branch1))))
              (set_nwid "null"
                 (sim_locals_enrolled (sim_args "MR34-AAAA" "ignore_error") ["MR34"]))
              "N_Branch1")
    as [H1 H2].
  - vm_compute; reflexivity.
  - reflexivity.
  - vm_compute; reflexivity.
  - discriminate.
  - split; [rewrite H1; reflexivity | rewrite H2; vm_compute; reflexivity].
Defined.

Lemma listed_serial_not_claimed_as_license_witness :
  classify_serial (sim_dashboard true true)
    (sim_locals_org (sim_args "MR34-AAAA" "null")) "MR34-AAAA" (start sim_world)
  = (after (sim_dashboard true true) (GetInventory "1234" "n27.meraki.com" "549236")
       (after (sim_dashboard true true)
          (PostOrgClaimSerial "1234" "n27.meraki.com" "549236" "MR34-AAAA")
          (start sim_world)), Ok "MR34").
Proof.
  apply (listed_serial_not_claimed_as_license Sim (sim_dashboard true true)
           (sim_locals_org (sim_args "MR34-AAAA" "null")) "MR34-AAAA" (start sim_world)
           (device_fields "00:18:0a:00:00:00" "MR34-AAAA" "" "MR34" "1499212800" "")).
  - vm_compute; reflexivity.
  - reflexivity.
  - discriminate.
  - reflexivity.
Defined.

Lemma enroll_one_device_witness :
  enroll_loop (sim_dashboard true true)
    (sim_locals_enrolled (sim_args "Q2LW-0000-0001" "null") ["mr"])
    ("Q2LW-0000-0001" :: []) (start sim_world_claimed)
  = enroll_loop (sim_dashboard true true)
      (sim_locals_enrolled (sim_args "Q2LW-0000-0001" "null") ["mr"]) []
      (after (sim_dashboard true true)
         (PutNetworkDevice "1234" "n27.meraki.com" "N_Branch1" "Q2LW-0000-0001"
            "name" "mr_Q2LW-0000-0001" "false")
         (after (sim_dashboard true true)
            (GetNetworkDevice "1234" "n27.meraki.com" "N_Branch1" "Q2LW-0000-0001")
            (after (sim_dashboard true true)
               (PostNetworkDevicesClaim "1234" "n27.meraki.com" "N_Branch1"
                  "Q2LW-0000-0001")
               (start sim_world_claimed)))).
Proof.
  apply (enroll_one_device Sim (sim_dashboard true true)
           (sim_locals_enrolled (sim_args "Q2LW-0000-0001" "null") ["mr"])
           "Q2LW-0000-0001" [] (start sim_world_claimed)
           (inventory_record (sim_catalogue sim_world) "Q2LW-0000-0001")
           "Q2LW-0000-0001" "mr").
  - vm_compute; reflexivity.
  - vm_compute; reflexivity.
  - reflexivity.
  - discriminate.
  - reflexivity.
Defined.

Lemma enrollment_failure_stops_run_witness :
  snd (main refusing_dashboard (opts_for "Q2LW-0000-0001") (start sim_world)) = Exit 2
  /\ filter is_bind
       (trace (fst (main refusing_dashboard (opts_for "Q2LW-0000-0001") (start sim_world))))
     = [].
Proof.
  destruct (enrollment_failure_stops_run Sim refusing_dashboard
              (opts_for "Q2LW-0000-0001") (start sim_world)
              (fst (upto_network refusing_dashboard (opts_for "Q2LW-0000-0001")
                      (start sim_world)))
              (set_validserials []
                 (sim_locals_enrolled (sim_args "Q2LW-0000-0001" "null") ["mr"]))
              "Q2LW-0000-0001" [])
    as [H1 H2].
  - vm_compute; reflexivity.
  - reflexivity.
  - vm_compute; reflexivity.
  - split; [rewrite H1; reflexivity | rewrite H2; vm_compute; reflexivity].
Defined.

Lemma exit_codes_witness :
  2%Z = 2%Z \/ (2%Z = 0%Z /\ In "-h" (map fst opts_scenario)).
Proof.
  apply (exit_codes Sim (sim_dashboard true true) opts_scenario (start sim_world_branch1)
           (fst (main (sim_dashboard true true) opts_scenario (start sim_world_branch1)))).
  vm_compute; reflexivity.
Defined.

Lemma printed_lines_are_usertext_witness :
  exists texts,
    stdout (fst (main (sim_dashboard true true) (opts_for "KEY1") (start sim_world)))
    = stdout (start sim_world) ++ texts
    /\ Forall (fun text => is_usertext text = true) texts
    /\ (single_line_opts (opts_for "KEY1") ->
        Forall (fun text => has_char newline text = false) texts
        /\ lines_of texts = texts
        /\ Forall (fun line => is_usertext line = true) (lines_of texts)).
Proof.
  apply (printed_lines_are_usertext Sim (sim_dashboard true true) (opts_for "KEY1")
           (start sim_world) _ (Ok tt)).
  vm_compute; reflexivity.
Defined.

(** Without the condition of X20 a line of the output need not start with
    [@]: a template name of two lines is printed back as it is. *)
Lemma template_newline_breaks_line :
  lines_of
    (stdout (fst (main (sim_dashboard true true)
                    [("-k", "1234"); ("-o", "MyCustomer"); ("-s", "KEY1"); ("-n", "Branch1");
                     ("-c", "x" +++ String newline "y")]
                    (start sim_world))))
  = ["@ ERROR: Unable to find template: x"; "y"].
Proof. vm_compute; reflexivity. Qed.

Lemma requests_use_resolved_shard_witness :
  exists l,
    trace (fst (main (sim_dashboard true true) opts_scenario (start sim_world)))
    = trace (fst (upto_org (sim_dashboard true true) opts_scenario (start sim_world))) ++ l
    /\ Forall (addressed "1234" "n27.meraki.com" "549236") l.
Proof.
  apply (requests_use_resolved_shard Sim (sim_dashboard true true) opts_scenario
           (start sim_world)
           (fst (upto_org (sim_dashboard true true) opts_scenario (start sim_world)))
           (fst (main (sim_dashboard true true) opts_scenario (start sim_world)))
           (sim_locals_org (sim_args "MR34-AAAA MS120-BBBB" "null")) (Ok tt)).
  - vm_compute; reflexivity.
  - vm_compute; reflexivity.
Defined.

Lemma requests_in_phases_witness :
  exists l1 l2 l3 l4 l5,
    trace (fst (main (sim_dashboard true true) (opts_for "Q2LW-0000-0001 KEY1")
                  (start sim_world)))
    = trace (start sim_world) ++ l1 ++ l2 ++ l3 ++ l4 ++ l5
    /\ Forall (fun req => is_lookup req = true) l1
    /\ Forall (fun req => is_org_claim req = true) l2
    /\ Forall (fun req => is_network_phase req = true) l3
    /\ (List.length (filter is_creation l3) <= 1)%nat
    /\ Forall (fun req => is_enrollment req = true) l4
    /\ Forall (fun req => is_bind req = true) l5
    /\ (List.length l5 <= 1)%nat.
Proof.
  apply (requests_in_phases Sim (sim_dashboard true true) (opts_for "Q2LW-0000-0001 KEY1")
           (start sim_world) _ (Ok tt)).
  vm_compute; reflexivity.
Defined.
